(** * The annotated data container of scanpy: [scanpy/classes/ann_data.py]

    A shallow embedding of [BoundRecArr] and [AnnData] together with the
    helper [odict_merge] of [scanpy/utils.py].  Python objects that the
    program shares and mutates (matrices, annotation tables, the [add]
    dictionary) live in an explicit store; an exception is a [Raise]
    result.  numpy and scipy are libraries the program calls: the few of
    their operations that the program uses are written out below, next to
    the place where the program calls them. *)

From Stdlib Require Import ZArith Ascii String List Bool Lia DecimalString.
From stdpp Require Import base list.
Import ListNotations.
Local Open Scope string_scope.
Local Open Scope list_scope.
Local Open Scope Z_scope.

(** ** Exceptions and results *)

Inductive exn : Set :=
| IndexError | ValueError | TypeError | KeyError | AttributeError | AssertionError
| OverflowError | NotImplementedError.

Inductive result (A : Type) : Type :=
| Ok (a : A)
| Raise (e : exn).
Arguments Ok {A} a.
Arguments Raise {A} e.

Definition rbind {A B} (r : result A) (k : A -> result B) : result B :=
  match r with
  | Ok a => k a
  | Raise e => Raise e
  end.

Notation "'let?' x := r 'in' k" := (rbind r (fun x => k))
  (at level 10, x pattern, r at level 100, k at level 200).

Fixpoint rmap {A B} (f : A -> result B) (l : list A) : result (list B) :=
  match l with
  | [] => Ok []
  | a :: l' => let? b := f a in let? bs := rmap f l' in Ok (b :: bs)
  end.

(** ** Python dictionaries with string keys

    [dict] and [OrderedDict] both keep the order of first insertion;
    writing an existing key replaces its value where it stands. *)

Section Dict.
Context {V : Type}.

Fixpoint dict_get (k : string) (d : list (string * V)) : option V :=
  match d with
  | [] => None
  | (k', v) :: d' => if String.eqb k k' then Some v else dict_get k d'
  end.

Definition dict_has (k : string) (d : list (string * V)) : bool :=
  match dict_get k d with Some _ => true | None => false end.

Fixpoint dict_set (k : string) (v : V) (d : list (string * V)) : list (string * V) :=
  match d with
  | [] => [(k, v)]
  | (k', v') :: d' =>
      if String.eqb k k' then (k', v) :: d' else (k', v') :: dict_set k v d'
  end.

Fixpoint dict_del (k : string) (d : list (string * V)) : list (string * V) :=
  match d with
  | [] => []
  | (k', v') :: d' =>
      if String.eqb k k' then dict_del k d' else (k', v') :: dict_del k d'
  end.

(** [d.get(k, {})] for a missing key. *)
Definition dict_get_default (k : string) (dflt : V) (d : list (string * V)) : V :=
  match dict_get k d with Some v => v | None => dflt end.
End Dict.

(** [odict_merge] of [utils.py]: every item of every dictionary given is
    written into one fresh [OrderedDict], in order. *)
Definition odict_merge {V} (ds : list (list (string * V))) : list (string * V) :=
  fold_left (fun merged d => fold_left (fun m kv => dict_set (fst kv) (snd kv) m) d merged) ds [].

(** ** One-dimensional numpy arrays (columns of a record array) *)

Inductive column : Type :=
| IntCol (xs : list Z)          (* dtype int64 *)
| StrCol (xs : list string)     (* dtype <U.. *)
| BoolCol (xs : list bool).     (* dtype bool *)

Definition col_len (c : column) : nat :=
  match c with
  | IntCol xs => length xs
  | StrCol xs => length xs
  | BoolCol xs => length xs
  end.

(** [np.arange(n)] *)
Definition arange (n : nat) : column := IntCol (map Z.of_nat (seq 0 n)).

(** The elements of [xs] at the positions [ps], all of which are in range
    where this is called. *)
Definition pick {A} (ps : list nat) (xs : list A) : list A :=
  omap (fun p => xs !! p) ps.

Definition col_pick (ps : list nat) (c : column) : column :=
  match c with
  | IntCol xs => IntCol (pick ps xs)
  | StrCol xs => StrCol (pick ps xs)
  | BoolCol xs => BoolCol (pick ps xs)
  end.

Definition col_repeat (n : nat) (c : column) : column :=
  match c with
  | IntCol xs => IntCol (concat (replicate n xs))
  | StrCol xs => StrCol (concat (replicate n xs))
  | BoolCol xs => BoolCol (concat (replicate n xs))
  end.

(** numpy's rule for writing a 1-D array into [n] places: the lengths
    agree, or the array has one element, which is repeated. *)
Definition broadcast_to (n : nat) (c : column) : result column :=
  if Nat.eqb (col_len c) n then Ok c
  else if Nat.eqb (col_len c) 1 then Ok (col_repeat n c)
  else Raise ValueError.

(** ** Python values

    The values that reach the container: scalars, lists of labels or of
    annotation values (held as the array [np.asarray] makes of them),
    mappings with string keys, and references to matrix objects in the
    store. *)

Abbreviation loc := nat (only parsing).

#[local] Set Warnings "-register-all".
Inductive pyobj : Type :=
| PNone
| PInt (z : Z)
| PStr (s : string)
| PBool (b : bool)
| PList (c : column)
| PDict (d : list (string * pyobj))
| PRef (l : loc).

(** [np.asarray(col)] for an entry of an annotation mapping: the array
    of a list, and for a number, a string or a truth value the 0-d array
    that holds it, kept here as its one element; [ndim] tells the two
    apart.  [None], a mapping and a matrix would give an array of objects
    or a 2-D array, which the tables of this development do not hold:
    such an entry is given no column and is reported as a [TypeError]. *)
Definition asarray (v : pyobj) : result column :=
  match v with
  | PList c => Ok c
  | PInt z => Ok (IntCol [z])
  | PStr s => Ok (StrCol [s])
  | PBool b => Ok (BoolCol [b])
  | _ => Raise TypeError
  end.

Definition ndim (v : pyobj) : nat :=
  match v with
  | PList _ => 1
  | _ => 0
  end.

(** numpy converts a column that is written into a field of another
    dtype.  A string is read as an integer by Python's [int]: white space
    around the numeral is dropped, a sign may come first, and single
    underscores may stand between digits; the number has to fit the
    int64 field.  (Strings are ASCII text here.)  A string field keeps its
    width, the longest of its entries and at least one character. *)
Definition is_space (c : ascii) : bool :=
  let n := nat_of_ascii c in
  ((9 <=? n) && (n <=? 13) || (28 <=? n) && (n <=? 32))%nat.

Definition digit_of (c : ascii) : option Z :=
  let n := nat_of_ascii c in
  if ((48 <=? n) && (n <=? 57))%nat then Some (Z.of_nat (n - 48)) else None.

Fixpoint lstrip (s : string) : string :=
  match s with
  | String c s' => if is_space c then lstrip s' else s
  | EmptyString => s
  end.

Fixpoint string_rev (s acc : string) : string :=
  match s with
  | String c s' => string_rev s' (String c acc)
  | EmptyString => acc
  end.

Definition strip (s : string) : string :=
  string_rev (lstrip (string_rev (lstrip s) EmptyString)) EmptyString.

(** The digits of a numeral, [after_digit] telling whether the character
    before was a digit: an underscore may only follow a digit, and a digit
    ends the numeral. *)
Fixpoint digits_value (acc : Z) (after_digit : bool) (s : string) : option Z :=
  match s with
  | EmptyString => if after_digit then Some acc else None
  | String c s' =>
      match digit_of c with
      | Some d => digits_value (10 * acc + d) true s'
      | None =>
          if Ascii.eqb c "_"%char && after_digit then digits_value acc false s' else None
      end
  end.

Definition in_int64 (z : Z) : bool := (- 2 ^ 63 <=? z) && (z <? 2 ^ 63).

Definition int_of_str (s : string) : result Z :=
  let numeral := match strip s with
                 | String "-"%char s' => option_map Z.opp (digits_value 0 false s')
                 | String "+"%char s' => digits_value 0 false s'
                 | s' => digits_value 0 false s'
                 end in
  match numeral with
  | Some z => if in_int64 z then Ok z else Raise OverflowError
  | None => Raise ValueError
  end.

Definition str_of_int (z : Z) : string := NilZero.string_of_int (Z.to_int z).

Definition str_of_bool (b : bool) : string := if b then "True" else "False".

Definition str_width (xs : list string) : nat :=
  Nat.max 1 (fold_right Nat.max 0%nat (map String.length xs)).

Definition astype_like (field v : column) : result column :=
  match field, v with
  | IntCol _, IntCol xs => Ok (IntCol xs)
  | IntCol _, BoolCol bs => Ok (IntCol (map Z.b2z bs))
  | IntCol _, StrCol ss => let? xs := rmap int_of_str ss in Ok (IntCol xs)
  | StrCol ts, StrCol ss => Ok (StrCol (map (substring 0 (str_width ts)) ss))
  | StrCol ts, IntCol xs =>
      Ok (StrCol (map (fun x => substring 0 (str_width ts) (str_of_int x)) xs))
  | StrCol ts, BoolCol bs =>
      Ok (StrCol (map (fun b => substring 0 (str_width ts) (str_of_bool b)) bs))
  | BoolCol _, BoolCol bs => Ok (BoolCol bs)
  | BoolCol _, IntCol xs => Ok (BoolCol (map (fun x => negb (Z.eqb x 0)) xs))
  | BoolCol _, StrCol ss =>
      let? xs := rmap int_of_str ss in Ok (BoolCol (map (fun x => negb (Z.eqb x 0)) xs))
  end.

(** [(c == np.arange(n)).all()], for [c] of length [n].  Against a string
    column the comparison is not elementwise: numpy of the scipy
    [IndexMixin] years answers a bare [False], which has no [all]. *)
Definition equals_arange (c : column) (n : nat) : result bool :=
  match c with
  | IntCol xs => Ok (bool_decide (xs = map Z.of_nat (seq 0 n)))
  | BoolCol bs => Ok (bool_decide (map Z.b2z bs = map Z.of_nat (seq 0 n)))
  | StrCol _ => Raise AttributeError
  end.

(** ** Record arrays *)

Definition SMP_NAMES : string := "smp_names".
Definition VAR_NAMES : string := "var_names".

(** A record array is the list of its fields, in [dtype.names] order,
    each with its column; all columns have the array's length. *)
Definition recarray : Type := list (string * column).

Definition names (a : recarray) : list string := map fst a.

Definition rec_len (a : recarray) : nat :=
  match a with
  | [] => 0%nat
  | (_, c) :: _ => col_len c
  end.

(** [a[name]]: a missing field is a [ValueError]. *)
Definition rec_field (name : string) (a : recarray) : result column :=
  match dict_get name a with
  | Some c => Ok c
  | None => Raise ValueError
  end.

(** [a[name] = v], the [__setitem__] of [np.recarray] itself. *)
Definition rec_set_field (name : string) (v : column) (a : recarray) : result recarray :=
  match dict_get name a with
  | None => Raise ValueError
  | Some c =>
      let? v' := astype_like c v in
      let? v'' := broadcast_to (rec_len a) v' in
      Ok (dict_set name v'' a)
  end.

(** [a[ps]] for positions [ps]: the same rows of every field. *)
Definition rec_rows (ps : list nat) (a : recarray) : recarray :=
  map (fun kc => (fst kc, col_pick ps (snd kc))) a.

(** [np.dtype] and the [dtype.names] setter refuse a repeated name. *)
Fixpoint distinct (l : list string) : bool :=
  match l with
  | [] => true
  | x :: l' => negb (existsb (String.eqb x) l') && distinct l'
  end.

(** ** [BoundRecArr] *)

Record BoundRecArr : Type := mkBoundRecArr {
  dtype : recarray;      (* the fields and their data *)
  _name_col : string     (* the name of the identifier field *)
}.

(** What can be handed to [BoundRecArr] as [source]. *)
Inductive source : Type :=
| SrcNone
| SrcRecarray (a : recarray)
| SrcMapping (m : list (string * pyobj))
| SrcOther (truth : bool).    (* any other object, with its truth value *)

(** Whether [cols[0]] is a 0-d array, of which [len] raises [TypeError]:
    the first entry of a mapping is a scalar. *)
Definition first_is_unsized (src : source) : bool :=
  match src with
  | SrcMapping ((_, v) :: _) => Nat.eqb (ndim v) 0
  | _ => false
  end.

(** [np.arange(n_row)] where [n_row] may have been left at [None]. *)
Definition arange_opt (n_row : option nat) : result column :=
  match n_row with
  | Some n => Ok (arange n)
  | None => Raise TypeError
  end.

(** [BoundRecArr.__new__(cls, source, name_col, parent, n_row)] *)
Definition BoundRecArr_new (src : source) (name_col : string) (n_row : option nat)
  : result BoundRecArr :=
  let? cols :=
    match src with
    | SrcNone => let? c := arange_opt n_row in Ok [(name_col, c)]
    | SrcRecarray a => Ok a
    | SrcMapping m =>
        let? cols := rmap (fun kv => let? c := asarray (snd kv) in Ok (fst kv, c)) m in
        if dict_has name_col m then Ok cols
        else if first_is_unsized src then Raise TypeError
        else
          let? c := arange_opt (match cols with
                                | (_, c0) :: _ => Some (col_len c0)
                                | [] => n_row
                                end) in
          Ok (cols ++ [(name_col, c)])
    | SrcOther _ => Raise ValueError
    end in
  if negb (distinct (map fst cols)) then Raise ValueError
  else
    match cols with
    | [] => Raise IndexError
    | (_, c0) :: _ =>
        if first_is_unsized src then Raise TypeError
        else
          let? filled := rmap (fun kc => let? c := broadcast_to (col_len c0) (snd kc) in
                                         Ok (fst kc, c)) cols in
          Ok (mkBoundRecArr filled name_col)
    end.

(** [BoundRecArr.flipped(self)] *)
Definition flipped (self : BoundRecArr) : result BoundRecArr :=
  let old_name_col := _name_col self in
  let new_name_col := if String.eqb old_name_col VAR_NAMES then SMP_NAMES else VAR_NAMES in
  let? fl := BoundRecArr_new (SrcRecarray (dtype self)) new_name_col
                             (Some (rec_len (dtype self))) in
  let renamed := map (fun n => if String.eqb n old_name_col then new_name_col else n)
                     (names (dtype self)) in
  if negb (distinct renamed) then Raise ValueError
  else Ok (mkBoundRecArr (zip renamed (map snd (dtype fl))) (_name_col fl)).


(** ** Matrices *)

(** The formats of scipy's sparse matrices, each a subclass of
    [sp.spmatrix]. *)
Inductive sparse_format : Set := bsr | coo | csc | csr | dia | dok | lil.

(** The class of a matrix object: [np.ndarray] itself, its subclasses
    [ma.MaskedArray] and [np.matrix], or a sparse format. *)
Inductive array_class : Set :=
| cls_ndarray | cls_MaskedArray | cls_matrix | cls_spmatrix (format : sparse_format).

(** The classes that [StorageType] names. *)
Inductive base_class : Set := np_ndarray | ma_MaskedArray | sp_spmatrix.

(** [class StorageType(Enum)], its members in definition order and their
    values. *)
Inductive StorageType : Set := Array | Masked | Sparse.

Definition StorageType_members : list StorageType := [Array; Masked; Sparse].

Definition StorageType_value (s : StorageType) : base_class :=
  match s with
  | Array => np_ndarray
  | Masked => ma_MaskedArray
  | Sparse => sp_spmatrix
  end.

(** [isinstance(x, cls)] for [x] of class [c]: a masked array and a
    matrix are an [ndarray] too. *)
Definition isinstance (c : array_class) (cls : base_class) : bool :=
  match c, cls with
  | cls_ndarray, np_ndarray => true
  | cls_MaskedArray, np_ndarray => true
  | cls_MaskedArray, ma_MaskedArray => true
  | cls_matrix, np_ndarray => true
  | cls_spmatrix _, sp_spmatrix => true
  | _, _ => false
  end.

(** The classes whose indexing is numpy's. *)
Definition numpy_class (c : array_class) : bool :=
  match c with
  | cls_spmatrix _ => false
  | _ => true
  end.

(** The contents of a matrix object by rank.  Cells are integers: what a
    cell holds (a number, a masked number, a record) plays no part in the
    program.  Of arrays of rank three and more only the shape is kept. *)
Inductive payload : Type :=
| Data0 (x : Z)
| Data1 (xs : list Z)
| Data2 (n_rows n_cols : nat) (rows : list (list Z))
| DataN (d0 d1 d2 : nat) (ds : list nat).

Record array_obj : Type := mkArray {
  klass : array_class;
  dtype_names : bool;     (* [X.dtype.names is not None] *)
  data : payload
}.

Definition shape (p : payload) : list nat :=
  match p with
  | Data0 _ => []
  | Data1 xs => [length xs]
  | Data2 r c _ => [r; c]
  | DataN d0 d1 d2 ds => d0 :: d1 :: d2 :: ds
  end.

(** [X.shape = (X.shape[0], 1)] on a 1-D array *)
Definition to_column_matrix (xs : list Z) : payload :=
  Data2 (length xs) 1 (map (fun x => [x]) xs).

(** The rows of the transpose of a matrix with [n_cols] columns. *)
Fixpoint transpose_rows {A} (n_cols : nat) (rows : list (list A)) : list (list A) :=
  match rows with
  | [] => replicate n_cols []
  | r :: rows' => zip_with cons r (transpose_rows n_cols rows')
  end.

(** A 2-D matrix has as many rows, and rows as long, as its shape says. *)
Definition wf_grid (r c : nat) (rows : list (list Z)) : Prop :=
  length rows = r /\ Forall (fun row => length row = c) rows.

Definition payload_ok (p : payload) : Prop :=
  match p with
  | Data2 r c rows => wf_grid r c rows
  | _ => True
  end.

(** The class of [X.T]: the transpose of a [csr_matrix] is a
    [csc_matrix] and the other way round; every other class gives its
    own. *)
Definition T_class (c : array_class) : array_class :=
  match c with
  | cls_spmatrix csr => cls_spmatrix csc
  | cls_spmatrix csc => cls_spmatrix csr
  | _ => c
  end.

(** [X.T] *)
Definition transposed (p : payload) : payload :=
  match p with
  | Data2 r c rows => Data2 c r (transpose_rows c rows)
  | DataN d0 d1 d2 ds => 
      match rev (d0 :: d1 :: d2 :: ds) with
      | e0 :: e1 :: e2 :: es => DataN e0 e1 e2 es
      | _ => p
      end
  | _ => p
  end.

(** ** The store *)

Inductive obj : Type :=
| OArray (a : array_obj)
| OTable (t : BoundRecArr)
| ODict (d : list (string * pyobj)).

Abbreviation heap := (list obj) (only parsing).

(** A computation runs on the store and returns a value or raises; what it
    has written before raising stays written. *)
Definition M (A : Type) : Type := heap -> heap * result A.

Definition ret {A} (a : A) : M A := fun h => (h, Ok a).
Definition raise {A} (e : exn) : M A := fun h => (h, Raise e).
Definition bind {A B} (m : M A) (k : A -> M B) : M B :=
  fun h => match m h with
           | (h', Ok a) => k a h'
           | (h', Raise e) => (h', Raise e)
           end.
Definition lift {A} (r : result A) : M A := fun h => (h, r).

Notation "x <- m ;; k" := (bind m (fun x => k))
  (at level 100, m at next level, right associativity).

(** A new object gets the next free place. *)
Definition alloc (o : obj) : M loc := fun h => (h ++ [o], Ok (length h)).
Definition store (l : loc) (o : obj) : M unit := fun h => (<[l := o]> h, Ok tt).

(** A reference of a container always points at an object of its kind;
    the [Raise] branches of the three readers are not taken then. *)
Definition load_array (l : loc) : M array_obj :=
  fun h => match h !! l with
           | Some (OArray a) => (h, Ok a)
           | _ => (h, Raise AttributeError)
           end.
Definition load_table (l : loc) : M BoundRecArr :=
  fun h => match h !! l with
           | Some (OTable t) => (h, Ok t)
           | _ => (h, Raise AttributeError)
           end.
Definition load_dict (l : loc) : M (list (string * pyobj)) :=
  fun h => match h !! l with
           | Some (ODict d) => (h, Ok d)
           | _ => (h, Raise AttributeError)
           end.

(** ** Indices *)

(** An integer, a label or a boolean, as an index or inside one. *)
Inductive key : Type :=
| KInt (i : Z)
| KStr (s : string)
| KBool (b : bool).

(** One axis of an index expression.  [SelOther] is an object that is
    none of the others and neither a sequence nor an array: [None], a
    float, a numpy integer, a set, a sparse matrix. *)
Inductive selector : Type :=
| SelKey (k : key)
| SelSlice (start stop : option key) (step : option Z)
| SelSeq (ks : list key)        (* a list, a tuple, or a 1-D array of labels *)
| SelIntArray (js : list Z)     (* a 1-D [np.ndarray] of dtype int64 *)
| SelMask (bs : list bool)      (* a 1-D boolean [np.ndarray] *)
| SelEllipsis                   (* [...] *)
| SelOther.

(** What is written between the brackets: one selector, a tuple of
    selectors, or a 2-D boolean array. *)
Inductive index : Type :=
| IdxOne (s : selector)
| IdxTuple (ss : list selector)
| IdxMask2 (bss : list (list bool)).

Definition full_slice : selector := SelSlice None None None.

(** The normal form of a selector: a slice with integer bounds, or an
    array of positions. *)
Inductive nindex : Type :=
| NSlice (start stop step : option Z)
| NArray (js : list Z).

(** [i.nonzero()[0]] for a 1-D boolean array *)
Fixpoint nonzero_from (p : nat) (bs : list bool) : list Z :=
  match bs with
  | [] => []
  | b :: bs' => if b then Z.of_nat p :: nonzero_from (S p) bs' else nonzero_from (S p) bs'
  end.
Definition nonzero (bs : list bool) : list Z := nonzero_from 0 bs.

(** [IndexMixin._check_boolean] of scipy, on one axis: a boolean
    [np.ndarray] becomes the array of the positions it marks. *)
Definition _check_boolean (s : selector) : selector :=
  match s with
  | SelMask bs => SelIntArray (nonzero bs)
  | _ => s
  end.

(** [index.nonzero()] for a 2-D boolean array: the rows and the columns
    of the cells marked, row by row. *)
Definition nonzero2 (bss : list (list bool)) : list Z * list Z :=
  let marked := concat (imap (fun i bs => map (fun j => (Z.of_nat i, j)) (nonzero bs)) bss) in
  (map fst marked, map snd marked).

Definition is_Ellipsis (s : selector) : bool :=
  match s with SelEllipsis => true | _ => false end.

(** The place of the first [...] in a tuple. *)
Fixpoint first_ellipsis (ss : list selector) : option nat :=
  match ss with
  | [] => None
  | s :: ss' => if is_Ellipsis s then Some 0%nat else option_map S (first_ellipsis ss')
  end.

(** [IndexMixin._check_ellipsis] of scipy: the first [...] stands for as
    many full slices as two axes leave room for, any further one for
    none. *)
Definition _check_ellipsis (ix : index) : index :=
  match ix with
  | IdxOne SelEllipsis => IdxTuple [full_slice; full_slice]
  | IdxTuple ss =>
      match first_ellipsis ss with
      | None => ix
      | Some j =>
          match ss with
          | [_] => IdxTuple [full_slice; full_slice]
          | [s0; s1] =>
              if Nat.eqb j 0
              then (if is_Ellipsis s1 then IdxTuple [full_slice; full_slice]
                    else IdxTuple [full_slice; s1])
              else IdxTuple [s0; full_slice]
          | _ =>
              let tail := List.filter (fun s => negb (is_Ellipsis s)) (drop (S j) ss) in
              let nd := (j + length tail)%nat in
              IdxTuple (take j ss ++ replicate (2 - nd) full_slice ++ tail)
          end
      end
  | _ => ix
  end.

(** [IndexMixin._unpack_index] of scipy (the class is imported from
    [scipy.sparse.sputils]): a 2-D boolean array gives the positions of
    its marked cells at once; otherwise [...] is replaced, a pair is taken
    apart, a single selector gets all columns, and each axis goes through
    [_check_boolean]. *)
Definition _unpack_index (packed_index : index) : result (selector * selector) :=
  match packed_index with
  | IdxMask2 bss => Ok (SelIntArray (fst (nonzero2 bss)), SelIntArray (snd (nonzero2 bss)))
  | _ =>
      let? rc := match _check_ellipsis packed_index with
                 | IdxTuple [row; col] => Ok (row, col)
                 | IdxTuple [row] => Ok (row, full_slice)
                 | IdxTuple _ => Raise IndexError
                 | IdxOne row => Ok (row, full_slice)
                 | IdxMask2 _ => Raise IndexError
                 end in
      Ok (_check_boolean (fst rc), _check_boolean (snd rc))
  end.

(** [np.where(names == i)[0][0]]: the first position of the label; on an
    empty match the final [[0]] is out of bounds. *)
Fixpoint first_match (i : string) (xs : list string) (p : Z) : result Z :=
  match xs with
  | [] => Raise IndexError
  | x :: xs' => if String.eqb x i then Ok p else first_match i xs' (p + 1)
  end.

Definition where_first (names : column) (i : string) : result Z :=
  match names with
  | StrCol xs => first_match i xs 0
  | _ => Raise IndexError      (* no number or boolean equals a string *)
  end.

(** The local [name_idx] of [_normalize_index]: a label is looked up, an
    integer stands for itself, and so does a boolean, which is an integer
    to Python. *)
Definition name_idx (names : column) (i : key) : result Z :=
  match i with
  | KStr s => where_first names s
  | KInt z => Ok z
  | KBool b => Ok (Z.b2z b)
  end.

(** [name_idx] on a slice bound, where [None] stays [None]. *)
Definition name_idx_bound (names : column) (i : option key) : result (option Z) :=
  match i with
  | Some k => let? p := name_idx names k in Ok (Some p)
  | None => Ok None
  end.

(** [np.fromiter(..., 'int64')] takes each element as it comes and
    refuses a Python integer that does not fit.  (A position that
    [np.where] has found is an int64 already.) *)
Definition to_int64 (z : Z) : result Z :=
  if in_int64 z then Ok z else Raise OverflowError.

Definition fromiter_int64 (names : column) (k : key) : result Z :=
  let? i := name_idx names k in
  match k with
  | KInt _ => to_int64 i
  | _ => Ok i
  end.

(** [AnnData._normalize_index(self, index, names)] *)
Definition _normalize_index (ix : selector) (names : column) : result nindex :=
  match ix with
  | SelSlice start stop step =>
      let? start' := name_idx_bound names start in
      let? stop' := name_idx_bound names stop in
      let stop'' := match stop with
                    | Some (KStr _) => option_map (fun p => p + 1) stop'
                    | _ => stop'
                    end in
      Ok (NSlice start' stop'' step)
  | SelKey k =>
      let? start := name_idx names k in
      Ok (NSlice (Some start) (Some (start + 1)) (Some 1))
  | SelSeq ks =>
      let? js := rmap (fromiter_int64 names) ks in
      Ok (NArray js)
  | SelIntArray js => Ok (NArray js)
  | SelMask bs => Ok (NArray (map Z.b2z bs))
  | SelEllipsis | SelOther => Raise IndexError
  end.

(** Python's [slice.indices] and [range]: the positions a slice selects
    on an axis of length [n]. *)
Definition slice_bounds (start stop step : option Z) (n : Z) : result (Z * Z * Z) :=
  let step := default 1 step in
  if step =? 0 then Raise ValueError
  else
    let lower := if step <? 0 then -1 else 0 in
    let upper := if step <? 0 then n - 1 else n in
    let clip := fun v => if v <? 0 then Z.max (v + n) lower else Z.min v upper in
    let start := match start with
                 | None => if step <? 0 then upper else lower
                 | Some v => clip v
                 end in
    let stop := match stop with
                | None => if step <? 0 then lower else upper
                | Some v => clip v
                end in
    Ok (start, stop, step).

Definition range (start stop step : Z) : list Z :=
  let count := if 0 <? step
               then (if start <? stop then (stop - start - 1) / step + 1 else 0)
               else (if stop <? start then (start - stop - 1) / (- step) + 1 else 0) in
  map (fun i => start + Z.of_nat i * step) (seq 0 (Z.to_nat count)).

(** The positions a normalized selector picks on an axis of length [n];
    an array entry may count from the end and must be in range. *)
Definition axis_positions (ni : nindex) (n : nat) : result (list nat) :=
  match ni with
  | NSlice start stop step =>
      let? b := slice_bounds start stop step (Z.of_nat n) in
      Ok (map Z.to_nat (range (fst (fst b)) (snd (fst b)) (snd b)))
  | NArray js =>
      rmap (fun j => if (- Z.of_nat n <=? j) && (j <? Z.of_nat n)
                     then Ok (Z.to_nat (if j <? 0 then j + Z.of_nat n else j))
                     else Raise IndexError) js
  end.

(** ** numpy indexing of a matrix *)

(** Two index arrays are paired off, a single entry being repeated. *)
Definition paired (rs cs : list nat) : result (list (nat * nat)) :=
  if Nat.eqb (length rs) (length cs) then Ok (zip rs cs)
  else if Nat.eqb (length rs) 1 then Ok (zip (concat (replicate (length cs) rs)) cs)
  else if Nat.eqb (length cs) 1 then Ok (zip rs (concat (replicate (length rs) cs)))
  else Raise IndexError.

(** numpy's [X[smp, var]] for a 2-D matrix.  A slice on either axis gives
    the sub-matrix of the selected rows and columns.  Two index arrays
    select cell by cell: that is a 1-D array, which an [np.matrix] turns
    into a matrix of one row.  (A container's matrix is 2-D; other ranks
    do not take two indices of these kinds.) *)
Definition ndarray_getitem (c : array_class) (p : payload) (smp var : nindex) : result payload :=
  match p with
  | Data2 n_rows n_cols rows =>
      let? rs := axis_positions smp n_rows in
      let? cs := axis_positions var n_cols in
      match smp, var with
      | NArray _, NArray _ =>
          let? ij := paired rs cs in
          let cells := omap (fun ij => r ← rows !! (fst ij); r !! (snd ij)) ij in
          match c with
          | cls_matrix => Ok (Data2 1 (length cells) [cells])
          | _ => Ok (Data1 cells)
          end
      | _, _ => Ok (Data2 (length rs) (length cs) (map (pick cs) (pick rs rows)))
      end
  | _ => Raise IndexError
  end.

(** scipy's sparse formats differ in what their [__getitem__] accepts
    and returns, and from one version of scipy to the next ([bsr_matrix]
    raises [NotImplementedError]); [coo_matrix] and [dia_matrix] have
    none.  What the others do is not followed: it is a table of which
    only this is used, that what comes back is an array as well shaped as
    the one indexed. *)
Class Scipy : Type := mkScipy {
  spmatrix_getitem : sparse_format -> payload -> nindex -> nindex -> result array_obj;
  spmatrix_getitem_ok f p smp var a' :
    payload_ok p -> spmatrix_getitem f p smp var = Ok a' -> payload_ok (data a')
}.

Definition has_getitem (f : sparse_format) : bool :=
  match f with
  | coo | dia => false
  | _ => true
  end.

(** [X[smp, var]]: the [__getitem__] of the class of [X]. *)
Definition array_getitem {scipy : Scipy} (a : array_obj) (smp var : nindex) : result array_obj :=
  match klass a with
  | cls_spmatrix f =>
      if has_getitem f then spmatrix_getitem f (data a) smp var else Raise TypeError
  | c =>
      let? Xd := ndarray_getitem c (data a) smp var in
      Ok (mkArray c (dtype_names a) Xd)
  end.

(** [del X[smp, var]] always raises.  An [ndarray] refuses to delete
    elements.  A sparse format that has [__setitem__] is asked for the
    [__delitem__] it lacks; [dok_matrix] has that of [dict], which cannot
    hash the index; [coo_matrix] and [dia_matrix] support no item
    deletion. *)
Definition array_delitem (c : array_class) : result unit :=
  match c with
  | cls_spmatrix (coo | dia | dok) => Raise TypeError
  | cls_spmatrix _ => Raise AttributeError
  | _ => Raise ValueError
  end.

(** [a[index]] on a record array *)
Definition rec_getitem (a : recarray) (ni : nindex) : result recarray :=
  let? ps := axis_positions ni (rec_len a) in
  Ok (rec_rows ps a).

(** [X.shape[i]] *)
Definition shape_at (p : payload) (i : nat) : result nat :=
  match shape p !! i with
  | Some n => Ok n
  | None => Raise IndexError
  end.

(** [index == slice(None)].  (Only slices are compared here; the
    comparison is reached in [__delitem__] after the deletion from the
    matrix, which has raised.) *)
Definition is_slice_None (ni : nindex) : bool :=
  match ni with
  | NSlice None None None => true
  | _ => false
  end.

(** ** [AnnData] *)

(** An instance holds references: to its matrix, to its two tables and to
    its dictionary of unstructured annotation. *)
Record AnnData : Type := mkAnnData {
  storage_type : StorageType;
  X : loc;
  smp : loc;
  var : loc;
  add : loc
}.

(** [AnnData.from_ddata(self, ddata)] *)
Definition items (v : pyobj) : result (list (string * pyobj)) :=
  match v with
  | PDict d => Ok d
  | _ => Raise AttributeError
  end.

Definition from_ddata (ddata : list (string * pyobj))
  : result (pyobj * list (string * pyobj) * list (string * pyobj) * list (string * pyobj)) :=
  let add := odict_merge [ddata] in
  match dict_get "X" add with
  | None => Raise KeyError
  | Some X =>
      let add := dict_del "X" add in
      let '(smp, add) :=
        match dict_get "row_names" add, dict_get "smp_names" add with
        | Some v, _ => ([("smp_names", v)], dict_del "row_names" add)
        | None, Some v => ([("smp_names", v)], dict_del "smp_names" add)
        | None, None => ([], add)
        end in
      let '(var, add) :=
        match dict_get "col_names" add, dict_get "var_names" add with
        | Some v, _ => ([("var_names", v)], dict_del "col_names" add)
        | None, Some v => ([("var_names", v)], dict_del "var_names" add)
        | None, None => ([], add)
        end in
      let? row := items (dict_get_default "row" (PDict []) add) in
      let? smp' := items (dict_get_default "smp" (PDict []) add) in
      let smp := odict_merge [smp; row; smp'] in
      let? col := items (dict_get_default "col" (PDict []) add) in
      let? var' := items (dict_get_default "var" (PDict []) add) in
      let var := odict_merge [var; col; var'] in
      let add := fold_left (fun a k => dict_del k a) ["row"; "smp"; "col"; "var"] add in
      Ok (X, smp, var, add)
  end.

(** numpy's truth of one string: some character that is not white space
    and not null, or any character after a null. *)
Fixpoint str_nonzero (seen_null : bool) (s : string) : bool :=
  match s with
  | EmptyString => false
  | String c s' =>
      if Ascii.eqb c zero then str_nonzero true s'
      else if seen_null || negb (is_space c) then true
      else str_nonzero seen_null s'
  end.

Definition col_nonzero (c : column) : bool :=
  match c with
  | IntCol xs => existsb (fun x => negb (Z.eqb x 0)) xs
  | StrCol xs => existsb (str_nonzero false) xs
  | BoolCol xs => existsb (fun b => b) xs
  end.

(** The truth value of an annotation argument, for [any((smp, var, add))]:
    [None] and an empty mapping are false.  numpy calls an empty array
    false and an array of one record true when some field of the record
    is not zero; it refuses to give an array with more elements a truth
    value. *)
Definition truth (s : source) : result bool :=
  match s with
  | SrcNone => Ok false
  | SrcRecarray a =>
      match rec_len a with
      | 0%nat => Ok false
      | 1%nat => Ok (existsb (fun kc => col_nonzero (snd kc)) a)
      | _ => Raise ValueError
      end
  | SrcMapping m => Ok (match m with [] => false | _ => true end)
  | SrcOther b => Ok b
  end.

(** [any((smp, var, add))] stops at the first true value. *)
Definition any_annotation (smp var : source) (add : list (string * pyobj)) : result bool :=
  let? b := truth smp in
  if b : bool then Ok true
  else
    let? b := truth var in
    if b : bool then Ok true
    else Ok (match add with [] => false | _ => true end).

(** [_check_dimensions(data, smp, var)] *)
Definition _check_dimensions (data : payload) (smp var : BoundRecArr) : result unit :=
  match shape data with
  | [n_smp; n_var] =>
      if negb (Nat.eqb (rec_len (dtype smp)) n_smp) then Raise ValueError
      else if negb (Nat.eqb (rec_len (dtype var)) n_var) then Raise ValueError
      else Ok tt
  | _ => Raise ValueError
  end.

(** The loop over [StorageType] in [__init__]: the first member whose
    value the matrix is an instance of. *)
Definition find_storage_type (c : array_class) : option StorageType :=
  List.find (fun s_type => isinstance c (StorageType_value s_type)) StorageType_members.

(** [AnnData.__init__(self, ddata_or_X, smp, var, **add)] *)
Definition AnnData_init (ddata_or_X : pyobj) (smp var : source) (add : list (string * pyobj))
  : M AnnData :=
  args <- (match ddata_or_X with
           | PDict ddata =>
               given <- lift (any_annotation smp var add) ;;
               if given : bool
               then raise ValueError
               else
                 r <- lift (from_ddata ddata) ;;
                 let '(X, smp, var, add) := r in
                 ret (X, SrcMapping smp, SrcMapping var, add)
           | _ => ret (ddata_or_X, smp, var, add)
           end) ;;
  let '(X, smp, var, add) := args in
  match X with
  | PRef lX =>
      a <- load_array lX ;;
      match find_storage_type (klass a) with
      | None => raise ValueError
      | Some s_type =>
          a <- (match data a with
                | Data1 xs =>
                    let a' := mkArray (klass a) (dtype_names a) (to_column_matrix xs) in
                    _ <- store lX (OArray a') ;;
                    ret a'
                | _ => ret a
                end) ;;
          if negb (dtype_names a) && negb (Nat.eqb (length (shape (data a))) 2)
          then raise ValueError
          else
            match shape (data a) with
            | [n_smp; n_var] =>
                smp_t <- lift (BoundRecArr_new smp SMP_NAMES (Some n_smp)) ;;
                lsmp <- alloc (OTable smp_t) ;;
                var_t <- lift (BoundRecArr_new var VAR_NAMES (Some n_var)) ;;
                lvar <- alloc (OTable var_t) ;;
                _ <- lift (_check_dimensions (data a) smp_t var_t) ;;
                ladd <- alloc (ODict add) ;;
                ret (mkAnnData s_type lX lsmp lvar ladd)
            | _ => raise ValueError
            end
      end
  | _ => raise ValueError
  end.

(** A call [AnnData(X, smp, var, **kwargs)]: Python refuses a keyword that
    names a parameter already given by position, and hands the others to
    [__init__] in a dictionary of their own. *)
Definition AnnData_call (X : pyobj) (smp var : source) (kwargs : list (string * pyobj))
  : M AnnData :=
  if existsb (fun k => dict_has k kwargs) ["self"; "ddata_or_X"; "smp"; "var"]
  then raise TypeError
  else AnnData_init X smp var kwargs.

(** The properties [smp_names] and [var_names] *)
Definition smp_names (self : AnnData) : M column :=
  t <- load_table (smp self) ;; lift (rec_field SMP_NAMES (dtype t)).

Definition var_names (self : AnnData) : M column :=
  t <- load_table (var self) ;; lift (rec_field VAR_NAMES (dtype t)).

(** [AnnData._normalize_indices(self, packed_index)] *)
Definition _normalize_indices (self : AnnData) (packed_index : index) : M (nindex * nindex) :=
  rc <- lift (_unpack_index packed_index) ;;
  sn <- smp_names self ;;
  smp_i <- lift (_normalize_index (fst rc) sn) ;;
  vn <- var_names self ;;
  var_i <- lift (_normalize_index (snd rc) vn) ;;
  ret (smp_i, var_i).

(** What [adata[index]] gives: an entry of [add], or a new container. *)
Inductive item : Type :=
| ItemValue (v : pyobj)
| ItemData (adata : AnnData).

Definition assert (b : bool) : M unit :=
  if b then ret tt else raise AssertionError.

(** [AnnData.__getitem__(self, index)] past its first lines, for an
    index that is not a string.  The matrix [X[smp, var]] is a new object
    of the store, entered with the cells it shows.  (numpy gives a view
    for two slices: the object is new, the memory is the parent's.  That
    only matters to a later write into a matrix, which [__setitem__]
    below leaves to numpy.) *)
Definition getitem_data {scipy : Scipy} (self : AnnData) (ix : index) : M item :=
  sv <- _normalize_indices self ix ;;
  a <- load_array (X self) ;;
  X' <- lift (array_getitem a (fst sv) (snd sv)) ;;
  lX <- alloc (OArray X') ;;
  smp_t <- load_table (smp self) ;;
  smp_ann <- lift (rec_getitem (dtype smp_t) (fst sv)) ;;
  var_t <- load_table (var self) ;;
  var_ann <- lift (rec_getitem (dtype var_t) (snd sv)) ;;
  n0 <- lift (shape_at (data X') 0) ;;
  _ <- assert (Nat.eqb (rec_len smp_ann) n0) ;;
  n1 <- lift (shape_at (data X') 1) ;;
  _ <- assert (Nat.eqb (rec_len var_ann) n1) ;;
  d <- load_dict (add self) ;;
  adata <- AnnData_call (PRef lX) (SrcRecarray smp_ann) (SrcRecarray var_ann) d ;;
  ret (ItemData adata).

(** [AnnData.__getitem__(self, index)] *)
Definition AnnData_getitem {scipy : Scipy} (self : AnnData) (ix : index) : M item :=
  match ix with
  | IdxOne (SelKey (KStr k)) =>
      d <- load_dict (add self) ;;
      match dict_get k d with
      | Some v => ret (ItemValue v)
      | None => raise KeyError
      end
  | _ => getitem_data self ix
  end.

Section SetItem.

(** [X[smp, var] = val] is numpy's (or scipy's) business: what it writes
    into the matrix at [X], and with it into every matrix that shares its
    memory, and when it refuses, is left open here. *)
Variable array_setitem : loc -> nindex -> nindex -> pyobj -> M unit.

(** [AnnData.__setitem__(self, index, val)] *)
Definition AnnData_setitem (self : AnnData) (ix : index) (val : pyobj) : M unit :=
  match ix with
  | IdxOne (SelKey (KStr k)) =>
      d <- load_dict (add self) ;;
      store (add self) (ODict (dict_set k val d))
  | _ =>
      sv <- _normalize_indices self ix ;;
      array_setitem (X self) (fst sv) (snd sv) val
  end.

End SetItem.

(** [AnnData.__delitem__(self, index)].  The tables are record arrays,
    which have no attribute [iloc]. *)
Definition AnnData_delitem (self : AnnData) (ix : index) : M unit :=
  sv <- _normalize_indices self ix ;;
  a <- load_array (X self) ;;
  _ <- lift (array_delitem (klass a)) ;;
  _ <- (if is_slice_None (snd sv) then raise AttributeError else ret tt) ;;
  _ <- (if is_slice_None (fst sv) then raise AttributeError else ret tt) ;;
  ret tt.

(** [AnnData.__contains__(self, item)] *)
Definition AnnData_contains (self : AnnData) (k : string) : M bool :=
  d <- load_dict (add self) ;; ret (dict_has k d).

(** [AnnData.__len__(self)] *)
Definition AnnData_len (self : AnnData) : M nat :=
  a <- load_array (X self) ;; lift (shape_at (data a) 0).

(** [AnnData.transpose(self)].  [X.T] is a new object too (for an
    [ndarray], a view). *)
Definition transpose (self : AnnData) : M AnnData :=
  a <- load_array (X self) ;;
  lT <- alloc (OArray (mkArray (T_class (klass a)) (dtype_names a) (transposed (data a)))) ;;
  var_t <- load_table (var self) ;;
  var_f <- lift (flipped var_t) ;;
  smp_t <- load_table (smp self) ;;
  smp_f <- lift (flipped smp_t) ;;
  d <- load_dict (add self) ;;
  AnnData_call (PRef lT) (SrcRecarray (dtype var_f)) (SrcRecarray (dtype smp_f)) d.

(** The two attributes that [__setattr__] watches. *)
Inductive table_attr : Set := attr_smp | attr_var.

(** What is assigned to them: a [BoundRecArr] that exists already, or
    something to make one from. *)
Inductive attr_value : Type :=
| ValBound (l : loc)
| ValSource (s : source).

Definition set_table (key : table_attr) (l : loc) (self : AnnData) : AnnData :=
  match key with
  | attr_smp => mkAnnData (storage_type self) (X self) l (var self) (add self)
  | attr_var => mkAnnData (storage_type self) (X self) (smp self) l (add self)
  end.

(** [AnnData.__setattr__(self, key, value)] for [key] one of [smp] and
    [var].  The statement [value[names_col] = names_orig] runs
    [BoundRecArr.__setitem__] with one key, which is a field of [value]
    (it has just been read): that is the branch for present keys, the
    [__setitem__] of [np.recarray]. *)
Definition AnnData_setattr (self : AnnData) (key : table_attr) (value : attr_value)
  : M AnnData :=
  match value with
  | ValBound l => ret (set_table key l self)
  | ValSource value_orig =>
      let names_col := match key with attr_smp => SMP_NAMES | attr_var => VAR_NAMES end in
      names_orig <- (match key with
                     | attr_smp => smp_names self
                     | attr_var => var_names self
                     end) ;;
      let dim := match key with attr_smp => 0%nat | attr_var => 1%nat end in
      value <- lift (BoundRecArr_new value_orig names_col None) ;;
      a <- load_array (X self) ;;
      n <- lift (shape_at (data a) dim) ;;
      if negb (Nat.eqb (rec_len (dtype value)) n) then raise ValueError
      else
        c <- lift (rec_field names_col (dtype value)) ;;
        is_default <- lift (equals_arange c n) ;;
        value <- (if is_default : bool
                  then
                    fs <- lift (rec_set_field names_col names_orig (dtype value)) ;;
                    ret (mkBoundRecArr fs (_name_col value))
                  else ret value) ;;
        l <- alloc (OTable value) ;;
        ret (set_table key l self)
  end.

(** ** Well-formed containers *)

(** The parameter names of [__init__]: no keyword argument can bear one. *)
Definition parameter_names : list string := ["self"; "ddata_or_X"; "smp"; "var"].

Definition no_parameter_name (d : list (string * pyobj)) : Prop :=
  existsb (fun k => dict_has k d) parameter_names = false.

(** A record array of length [n]: at least one field, no name twice,
    every column of length [n]. *)
Definition wf_fields (a : recarray) (n : nat) : Prop :=
  a <> [] /\ distinct (names a) = true /\ Forall (fun kc => col_len (snd kc) = n) a.

(** What the references of [ad] point at in [h]. *)
Definition holds (h : heap) (ad : AnnData)
  (a : array_obj) (ts tv : BoundRecArr) (d : list (string * pyobj)) : Prop :=
  h !! X ad = Some (OArray a) /\
  h !! smp ad = Some (OTable ts) /\
  h !! var ad = Some (OTable tv) /\
  h !! add ad = Some (ODict d).

(** The state in which [__init__] leaves a container that was called with
    keyword arguments and was given tables that have their identifier
    column: an [r]-by-[c] matrix, a table of length [r] bound to
    [smp_names], a table of length [c] bound to [var_names]. *)
Definition well_formed (r c : nat) (rows : list (list Z))
  (a : array_obj) (ts tv : BoundRecArr) (d : list (string * pyobj)) : Prop :=
  data a = Data2 r c rows /\ wf_grid r c rows /\
  wf_fields (dtype ts) r /\ _name_col ts = SMP_NAMES /\ dict_has SMP_NAMES (dtype ts) = true /\
  wf_fields (dtype tv) c /\ _name_col tv = VAR_NAMES /\ dict_has VAR_NAMES (dtype tv) = true /\
  no_parameter_name d.

Definition valid (h : heap) (ad : AnnData) : Prop :=
  exists r c rows a ts tv d, holds h ad a ts tv d /\ well_formed r c rows a ts tv d.

(** The storage type [__init__] records for a matrix of class [c]. *)
Definition recorded_storage_type (c : array_class) : StorageType :=
  match c with
  | cls_spmatrix _ => Sparse
  | _ => Array
  end.




(** [z] is a number that an int64 holds. *)
Definition fits_int64 (z : Z) : Prop := - 2 ^ 63 <= z < 2 ^ 63.

(** The label [s] is not among the identifiers [names]. *)
Definition label_missing (names : column) (s : string) : Prop :=
  match names with
  | StrCol xs => ~ In s xs
  | _ => True
  end.

(** A selector that uses a label with the property [P]: as the index
    itself, as a bound of a slice, or as an entry of a list. *)
Inductive uses_label (P : string -> Prop) : selector -> Prop :=
| label_key s :
    P s -> uses_label P (SelKey (KStr s))
| label_start s stop step :
    P s -> uses_label P (SelSlice (Some (KStr s)) stop step)
| label_stop start s step :
    P s -> uses_label P (SelSlice start (Some (KStr s)) step)
| label_entry ks s :
    In (KStr s) ks -> P s -> uses_label P (SelSeq ks).

(** The label [s] is absent from the identifier column [name] of the
    table [t] (a table without that column holds no label). *)
Definition absent_from (name : string) (t : BoundRecArr) (s : string) : Prop :=
  forall names, rec_field name (dtype t) = Ok names -> label_missing names s.

(** Every integer of a list selector is a number that an int64 holds. *)
Definition key_fits (k : key) : Prop :=
  match k with
  | KInt z => fits_int64 z
  | _ => True
  end.

Definition list_fits (sel : selector) : Prop :=
  match sel with
  | SelSeq ks => Forall key_fits ks
  | _ => True
  end.

(** A single string between the brackets is a key of [add]. *)
Definition is_add_key (ix : index) : bool :=
  match ix with
  | IdxOne (SelKey (KStr _)) => true
  | _ => false
  end.



(** ** The matrices and containers of the tests *)

Definition mat23 : array_obj :=
  mkArray cls_ndarray false (Data2 2 3 [[1; 2; 3]; [4; 5; 6]]).

Definition masked22 : array_obj :=
  mkArray cls_MaskedArray false (Data2 2 2 [[1; 2]; [3; 4]]).

Definition vec2 : array_obj := mkArray cls_ndarray false (Data1 [1; 2]).

Definition labels_AB : pyobj := PList (StrCol ["A"; "B"]).
Definition labels_abc : pyobj := PList (StrCol ["a"; "b"; "c"]).

(** The store after [AnnData(np.array([[1,2,3],[4,5,6]]),
    dict(smp_names=['A','B']), dict(var_names=['a','b','c']))] and the
    container it returns. *)
Definition heap_named : heap :=
  [OArray mat23;
   OTable (mkBoundRecArr [(SMP_NAMES, StrCol ["A"; "B"])] SMP_NAMES);
   OTable (mkBoundRecArr [(VAR_NAMES, StrCol ["a"; "b"; "c"])] VAR_NAMES);
   ODict []].

Definition adata_named : AnnData := mkAnnData Array 0%nat 1%nat 2%nat 3%nat.

(** The store after [AnnData(np.array([[1,2,3],[4,5,6]]),
    dict(smp_names=[1,2]))], as in [test_set_add], and its container. *)
Definition heap_numbered : heap :=
  [OArray mat23;
   OTable (mkBoundRecArr [(SMP_NAMES, IntCol [1; 2])] SMP_NAMES);
   OTable (mkBoundRecArr [(VAR_NAMES, IntCol [0; 1; 2])] VAR_NAMES);
   ODict []].

(** One instance of numpy's assignment, for statements that have to name
    one: a scalar written over a whole matrix. *)
Definition fill_all (l : loc) (smp var : nindex) (val : pyobj) : M unit :=
  a <- load_array l ;;
  match data a, val with
  | Data2 r n rows, PInt z =>
      store l (OArray (mkArray (klass a) (dtype_names a)
                               (Data2 r n (map (map (fun _ => z)) rows))))
  | _, _ => raise ValueError
  end.

(** A table for the examples, whose matrices are numpy's: one in which
    every sparse format is as [coo_matrix] and [dia_matrix] are. *)
Definition no_sparse_indexing (f : sparse_format) (p : payload) (smp var : nindex)
  : result array_obj := Raise TypeError.

#[export] Instance no_sparse_indexing_table : Scipy :=
  mkScipy no_sparse_indexing
    (fun f p smp var a' _ (E : no_sparse_indexing f p smp var = Ok a') =>
       match E in (_ = r)
             return (match r with Ok x => payload_ok (data x) | Raise _ => True end)
       with eq_refl => I end).

(** ** What [__init__] does on a 2-D matrix

    The two tables and the dictionary are made one after the other; an
    exception leaves behind what was made before it. *)
Definition init_outcome (h : heap) (l : loc) (a : array_obj) (r c : nat)
  (smp var : source) (add : list (string * pyobj)) : heap * result AnnData :=
  match BoundRecArr_new smp SMP_NAMES (Some r) with
  | Raise e => (h, Raise e)
  | Ok ts =>
      match BoundRecArr_new var VAR_NAMES (Some c) with
      | Raise e => (h ++ [OTable ts], Raise e)
      | Ok tv =>
          match _check_dimensions (data a) ts tv with
          | Raise e => (h ++ [OTable ts; OTable tv], Raise e)
          | Ok _ =>
              (h ++ [OTable ts; OTable tv; ODict add],
               Ok (mkAnnData (recorded_storage_type (klass a)) l
                             (length h) (length h + 1)%nat (length h + 2)%nat))
          end
      end
  end.


(** ** Dictionaries of dictionaries, and what they say about identifiers *)

(** A list of items is a dictionary when no key occurs twice. *)
Definition is_dict {V} (d : list (string * V)) : Prop := distinct (map fst d) = true.

(** The combined mapping is a dictionary, and so is every mapping in it. *)
Definition dict_of_dicts (ddata : list (string * pyobj)) : Prop :=
  is_dict ddata /\ forall k m, dict_get k ddata = Some (PDict m) -> is_dict m.

(** The entry [name] of a nested mapping, if there is such a mapping and
    it has the entry. *)
Definition entry_of (name : string) (m : option pyobj) : option pyobj :=
  match m with
  | Some (PDict d) => dict_get name d
  | _ => None
  end.

(** The identifier entry the nested annotation mappings give: that of the
    mapping under the key [second] if it has one, else that of the mapping
    under the key [first]. *)
Definition nested_identifier (ddata : list (string * pyobj)) (first second name : string)
  : option pyobj :=
  match entry_of name (dict_get second ddata) with
  | Some v => Some v
  | None => entry_of name (dict_get first ddata)
  end.

(** A combined mapping with an explicit list and a nested identifier
    entry on each axis. *)
Definition ddata_both : list (string * pyobj) :=
  [("X", PRef 0%nat);
   ("row_names", labels_AB);
   ("col_names", labels_abc);
   ("row", PDict [("smp_names", PList (StrCol ["C"; "D"]))]);
   ("col", PDict [("var_names", PList (StrCol ["x"; "y"; "z"]))])].



(** ** More of [AnnData] *)

(** [AnnData.smp_keys(self)] and [AnnData.var_keys(self)] *)
Definition smp_keys (self : AnnData) : M (list string) :=
  t <- load_table (smp self) ;;
  ret (List.filter (fun n => negb (String.eqb n SMP_NAMES)) (names (dtype t))).

Definition var_keys (self : AnnData) : M (list string) :=
  t <- load_table (var self) ;;
  ret (List.filter (fun n => negb (String.eqb n VAR_NAMES)) (names (dtype t))).

(** [dict(items)] and [OrderedDict(items)]: the items are written one
    after the other; [d.update(items)] writes them into [d]. *)
Definition dict_update {V} (d items : list (string * V)) : list (string * V) :=
  fold_left (fun m kv => dict_set (fst kv) (snd kv) m) items d.

Definition dict_of_items {V} (items : list (string * V)) : list (string * V) :=
  dict_update [] items.

(** The comprehension [[(k, table[k]) for k in keys]] of [to_ddata]. *)
Definition fields_of (t : BoundRecArr) (keys : list string) : result (list (string * pyobj)) :=
  rmap (fun k => let? c := rec_field k (dtype t) in Ok (k, PList c)) keys.

(** [AnnData.to_ddata(self)] *)
Definition to_ddata (self : AnnData) : M (list (string * pyobj)) :=
  ks <- smp_keys self ;;
  smp_t <- load_table (smp self) ;;
  smp_items <- lift (fields_of smp_t ks) ;;
  kv <- var_keys self ;;
  var_t <- load_table (var self) ;;
  var_items <- lift (fields_of var_t kv) ;;
  sn <- smp_names self ;;
  vn <- var_names self ;;
  d <- load_dict (add self) ;;
  ret (dict_update [("X", PRef (X self));
                    ("smp", PDict (dict_of_items smp_items));
                    ("var", PDict (dict_of_items var_items));
                    ("smp_names", PList sn);
                    ("var_names", PList vn)] d).

(** [AnnData.get(self, key, default=None)] *)
Definition AnnData_get (self : AnnData) (key : string) (default : pyobj) : M pyobj :=
  d <- load_dict (add self) ;; ret (dict_get_default key default d).

(** ** Helpers of [utils.py] *)

(** [merge_dicts] of any number of dictionaries *)
Definition merge_dicts {V} (dicts : list (list (string * V))) : list (string * V) :=
  fold_left dict_update dicts [].

Definition is_None (v : pyobj) : bool :=
  match v with PNone => true | _ => false end.

(** The loop of [update_params] over the items of [new_params]. *)
Fixpoint update_params_loop (old_params : list (string * pyobj)) (check : bool)
  (items updated_params : list (string * pyobj)) : result (list (string * pyobj)) :=
  match items with
  | [] => Ok updated_params
  | (key, val) :: items' =>
      if negb (dict_has key old_params) && check then Raise ValueError
      else update_params_loop old_params check items'
             (if negb (is_None val) then dict_set key val updated_params
              else updated_params)
  end.

(** [update_params(old_params, new_params, check=False)]; [new_params] may
    be [None], and an empty dictionary is as false as [None]. *)
Definition update_params (old_params : list (string * pyobj))
  (new_params : option (list (string * pyobj))) (check : bool)
  : result (list (string * pyobj)) :=
  let updated_params := dict_of_items old_params in
  match new_params with
  | None | Some [] => Ok updated_params
  | Some items => update_params_loop old_params check items updated_params
  end.

(** [mask = np.zeros(n, dtype=bool); mask[l] = True] for a list [l] of
    integer positions, which may count from the end. *)
Definition mask_of (l : list Z) (n : nat) : result (list bool) :=
  let? ps := axis_positions (NArray l) n in
  Ok (fold_left (fun mask p => <[p := true]> mask) ps (replicate n false)).

(** [masks(list_of_index_lists, n)]: the array returned, one row for each
    index list.  (The list given is overwritten with the same masks on the
    way.) *)
Definition masks (list_of_index_lists : list (list Z)) (n : nat) : result (list (list bool)) :=
  rmap (fun l => mask_of l n) list_of_index_lists.

(** Running a statement for every element of a list. *)
Fixpoint for_each {A} (body : A -> M unit) (l : list A) : M unit :=
  match l with
  | [] => ret tt
  | a :: l' => _ <- body a ;; for_each body l'
  end.

(** [fill_in_datakeys(dexamples, dexdata)].  The values of [dexamples] are
    dictionaries, objects of the store that the function writes into; of
    [dexdata] only the keys are read. *)
Definition fill_in_datakeys {V} (dexamples : list (string * loc)) (dexdata : list (string * V))
  : M (list (string * loc)) :=
  _ <- for_each (fun entry : string * loc =>
                   d <- load_dict (snd entry) ;;
                   if negb (dict_has "datakey" d)
                   then
                     if dict_has (fst entry) dexdata
                     then store (snd entry) (ODict (dict_set "datakey" (PStr (fst entry)) d))
                     else store (snd entry)
                                (ODict (dict_set "datakey" (PStr "unspecified in dexdata") d))
                   else ret tt) dexamples ;;
  ret dexamples.

(** ** What merging says, in words *)

(** The value that the last of the dictionaries [ds] with the key [k]
    gives it. *)
Definition last_binding {V} (k : string) (ds : list (list (string * V))) : option V :=
  fold_left (fun found d => match dict_get k d with Some v => Some v | None => found end)
            ds None.

(** The strings of [l], each once, in the order in which they first occur. *)
Definition first_occurrences (l : list string) : list string :=
  fold_left (fun seen k => if existsb (String.eqb k) seen then seen else seen ++ [k]) l [].

(** ** What [from_ddata] takes from a combined mapping *)

(** The identifier list given under an alias key or under the name of
    the identifier column; the alias is asked first. *)
Definition explicit_identifier (ddata : list (string * pyobj)) (alias name : string)
  : option pyobj :=
  match dict_get alias ddata with
  | Some v => Some v
  | None => dict_get name ddata
  end.

(** The keys that do not become unstructured annotation: the matrix, on
    each axis the one key the identifier list was (or would have been)
    taken from, and the four keys of nested mappings. *)
Definition consumed_keys (ddata : list (string * pyobj)) : list string :=
  ["X";
   (if dict_has "row_names" ddata then "row_names" else "smp_names");
   (if dict_has "col_names" ddata then "col_names" else "var_names");
   "row"; "smp"; "col"; "var"].

(** ** What the constructor is given *)

(** An annotation argument that does not count for [any((smp, var,
    add))]: [None], an empty mapping, an object that is false, an empty
    record array, or one of a single record all of whose fields are
    zero. *)
Definition counts_for_nothing (s : source) : Prop :=
  match s with
  | SrcNone => True
  | SrcRecarray a =>
      rec_len a = 0%nat \/
      (rec_len a = 1%nat /\ Forall (fun kc => col_nonzero (snd kc) = false) a)
  | SrcMapping m => m = []
  | SrcOther b => b = false
  end.

(** A record array handed in as annotation has the identifier column
    already; [None] and a mapping are given one by [BoundRecArr]. *)
Definition brings_identifier (name : string) (s : source) : Prop :=
  match s with
  | SrcRecarray a => dict_has name a = true
  | _ => True
  end.

(** A mapping whose values are the columns [cols], as it is handed to
    [BoundRecArr]. *)
Definition as_mapping (cols : recarray) : list (string * pyobj) :=
  map (fun kc => (fst kc, PList (snd kc))) cols.

(** The fields of the table made from such a mapping: the columns given,
    and the default identifier column after them when none is given. *)
Definition with_identifier (name : string) (n : nat) (cols : recarray) : recarray :=
  if dict_has name cols then cols else cols ++ [(name, arange n)].

(** ** Positions, in words *)

(** The rows an integer index selects on an axis of length [n]: the row
    itself when it is in range, the row counted from the end for a
    negative index other than [-1], and no row otherwise. *)
Definition int_key_positions (i : Z) (n : nat) : list nat :=
  if (0 <=? i) && (i <? Z.of_nat n) then [Z.to_nat i]
  else if (- Z.of_nat n <=? i) && (i <? -1) then [Z.to_nat (i + Z.of_nat n)]
  else [].

(** The store and the sub-container that selecting the rows [rs] and the
    columns [cs] of a container gives. *)
Definition selection_outcome (h : heap) (a : array_obj) (ts tv : BoundRecArr)
  (d : list (string * pyobj)) (rows : list (list Z)) (rs cs : list nat)
  : heap * result item :=
  (h ++ [OArray (mkArray (klass a) (dtype_names a)
                   (Data2 (length rs) (length cs) (map (pick cs) (pick rs rows))));
         OTable (mkBoundRecArr (rec_rows rs (dtype ts)) SMP_NAMES);
         OTable (mkBoundRecArr (rec_rows cs (dtype tv)) VAR_NAMES);
         ODict d],
   Ok (ItemData (mkAnnData (recorded_storage_type (klass a))
                   (length h) (length h + 1)%nat (length h + 2)%nat (length h + 3)%nat))).

(** ** Stores that only grow *)

(** [h'] is [h] with new objects after it: no object of [h] has changed. *)
Definition extends (h h' : heap) : Prop := exists objs, h' = h ++ objs.


(** ** Saving a container as a combined mapping, in words *)

(** The keys that [to_ddata] writes itself or that [from_ddata] takes
    away: unstructured annotation under one of them does not survive the
    round trip. *)
Definition ddata_keys : list string :=
  ["X"; "smp"; "var"; "smp_names"; "var_names"; "row_names"; "col_names"; "row"; "col"].

(** The fields of a table with the identifier column moved to the front. *)
Definition identifier_first (name : string) (ids : column) (a : recarray) : recarray :=
  (name, ids) :: List.filter (fun kc => negb (String.eqb (fst kc) name)) a.

(** ** Updating parameters, in words *)

(** The items of [new_params] written over [updated_params], those with
    the value [None] left out. *)
Definition updates_applied (items updated_params : list (string * pyobj))
  : list (string * pyobj) :=
  fold_left (fun u kv => if is_None (snd kv) then u else dict_set (fst kv) (snd kv) u)
            items updated_params.

(** ** Masks, in words *)

(** An index [j] of an index list names the position [p] of an axis of
    length [n]: directly, or counted from the end. *)
Definition names_position (n : nat) (p : nat) (j : Z) : Prop :=
  Z.of_nat p = j \/ Z.of_nat p = j + Z.of_nat n.

Definition in_axis (n : nat) (j : Z) : Prop := - Z.of_nat n <= j < Z.of_nat n.

(** ** Data keys, in words *)

(** The dictionary of the example [exkey] after [fill_in_datakeys]: as it
    was if it had a [datakey], else with the entry added. *)
Definition filled_entry {V} (dexdata : list (string * V)) (exkey : string)
  (d : list (string * pyobj)) : list (string * pyobj) :=
  if dict_has "datakey" d then d
  else dict_set "datakey"
         (PStr (if dict_has exkey dexdata then exkey else "unspecified in dexdata")) d.

(** A selector that is normalized to an array of positions: a list, an
    array of integers, a boolean array. *)
Definition is_sequence (s : selector) : bool :=
  match s with
  | SelSeq _ | SelIntArray _ | SelMask _ => true
  | _ => false
  end.

(** The classes whose indexing with two arrays gives a 1-D array. *)
Definition plain_ndarray (c : array_class) : bool :=
  match c with
  | cls_ndarray | cls_MaskedArray => true
  | _ => false
  end.

(** [sp.eye(2)] of [test_creation], a [dia_matrix]. *)
Definition eye2 : array_obj :=
  mkArray (cls_spmatrix dia) false (Data2 2 2 [[1; 0]; [0; 1]]).

(** A selector that numpy treats as a slice after normalization: a single
    key or a slice. *)
Definition is_key_or_slice (s : selector) : bool :=
  match s with
  | SelKey _ | SelSlice _ _ _ => true
  | _ => false
  end.

(** * Properties *)

(** ** Running a computation *)

Lemma bind_Ok {A B} (m : M A) (k : A -> M B) h h' a :
  m h = (h', Ok a) -> bind m k h = k a h'.
Proof. intros E. unfold bind. now rewrite E. Qed.

Lemma bind_Raise {A B} (m : M A) (k : A -> M B) h h' e :
  m h = (h', Raise e) -> bind m k h = (h', Raise e).
Proof. intros E. unfold bind. now rewrite E. Qed.

Lemma load_array_Ok h l a : h !! l = Some (OArray a) -> load_array l h = (h, Ok a).
Proof. intros E. unfold load_array. now rewrite E. Qed.

Lemma load_table_Ok h l t : h !! l = Some (OTable t) -> load_table l h = (h, Ok t).
Proof. intros E. unfold load_table. now rewrite E. Qed.

Lemma load_dict_Ok h l d : h !! l = Some (ODict d) -> load_dict l h = (h, Ok d).
Proof. intros E. unfold load_dict. now rewrite E. Qed.

(** The readers leave the store alone, whatever they answer. *)
Lemma load_array_heap l h : fst (load_array l h) = h.
Proof. unfold load_array. destruct (h !! l) as [[]|]; reflexivity. Qed.

Lemma load_table_heap l h : fst (load_table l h) = h.
Proof. unfold load_table. destruct (h !! l) as [[]|]; reflexivity. Qed.

Lemma load_dict_heap l h : fst (load_dict l h) = h.
Proof. unfold load_dict. destruct (h !! l) as [[]|]; reflexivity. Qed.

Lemma find_storage_type_recorded c :
  find_storage_type c = Some (recorded_storage_type c).
Proof. destruct c; reflexivity. Qed.

(** ** The storage type *)

(** C2 (code defect).  The claim asks for the tag [Masked] on a masked
    array.  [__init__] tries the members of [StorageType] in the order
    [Array], [Masked], [Sparse] and a masked array is an instance of
    [np.ndarray]: it is recorded as [Array], and no matrix is ever
    recorded as [Masked].  So it is for [ma.array([[1,2],[3,4]])] from
    [test_creation].  A source that is no matrix is refused with
    [ValueError]. *)
Theorem C2_masked_array_recorded_as_Array :
  find_storage_type cls_MaskedArray = Some Array /\
  (forall c, find_storage_type c <> Some Masked) /\
  AnnData_init (PRef 0%nat) SrcNone SrcNone [] [OArray masked22] =
    ([OArray masked22;
      OTable (mkBoundRecArr [(SMP_NAMES, IntCol [0; 1])] SMP_NAMES);
      OTable (mkBoundRecArr [(VAR_NAMES, IntCol [0; 1])] VAR_NAMES);
      ODict []],
     Ok (mkAnnData Array 0%nat 1%nat 2%nat 3%nat)) /\
  (forall smp var add h,
      AnnData_init (PList (IntCol [1; 2])) smp var add h = (h, Raise ValueError)).
Proof.
  split; [reflexivity|]. split; [intros []; discriminate|].
  split; reflexivity.
Qed.

(** ** Index normalization does not write *)

Lemma normalize_indices_heap self ix h : fst (_normalize_indices self ix h) = h.
Proof.
  unfold _normalize_indices, smp_names, var_names, bind, lift, ret, load_table.
  destruct (_unpack_index ix) as [[r c]|]; simpl; [|reflexivity].
  destruct (h !! smp self) as [[?|ts|?]|]; simpl; try reflexivity.
  destruct (rec_field SMP_NAMES (dtype ts)) as [sn|]; simpl; [|reflexivity].
  destruct (_normalize_index r sn); simpl; [|reflexivity].
  destruct (h !! var self) as [[?|tv|?]|]; simpl; try reflexivity.
  destruct (rec_field VAR_NAMES (dtype tv)) as [vn|]; simpl; [|reflexivity].
  destruct (_normalize_index c vn); reflexivity.
Qed.

(** ** Deletion *)

(** C5 (code defect).  The claim describes a deletion that removes rows
    from the matrix and from the row table.  [__delitem__] starts with
    [del self.X[smp, var]], which numpy and scipy refuse for every matrix;
    the lines after it, which would reach for [self.smp.iloc], are never
    run.  Every [Delete] raises and leaves the store as it was; on the
    matrix of the tests, [del adata[0, :]] raises [ValueError]. *)
Theorem C5_delete_always_raises :
  (forall h self ix, exists e, AnnData_delitem self ix h = (h, Raise e)) /\
  AnnData_delitem adata_named (IdxTuple [SelKey (KInt 0); full_slice]) heap_named
    = (heap_named, Raise ValueError).
Proof.
  split; [|reflexivity].
  intros h self ix. unfold AnnData_delitem.
  pose proof (normalize_indices_heap self ix h) as Hh.
  unfold bind at 1.
  destruct (_normalize_indices self ix h) as [h1 [sv|e]]; simpl in Hh; subst h1;
    [|eauto].
  unfold bind at 1, load_array.
  destruct (h !! X self) as [[a|?|?]|]; eauto.
  unfold bind, lift, array_delitem. destruct (klass a) as [| | |[]]; eauto.
Qed.

(** ** Assigning a table *)

(** C6 (code defect).  The claim asks that labels which the rows already
    carry survive the assignment of a mapping without identifiers.
    [__setattr__] writes the old labels into the identifier column of the
    new table, which holds the default integers and so has dtype int64:
    for the labels ['A', 'B'] the write raises [ValueError] and nothing is
    assigned (first two parts, rows and columns).  With the integer labels
    of [test_set_add] the labels are kept (last part). *)
Theorem C6_string_labels_are_not_kept :
  AnnData_setattr adata_named attr_smp
      (ValSource (SrcMapping [("a", PList (IntCol [1; 2]))])) heap_named
    = (heap_named, Raise ValueError) /\
  AnnData_setattr adata_named attr_var
      (ValSource (SrcMapping [("a", PList (IntCol [1; 2; 3]))])) heap_named
    = (heap_named, Raise ValueError) /\
  AnnData_setattr adata_named attr_smp
      (ValSource (SrcMapping [("a", PList (IntCol [7; 8]))])) heap_numbered
    = (heap_numbered ++
         [OTable (mkBoundRecArr [("a", IntCol [7; 8]); (SMP_NAMES, IntCol [1; 2])] SMP_NAMES)],
       Ok (mkAnnData Array 0%nat 4%nat 2%nat 3%nat)).
Proof. repeat split; reflexivity. Qed.

(** ** Construction *)

Lemma broadcast_to_same c : broadcast_to (col_len c) c = Ok c.
Proof. unfold broadcast_to. now rewrite Nat.eqb_refl. Qed.

Lemma col_len_arange n : col_len (arange n) = n.
Proof. unfold arange; simpl. now rewrite length_map, length_seq. Qed.

Lemma BoundRecArr_new_None name n :
  BoundRecArr_new SrcNone name (Some n) = Ok (mkBoundRecArr [(name, arange n)] name).
Proof.
  unfold BoundRecArr_new. cbn [arange_opt rbind map fst distinct existsb negb andb rmap snd].
  now rewrite broadcast_to_same.
Qed.

Lemma init_2d h l a r c rows smp var add :
  h !! l = Some (OArray a) -> data a = Data2 r c rows ->
  AnnData_init (PRef l) smp var add h = init_outcome h l a r c smp var add.
Proof.
  intros Hl Hd. unfold AnnData_init, init_outcome.
  rewrite (bind_Ok _ _ h h (PRef l, smp, var, add)) by reflexivity.
  cbv beta iota. rewrite (bind_Ok _ _ h h a) by (now apply load_array_Ok).
  rewrite find_storage_type_recorded, Hd.
  rewrite (bind_Ok _ _ h h a) by reflexivity.
  rewrite ?Hd. cbn [shape length Nat.eqb negb andb].
  rewrite andb_false_r.
  unfold bind, lift, alloc, ret.
  destruct (BoundRecArr_new smp SMP_NAMES (Some r)) as [ts|e]; [|reflexivity].
  destruct (BoundRecArr_new var VAR_NAMES (Some c)) as [tv|e]; [|reflexivity].
  rewrite ?Hd.
  destruct (_check_dimensions (Data2 r c rows) ts tv) as [[]|e];
    rewrite <- ?app_assoc; simpl; rewrite ?length_app; simpl; [|reflexivity].
  repeat f_equal; lia.
Qed.

Lemma init_1d h l a xs smp var add :
  h !! l = Some (OArray a) -> data a = Data1 xs ->
  AnnData_init (PRef l) smp var add h =
  AnnData_init (PRef l) smp var add
    (<[l := OArray (mkArray (klass a) (dtype_names a) (to_column_matrix xs))]> h).
Proof.
  intros Hl Hd.
  assert (Hlt : (l < length h)%nat) by (eapply lookup_lt_Some; eauto).
  set (a' := mkArray (klass a) (dtype_names a) (to_column_matrix xs)).
  unfold AnnData_init.
  rewrite (bind_Ok _ _ h h (PRef l, smp, var, add)) by reflexivity.
  rewrite (bind_Ok _ _ (<[l:=OArray a']> h) _ (PRef l, smp, var, add)) by reflexivity.
  cbv beta iota.
  rewrite (bind_Ok _ _ h h a) by (now apply load_array_Ok).
  rewrite (bind_Ok _ _ (<[l:=OArray a']> h) (<[l:=OArray a']> h) a')
    by (apply load_array_Ok; now apply list_lookup_insert_eq).
  rewrite !find_storage_type_recorded, Hd. simpl.
  reflexivity.
Qed.

(** C9.  A 1-D matrix of length N handed to [__init__] is reshaped where
    it lies: the caller's array object itself becomes the matrix of N
    rows and one column whose i-th row holds the i-th entry, of the same
    class and dtype, whether or not the construction then succeeds, and a
    container that is returned refers to that same object.  With no
    annotations the construction succeeds. *)
Theorem C9_one_dimensional_matrix_reshaped_in_place h l a xs smp var add :
  h !! l = Some (OArray a) -> data a = Data1 xs ->
  let a' := mkArray (klass a) (dtype_names a)
                    (Data2 (length xs) 1 (map (fun x => [x]) xs)) in
  fst (AnnData_init (PRef l) smp var add h) !! l = Some (OArray a') /\
  (forall ad, snd (AnnData_init (PRef l) smp var add h) = Ok ad -> X ad = l) /\
  (exists h' ad, AnnData_init (PRef l) SrcNone SrcNone [] h = (h', Ok ad) /\
                 X ad = l /\ h' !! l = Some (OArray a')).
Proof.
  intros Hl Hd a'. change (Data2 (length xs) 1 (map (fun x => [x]) xs))
    with (to_column_matrix xs) in a'.
  assert (Hlt : (l < length h)%nat) by (eapply lookup_lt_Some; eauto).
  assert (Hst : (<[l := OArray a']> h) !! l = Some (OArray a'))
    by (now apply list_lookup_insert_eq).
  assert (Hkeep : forall objs, (<[l := OArray a']> h ++ objs) !! l = Some (OArray a')).
  { intros objs. now apply lookup_app_l_Some. }
  assert (Heq : forall s v d, AnnData_init (PRef l) s v d h =
                  init_outcome (<[l := OArray a']> h) l a' (length xs) 1 s v d).
  { intros s v d. rewrite (init_1d h l a xs) by assumption.
    now apply (init_2d _ l a' (length xs) 1 (map (fun x => [x]) xs)). }
  rewrite !Heq. unfold init_outcome. repeat split.
  - destruct (BoundRecArr_new smp SMP_NAMES (Some (length xs))) as [ts|e]; simpl; [|exact Hst].
    destruct (BoundRecArr_new var VAR_NAMES (Some 1%nat)) as [tv|e]; simpl; [|apply Hkeep].
    destruct (_check_dimensions (to_column_matrix xs) ts tv) as [[]|e]; apply Hkeep.
  - intros ad.
    destruct (BoundRecArr_new smp SMP_NAMES (Some (length xs))) as [ts|e]; simpl; [|discriminate].
    destruct (BoundRecArr_new var VAR_NAMES (Some 1%nat)) as [tv|e]; simpl; [|discriminate].
    destruct (_check_dimensions (to_column_matrix xs) ts tv) as [[]|e]; simpl; [|discriminate].
    now intros [= <-].
  - rewrite !BoundRecArr_new_None. unfold _check_dimensions, to_column_matrix. simpl.
    rewrite length_map, length_seq, Nat.eqb_refl. simpl.
    eexists _, _. split; [reflexivity|]. split; [reflexivity|]. apply Hkeep.
Qed.

Lemma C9_witness :
  [OArray vec2] !! 0%nat = Some (OArray vec2) /\ data vec2 = Data1 [1; 2] /\
  exists h' ad, AnnData_init (PRef 0%nat) SrcNone SrcNone [] [OArray vec2] = (h', Ok ad) /\
                X ad = 0%nat /\
                h' !! 0%nat = Some (OArray (mkArray cls_ndarray false (Data2 2 1 [[1]; [2]]))).
Proof.
  split; [reflexivity|]. split; [reflexivity|].
  exact (proj2 (proj2 (C9_one_dimensional_matrix_reshaped_in_place
                         [OArray vec2] 0%nat vec2 [1; 2] SrcNone SrcNone []
                         eq_refl eq_refl))).
Defined.

(** ** Positions and picking *)

Lemma pick_nil {A} (xs : list A) : pick [] xs = [].
Proof. reflexivity. Qed.

Lemma pick_cons {A} p ps (xs : list A) x :
  xs !! p = Some x -> pick (p :: ps) xs = x :: pick ps xs.
Proof. intros E. unfold pick. simpl. now rewrite E. Qed.

Lemma length_pick {A} ps (xs : list A) :
  Forall (fun p => (p < length xs)%nat) ps -> length (pick ps xs) = length ps.
Proof.
  induction 1 as [|p ps Hp _ IH]; [reflexivity|].
  destruct (lookup_lt_is_Some_2 xs p Hp) as [x Hx].
  rewrite (pick_cons _ _ _ _ Hx). simpl. now rewrite IH.
Qed.

Lemma pick_seq_from {A} (pre xs : list A) :
  pick (seq (length pre) (length xs)) (pre ++ xs) = xs.
Proof.
  revert pre. induction xs as [|x xs IH]; intros pre; [reflexivity|].
  cbn [length seq]. rewrite (pick_cons _ _ _ x) by (now apply list_lookup_middle).
  f_equal. specialize (IH (pre ++ [x])).
  rewrite length_app, <- app_assoc in IH. simpl in IH.
  now rewrite Nat.add_1_r in IH.
Qed.

Lemma pick_seq_all {A} (xs : list A) n : length xs = n -> pick (seq 0 n) xs = xs.
Proof. intros <-. exact (pick_seq_from [] xs). Qed.

Lemma col_pick_all c n : col_len c = n -> col_pick (seq 0 n) c = c.
Proof. destruct c; simpl; intros E; f_equal; now apply pick_seq_all. Qed.

Lemma col_len_pick ps c :
  Forall (fun p => (p < col_len c)%nat) ps -> col_len (col_pick ps c) = length ps.
Proof. destruct c; simpl; apply length_pick. Qed.





(** ** Slices *)

Lemma range_up n : map Z.to_nat (range 0 (Z.of_nat n) 1) = seq 0 n.
Proof.
  unfold range. simpl.
  destruct n as [|n]; [reflexivity|].
  replace (0 <? Z.of_nat (S n)) with true by (symmetry; apply Z.ltb_lt; lia).
  rewrite Z.div_1_r.
  replace (Z.to_nat (Z.of_nat (S n) - 0 - 1 + 1)) with (S n) by lia.
  rewrite map_map. rewrite <- (map_id (seq 0 (S n))) at 2.
  apply map_ext. intros i. lia.
Qed.

Lemma axis_positions_full n : axis_positions (NSlice None None None) n = Ok (seq 0 n).
Proof. unfold axis_positions, slice_bounds. simpl. now rewrite range_up. Qed.

(** The selector [-1], normalized, selects nothing on any axis. *)
Lemma axis_positions_minus_one n :
  axis_positions (NSlice (Some (-1)) (Some 0) (Some 1)) n = Ok [].
Proof.
  unfold axis_positions, slice_bounds. simpl.
  unfold range. simpl.
  replace (Z.max (-1 + Z.of_nat n) 0 <? Z.min 0 (Z.of_nat n)) with false; [reflexivity|].
  symmetry. apply Z.ltb_ge. lia.
Qed.

Lemma rmap_Ok_map {A B} (f : A -> result B) (g : A -> B) l :
  (forall a, In a l -> f a = Ok (g a)) -> rmap f l = Ok (map g l).
Proof.
  induction l as [|a l IH]; intros H; [reflexivity|].
  simpl. rewrite (H a) by (now left). simpl.
  rewrite IH by (intros; apply H; now right). reflexivity.
Qed.


(** ** Tables *)

Lemma names_rec_rows ps a : names (rec_rows ps a) = names a.
Proof. unfold names, rec_rows. rewrite map_map. reflexivity. Qed.

Lemma rec_len_wf a n : wf_fields a n -> rec_len a = n.
Proof.
  intros (Hne & _ & Hall). destruct a as [|[k c] a]; [congruence|].
  now inversion Hall.
Qed.

Lemma wf_fields_rec_rows a n ps :
  wf_fields a n -> Forall (fun p => (p < n)%nat) ps ->
  wf_fields (rec_rows ps a) (length ps).
Proof.
  intros (Hne & Hd & Hall) Hps. split; [|split].
  - destruct a; [congruence|discriminate].
  - now rewrite names_rec_rows.
  - unfold rec_rows. apply Forall_map. eapply Forall_impl; [exact Hall|].
    intros [k c] Hc. simpl in *. apply col_len_pick. now rewrite Hc.
Qed.

Lemma rec_rows_all a n : wf_fields a n -> rec_rows (seq 0 n) a = a.
Proof.
  intros (_ & _ & Hall). unfold rec_rows.
  induction Hall as [|[k c] a Hc _ IH]; [reflexivity|].
  simpl in *. now rewrite col_pick_all, IH.
Qed.


Lemma BoundRecArr_new_recarray a n name n_row :
  wf_fields a n -> BoundRecArr_new (SrcRecarray a) name n_row = Ok (mkBoundRecArr a name).
Proof.
  intros (Hne & Hd & Hall). unfold BoundRecArr_new. cbn [rbind].
  unfold names in Hd. rewrite Hd. cbn [negb].
  destruct a as [|[k0 c0] a']; [congruence|].
  assert (Hn : col_len c0 = n) by (now inversion Hall).
  rewrite (rmap_Ok_map _ (fun kc => kc)).
  - cbn [rbind]. now rewrite map_id.
  - intros [k c] Hin. rewrite Forall_forall in Hall.
    specialize (Hall (k, c)). simpl in *.
    rewrite Hn, <- Hall by (now apply list_elem_of_In).
    now rewrite broadcast_to_same.
Qed.

Lemma rec_field_has name a :
  dict_has name a = true -> exists c, rec_field name a = Ok c.
Proof.
  unfold dict_has, rec_field. destruct (dict_get name a); [eauto|discriminate].
Qed.

(** ** Normalizing *)

Lemma normalize_index_full names :
  _normalize_index full_slice names = Ok (NSlice None None None).
Proof. reflexivity. Qed.

Lemma normalize_index_positions names js :
  _normalize_index (SelIntArray js) names = Ok (NArray js).
Proof. reflexivity. Qed.

Lemma in_int64_fits z : fits_int64 z -> in_int64 z = true.
Proof.
  unfold fits_int64, in_int64. intros [H1 H2].
  apply andb_true_iff. split; [apply Z.leb_le|apply Z.ltb_lt]; assumption.
Qed.

Lemma normalize_index_list names js :
  Forall fits_int64 js -> _normalize_index (SelSeq (map KInt js)) names = Ok (NArray js).
Proof.
  intros Hfit. unfold _normalize_index.
  rewrite (rmap_Ok_map _ (fun k => match k with KInt z => z | _ => 0 end)).
  - cbn [rbind]. rewrite map_map. now rewrite map_id.
  - intros k Hin. apply in_map_iff in Hin as (z & <- & Hz).
    unfold fromiter_int64. cbn [name_idx rbind].
    unfold to_int64. rewrite in_int64_fits; [reflexivity|].
    rewrite Forall_forall in Hfit. now apply Hfit, list_elem_of_In.
Qed.

Lemma normalize_indices_Ok h ad a ts tv d ix r c sn vn si vi :
  holds h ad a ts tv d ->
  rec_field SMP_NAMES (dtype ts) = Ok sn -> rec_field VAR_NAMES (dtype tv) = Ok vn ->
  _unpack_index ix = Ok (r, c) ->
  _normalize_index r sn = Ok si -> _normalize_index c vn = Ok vi ->
  _normalize_indices ad ix h = (h, Ok (si, vi)).
Proof.
  intros (_ & Hs & Hv & _) Hsn Hvn Hu Hr Hc.
  unfold _normalize_indices, smp_names, var_names, bind, lift, ret, load_table.
  rewrite Hu. cbn [fst snd]. rewrite Hs, Hsn, Hr, Hv, Hvn, Hc. reflexivity.
Qed.

(** ** Slicing a container *)

(** [Get] with selectors that are not both arrays and whose positions
    [rs], [cs] are in range: the sub-matrix, the rows of the two tables
    and a dictionary with the entries of the parent's are allocated, in
    this order, for a new container. *)
Lemma getitem_body {scipy : Scipy} ad ix h :
  is_add_key ix = false -> AnnData_getitem ad ix h = getitem_data ad ix h.
Proof.
  intros Hk. destruct ix as [[[z|s|b]| | | | | |]|ss|bss]; try reflexivity. discriminate.
Qed.

Lemma numpy_getitem {scipy : Scipy} a si vi :
  numpy_class (klass a) = true ->
  array_getitem a si vi =
    let? Xd := ndarray_getitem (klass a) (data a) si vi in
    Ok (mkArray (klass a) (dtype_names a) Xd).
Proof. unfold array_getitem. destruct (klass a); [reflexivity..|discriminate]. Qed.

Lemma getitem_positions {scipy : Scipy} h ad r c rows a ts tv d ix si vi rs cs :
  holds h ad a ts tv d -> well_formed r c rows a ts tv d ->
  numpy_class (klass a) = true ->
  is_add_key ix = false ->
  _normalize_indices ad ix h = (h, Ok (si, vi)) ->
  match si, vi with NArray _, NArray _ => False | _, _ => True end ->
  axis_positions si r = Ok rs -> Forall (fun p => (p < r)%nat) rs ->
  axis_positions vi c = Ok cs -> Forall (fun p => (p < c)%nat) cs ->
  AnnData_getitem ad ix h =
    (h ++ [OArray (mkArray (klass a) (dtype_names a)
                     (Data2 (length rs) (length cs) (map (pick cs) (pick rs rows))));
           OTable (mkBoundRecArr (rec_rows rs (dtype ts)) SMP_NAMES);
           OTable (mkBoundRecArr (rec_rows cs (dtype tv)) VAR_NAMES);
           ODict d],
     Ok (ItemData (mkAnnData (recorded_storage_type (klass a))
                     (length h) (length h + 1)%nat (length h + 2)%nat (length h + 3)%nat))).
Proof.
  intros Hh Hwf Hnp Hkey Hn Hnot Hrs Hrs' Hcs Hcs'.
  destruct Hwf as (Hd & Hg & Hts & Hnts & Hits & Htv & Hntv & Hitv & Hres).
  pose proof Hh as (HX & Hs & Hv & Ha).
  set (Xd := Data2 (length rs) (length cs) (map (pick cs) (pick rs rows))).
  set (X' := mkArray (klass a) (dtype_names a) Xd).
  assert (Hget : array_getitem a si vi = Ok X').
  { rewrite numpy_getitem by assumption.
    rewrite Hd. unfold ndarray_getitem. rewrite Hrs, Hcs. cbn [rbind].
    destruct si, vi; try reflexivity. contradiction. }
  assert (Hbody :
    getitem_data ad ix h =
    (h ++ [OArray X';
           OTable (mkBoundRecArr (rec_rows rs (dtype ts)) SMP_NAMES);
           OTable (mkBoundRecArr (rec_rows cs (dtype tv)) VAR_NAMES);
           ODict d],
     Ok (ItemData (mkAnnData (recorded_storage_type (klass a))
                     (length h) (length h + 1)%nat (length h + 2)%nat (length h + 3)%nat)))).
  { unfold getitem_data. rewrite (bind_Ok _ _ _ _ _ Hn). cbn [fst snd].
    rewrite (bind_Ok _ _ h h a) by (now apply load_array_Ok).
    rewrite (bind_Ok _ _ h h X') by (unfold lift; now rewrite Hget).
    rewrite (bind_Ok _ _ h (h ++ [OArray X']) (length h)) by reflexivity.
    set (h1 := h ++ [OArray X']).
    assert (Hs1 : h1 !! smp ad = Some (OTable ts)) by (now apply lookup_app_l_Some).
    assert (Hv1 : h1 !! var ad = Some (OTable tv)) by (now apply lookup_app_l_Some).
    assert (Ha1 : h1 !! add ad = Some (ODict d)) by (now apply lookup_app_l_Some).
    assert (HX1 : h1 !! length h = Some (OArray X')) by (now apply list_lookup_middle).
    pose proof (wf_fields_rec_rows _ _ _ Hts Hrs') as Hwts.
    pose proof (wf_fields_rec_rows _ _ _ Htv Hcs') as Hwtv.
    rewrite (bind_Ok _ _ h1 h1 ts) by (now apply load_table_Ok).
    rewrite (bind_Ok _ _ h1 h1 (rec_rows rs (dtype ts))).
    2:{ unfold lift, rec_getitem. rewrite (rec_len_wf _ _ Hts), Hrs. reflexivity. }
    rewrite (bind_Ok _ _ h1 h1 tv) by (now apply load_table_Ok).
    rewrite (bind_Ok _ _ h1 h1 (rec_rows cs (dtype tv))).
    2:{ unfold lift, rec_getitem. rewrite (rec_len_wf _ _ Htv), Hcs. reflexivity. }
    rewrite (bind_Ok _ _ h1 h1 (length rs)) by reflexivity.
    rewrite (bind_Ok _ _ h1 h1 tt).
    2:{ rewrite (rec_len_wf _ _ Hwts), Nat.eqb_refl. reflexivity. }
    rewrite (bind_Ok _ _ h1 h1 (length cs)) by reflexivity.
    rewrite (bind_Ok _ _ h1 h1 tt).
    2:{ rewrite (rec_len_wf _ _ Hwtv), Nat.eqb_refl. reflexivity. }
    rewrite (bind_Ok _ _ h1 h1 d) by (now apply load_dict_Ok).
    unfold AnnData_call. unfold no_parameter_name, parameter_names in Hres. rewrite Hres.
    rewrite (bind_Ok _ _ h1 (h1 ++ [OTable (mkBoundRecArr (rec_rows rs (dtype ts)) SMP_NAMES);
                                     OTable (mkBoundRecArr (rec_rows cs (dtype tv)) VAR_NAMES);
                                     ODict d])
               (mkAnnData (recorded_storage_type (klass a)) (length h)
                          (length h1) (length h1 + 1)%nat (length h1 + 2)%nat)).
    - unfold ret, h1. rewrite <- app_assoc. simpl. rewrite length_app. simpl.
      rewrite <- !Nat.add_assoc. reflexivity.
    - rewrite (init_2d h1 (length h) X' (length rs) (length cs) (map (pick cs) (pick rs rows)))
        by (assumption || reflexivity).
      unfold init_outcome.
      rewrite (BoundRecArr_new_recarray _ _ _ _ Hwts), (BoundRecArr_new_recarray _ _ _ _ Hwtv).
      unfold _check_dimensions. cbn [data X' Xd shape dtype].
      rewrite (rec_len_wf _ _ Hwts), (rec_len_wf _ _ Hwtv), !Nat.eqb_refl. reflexivity. }
  now rewrite getitem_body.
Qed.

(** ** Masks and the positions they mark *)




Lemma seq_in_range n : Forall (fun p => (p < n)%nat) (seq 0 n).
Proof. apply Forall_forall. intros p Hp. apply list_elem_of_In, in_seq in Hp. lia. Qed.



(** ** The container of the tests *)

Lemma holds_named :
  holds heap_named adata_named mat23
        (mkBoundRecArr [(SMP_NAMES, StrCol ["A"; "B"])] SMP_NAMES)
        (mkBoundRecArr [(VAR_NAMES, StrCol ["a"; "b"; "c"])] VAR_NAMES) [].
Proof. repeat split. Qed.

Lemma well_formed_named :
  well_formed 2 3 [[1; 2; 3]; [4; 5; 6]] mat23
        (mkBoundRecArr [(SMP_NAMES, StrCol ["A"; "B"])] SMP_NAMES)
        (mkBoundRecArr [(VAR_NAMES, StrCol ["a"; "b"; "c"])] VAR_NAMES) [].
Proof.
  unfold well_formed, wf_grid, wf_fields, no_parameter_name.
  repeat split; try reflexivity; try discriminate; repeat constructor.
Qed.

Lemma valid_named : valid heap_named adata_named.
Proof. do 7 eexists. split; [apply holds_named|apply well_formed_named]. Qed.

Lemma map_pick_nil {A} (rows : list (list A)) :
  map (pick []) rows = map (fun _ => []) rows.
Proof. apply map_ext. reflexivity. Qed.

(** ** Missing labels *)

Lemma first_match_missing i xs p : ~ In i xs -> first_match i xs p = Raise IndexError.
Proof.
  revert p. induction xs as [|x xs IH]; intros p Hn; [reflexivity|].
  simpl. destruct (String.eqb_spec x i) as [->|_].
  - exfalso. apply Hn. now left.
  - apply IH. intros Hin. apply Hn. now right.
Qed.

Lemma first_match_raises i xs p e : first_match i xs p = Raise e -> e = IndexError.
Proof.
  revert p. induction xs as [|x xs IH]; intros p; simpl; [congruence|].
  destruct (String.eqb x i); [discriminate|apply IH].
Qed.

Lemma where_first_missing names s :
  label_missing names s -> where_first names s = Raise IndexError.
Proof. destruct names; simpl; try reflexivity. apply first_match_missing. Qed.

Lemma name_idx_raises names k e : name_idx names k = Raise e -> e = IndexError.
Proof.
  destruct k; simpl; try discriminate.
  destruct names; simpl; try congruence. apply first_match_raises.
Qed.

Lemma name_idx_bound_raises names b e : name_idx_bound names b = Raise e -> e = IndexError.
Proof.
  destruct b as [k|]; simpl; [|discriminate].
  destruct (name_idx names k) eqn:E; simpl; [discriminate|].
  intros [= <-]. eapply name_idx_raises; eauto.
Qed.

Lemma fromiter_int64_raises names k e :
  fromiter_int64 names k = Raise e ->
  e = IndexError \/ (e = OverflowError /\ ~ key_fits k).
Proof.
  unfold fromiter_int64.
  destruct (name_idx names k) as [i|e0] eqn:E; cbn [rbind].
  - destruct k as [z|s|b]; try discriminate. injection E as <-.
    unfold to_int64. destruct (in_int64 z) eqn:Ez; [discriminate|].
    intros [= <-]. right. split; [reflexivity|]. intros Hz.
    now rewrite (in_int64_fits z Hz) in Ez.
  - intros [= <-]. left. eapply name_idx_raises; eauto.
Qed.

Lemma rmap_fromiter_raises names ks e :
  rmap (fromiter_int64 names) ks = Raise e ->
  e = IndexError \/ (e = OverflowError /\ ~ Forall key_fits ks).
Proof.
  induction ks as [|k ks IH]; simpl; [discriminate|].
  destruct (fromiter_int64 names k) eqn:E; simpl.
  - destruct (rmap (fromiter_int64 names) ks); simpl; [discriminate|].
    intros [= <-]. destruct (IH eq_refl) as [->|[-> Hn]]; [now left|].
    right. split; [reflexivity|]. intros Hf. apply Hn. now inversion Hf.
  - intros [= <-]. destruct (fromiter_int64_raises _ _ _ E) as [->|[-> Hn]]; [now left|].
    right. split; [reflexivity|]. intros Hf. apply Hn. now inversion Hf.
Qed.

Lemma rmap_fromiter_missing names ks s :
  In (KStr s) ks -> label_missing names s ->
  exists e, rmap (fromiter_int64 names) ks = Raise e.
Proof.
  intros Hin Hm. induction ks as [|k ks IH]; [destruct Hin|].
  simpl. destruct Hin as [->|Hin].
  - unfold fromiter_int64. simpl. rewrite where_first_missing by assumption. simpl. eauto.
  - destruct (fromiter_int64 names k); simpl; [|eauto].
    destruct (IH Hin) as [e ->]. simpl. eauto.
Qed.

(** Normalization raises nothing but [IndexError], or [OverflowError] for
    a list with an integer outside int64 ... *)
Lemma normalize_index_raises sel names e :
  _normalize_index sel names = Raise e ->
  e = IndexError \/ (e = OverflowError /\ ~ list_fits sel).
Proof.
  destruct sel as [k|start stop step|ks|js|bs| |]; simpl.
  - destruct (name_idx names k) eqn:E; simpl; [discriminate|].
    intros [= <-]. left. eapply name_idx_raises; eauto.
  - destruct (name_idx_bound names start) eqn:E1; simpl.
    + destruct (name_idx_bound names stop) eqn:E2; simpl; [discriminate|].
      intros [= <-]. left. eapply name_idx_bound_raises; eauto.
    + intros [= <-]. left. eapply name_idx_bound_raises; eauto.
  - destruct (rmap (fromiter_int64 names) ks) eqn:E; simpl; [discriminate|].
    intros [= <-]. eapply rmap_fromiter_raises; eauto.
  - discriminate.
  - discriminate.
  - intros [= <-]. now left.
  - intros [= <-]. now left.
Qed.

(** ... and does raise on a selector that uses a missing label. *)
Lemma normalize_index_missing sel names :
  uses_label (label_missing names) sel -> exists e, _normalize_index sel names = Raise e.
Proof.
  intros H. destruct H as [s Hm|s stop step Hm|start s step Hm|ks s Hin Hm]; simpl.
  - rewrite where_first_missing by assumption. simpl. eauto.
  - rewrite where_first_missing by assumption. simpl. eauto.
  - destruct (name_idx_bound names start); simpl; [|eauto].
    rewrite where_first_missing by assumption. simpl. eauto.
  - destruct (rmap_fromiter_missing _ _ _ Hin Hm) as [e ->]. simpl. eauto.
Qed.

Lemma rec_field_raises name a e : rec_field name a = Raise e -> e = ValueError.
Proof. unfold rec_field. destruct (dict_get name a); [discriminate|congruence]. Qed.

(** What normalization raises for an index that uses a missing label. *)
Lemma normalize_indices_missing h ad a ts tv d ix r c :
  holds h ad a ts tv d ->
  _unpack_index ix = Ok (r, c) ->
  uses_label (absent_from SMP_NAMES ts) r \/ uses_label (absent_from VAR_NAMES tv) c ->
  exists e,
    _normalize_indices ad ix h = (h, Raise e) /\
    (e = IndexError \/ e = OverflowError \/ e = ValueError) /\
    (e = OverflowError -> ~ (list_fits r /\ list_fits c)) /\
    (e = ValueError ->
     dict_has SMP_NAMES (dtype ts) = false \/ dict_has VAR_NAMES (dtype tv) = false).
Proof.
  intros (_ & Hs & Hv & _) Hu Hm.
  assert (Habs : forall name t sel names,
             rec_field name (dtype t) = Ok names ->
             uses_label (absent_from name t) sel -> uses_label (label_missing names) sel).
  { intros name t sel names E Hsel.
    destruct Hsel as [s Hm'|s stop step Hm'|start s step Hm'|ks s Hin Hm'];
      [apply label_key|apply label_start|apply label_stop|apply (label_entry _ _ s Hin)];
      exact (Hm' _ E). }
  assert (Hno : forall name a e, rec_field name a = Raise e -> dict_has name a = false).
  { intros name a0 e. unfold rec_field, dict_has. now destruct (dict_get name a0). }
  unfold _normalize_indices, smp_names, var_names, bind, lift, ret, load_table.
  rewrite Hu. cbn [fst snd]. rewrite Hs.
  destruct (rec_field SMP_NAMES (dtype ts)) as [sn|e] eqn:Esn.
  2:{ exists e. rewrite (rec_field_raises _ _ _ Esn). split; [reflexivity|].
      split; [now right; right|]. split; [discriminate|]. intros _. left. eauto. }
  destruct (_normalize_index r sn) as [si|e] eqn:Er.
  2:{ exists e. split; [reflexivity|].
      destruct (normalize_index_raises _ _ _ Er) as [->|[-> Hn]].
      - split; [now left|]. split; discriminate.
      - split; [now right; left|]. split; [|discriminate]. intros _ [Hf _]. now apply Hn. }
  rewrite Hv.
  destruct (rec_field VAR_NAMES (dtype tv)) as [vn|e] eqn:Evn.
  2:{ exists e. rewrite (rec_field_raises _ _ _ Evn). split; [reflexivity|].
      split; [now right; right|]. split; [discriminate|]. intros _. right. eauto. }
  destruct Hm as [Hm|Hm].
  - destruct (normalize_index_missing _ _ (Habs _ _ _ _ Esn Hm)) as [e He]. congruence.
  - destruct (normalize_index_missing _ _ (Habs _ _ _ _ Evn Hm)) as [e He].
    rewrite He. exists e. split; [reflexivity|].
    destruct (normalize_index_raises _ _ _ He) as [->|[-> Hn]].
    + split; [now left|]. split; discriminate.
    + split; [now right; left|]. split; [|discriminate]. intros _ [_ Hf]. now apply Hn.
Qed.

(** C8, as the claim states it, fails: the rows are normalized before the
    columns, and a list with an integer that no int64 holds is refused
    with [OverflowError] before the missing column label is looked up. *)
Lemma C8_counterexample :
  AnnData_getitem adata_named
      (IdxTuple [SelSeq [KInt (2 ^ 63)]; SelKey (KStr "X")]) heap_named
    = (heap_named, Raise OverflowError) /\
  rec_field VAR_NAMES [(VAR_NAMES, StrCol ["a"; "b"; "c"])] = Ok (StrCol ["a"; "b"; "c"]) /\
  ~ In "X" ["a"; "b"; "c"].
Proof.
  split; [reflexivity|]. split; [reflexivity|].
  simpl. intros [H0|[H0|[H0|[]]]]; discriminate.
Qed.

(** C8 (amended).  When a selector of the index uses a label that the
    identifier column of its axis does not hold (as the selector itself,
    as a bound of a slice, or inside a list), [Get], [Set] and [Delete]
    raise, all three the same exception, and write nothing.  The exception
    is [IndexError], unless a list selector holds an integer outside
    int64 ([OverflowError]) or a table has no identifier column
    ([ValueError]).  ([Get] and [Set] take a single string for a key of
    [add], not for a label.) *)
Theorem C8_missing_label_raises
    (array_setitem : loc -> nindex -> nindex -> pyobj -> M unit)
    {scipy : Scipy} h ad a ts tv d ix r c val :
  holds h ad a ts tv d ->
  _unpack_index ix = Ok (r, c) ->
  uses_label (absent_from SMP_NAMES ts) r \/ uses_label (absent_from VAR_NAMES tv) c ->
  exists e,
    (AnnData_delitem ad ix h = (h, Raise e) /\
     (is_add_key ix = false ->
      AnnData_getitem ad ix h = (h, Raise e) /\
      AnnData_setitem array_setitem ad ix val h = (h, Raise e))) /\
    (e = IndexError \/ e = OverflowError \/ e = ValueError) /\
    (list_fits r -> list_fits c ->
     dict_has SMP_NAMES (dtype ts) = true -> dict_has VAR_NAMES (dtype tv) = true ->
     e = IndexError).
Proof.
  intros Hh Hu Hm.
  destruct (normalize_indices_missing h ad a ts tv d ix r c Hh Hu Hm)
    as (e & Hn & He & Hover & Hval).
  exists e. split; [|split; [exact He|]].
  - split.
    + unfold AnnData_delitem. now rewrite (bind_Raise _ _ _ _ _ Hn).
    + intros Hk.
      assert (Hget : getitem_data ad ix h = (h, Raise e))
        by (unfold getitem_data; now rewrite (bind_Raise _ _ _ _ _ Hn)).
      assert (Hset : (sv <- _normalize_indices ad ix ;;
                      array_setitem (X ad) (fst sv) (snd sv) val) h = (h, Raise e))
        by (now rewrite (bind_Raise _ _ _ _ _ Hn)).
      destruct ix as [[[z|s|b]| | | | | |]|ss|bss]; try discriminate Hk; split; assumption.
  - intros Hfr Hfc Hids Hidv.
    destruct He as [->|[->| ->]]; [reflexivity| |].
    + exfalso. now apply Hover.
    + exfalso. destruct (Hval eq_refl); congruence.
Qed.

Lemma C8_witness :
  exists e,
    (AnnData_delitem adata_named (IdxTuple [SelKey (KStr "X"); full_slice]) heap_named
       = (heap_named, Raise e) /\
     (is_add_key (IdxTuple [SelKey (KStr "X"); full_slice]) = false ->
      AnnData_getitem adata_named (IdxTuple [SelKey (KStr "X"); full_slice]) heap_named
        = (heap_named, Raise e) /\
      AnnData_setitem fill_all adata_named (IdxTuple [SelKey (KStr "X"); full_slice]) (PInt 0)
                      heap_named
        = (heap_named, Raise e))) /\
    (e = IndexError \/ e = OverflowError \/ e = ValueError) /\
    (list_fits (SelKey (KStr "X")) -> list_fits full_slice ->
     dict_has SMP_NAMES [(SMP_NAMES, StrCol ["A"; "B"])] = true ->
     dict_has VAR_NAMES [(VAR_NAMES, StrCol ["a"; "b"; "c"])] = true ->
     e = IndexError).
Proof.
  apply (C8_missing_label_raises fill_all heap_named adata_named mat23
           (mkBoundRecArr [(SMP_NAMES, StrCol ["A"; "B"])] SMP_NAMES)
           (mkBoundRecArr [(VAR_NAMES, StrCol ["a"; "b"; "c"])] VAR_NAMES) []
           (IdxTuple [SelKey (KStr "X"); full_slice]) (SelKey (KStr "X")) full_slice (PInt 0)
           holds_named eq_refl).
  left. apply label_key. intros names [= <-]. simpl. intros [H0|[H0|[]]]; discriminate.
Defined.

(** ** The dictionary of a sub-container *)

Lemma ndarray_getitem_rank c p si vi Xd :
  ndarray_getitem c p si vi = Ok Xd ->
  (exists xs, Xd = Data1 xs) \/ (exists r n rows, Xd = Data2 r n rows).
Proof.
  unfold ndarray_getitem. destruct p as [|xs|r n rows|]; try discriminate.
  destruct (axis_positions si r) as [rs|]; [|discriminate].
  destruct (axis_positions vi n) as [cs|]; [|discriminate]. cbn [rbind].
  destruct si, vi; try (intros [= <-]; right; eauto).
  destruct (paired rs cs) as [ij|]; [|discriminate]. cbn [rbind].
  destruct c; intros [= <-]; eauto.
Qed.

Lemma lookup_dict_before (h : heap) X' l d :
  (h ++ [OArray X']) !! l = Some (ODict d) -> h !! l = Some (ODict d).
Proof.
  intros E. destruct (decide (l < length h)%nat) as [Hlt|Hge].
  - now rewrite lookup_app_l in E.
  - rewrite lookup_app_r in E by lia.
    destruct (l - length h)%nat as [|[|?]]; discriminate.
Qed.

(** The constructor takes no matrix of three and more dimensions. *)
Lemma init_DataN l s v add h a d0 d1 d2 ds :
  h !! l = Some (OArray a) -> data a = DataN d0 d1 d2 ds ->
  AnnData_init (PRef l) s v add h = (h, Raise ValueError).
Proof.
  intros El Ed. unfold AnnData_init.
  rewrite (bind_Ok _ _ h h (PRef l, s, v, add)) by reflexivity.
  cbv beta iota. rewrite (bind_Ok _ _ h h a) by (now apply load_array_Ok).
  rewrite find_storage_type_recorded, Ed.
  rewrite (bind_Ok _ _ h h a) by reflexivity.
  rewrite Ed. simpl. destruct (dtype_names a); reflexivity.
Qed.

(** A [Get] that returns a container has allocated four objects; the last
    is the container's dictionary, with the entries of the parent's. *)
Lemma getitem_data_inv {scipy : Scipy} ad ix h h1 child :
  AnnData_getitem ad ix h = (h1, Ok (ItemData child)) ->
  exists d X' ts' tv',
    h !! add ad = Some (ODict d) /\
    h1 = h ++ [OArray X'; OTable ts'; OTable tv'; ODict d] /\
    add child = (length h + 3)%nat.
Proof.
  intros H.
  assert (Hbody : getitem_data ad ix h = (h1, Ok (ItemData child))).
  { destruct ix as [[[z|s|b]| | | | | |]|ss|bss]; try exact H.
    unfold AnnData_getitem, bind, load_dict, ret, raise in H.
    destruct (h !! add ad) as [[?|?|d]|]; try discriminate.
    destruct (dict_get s d); discriminate. }
  clear H. unfold getitem_data in Hbody. unfold bind at 1 in Hbody.
  pose proof (normalize_indices_heap ad ix h) as Hn.
  destruct (_normalize_indices ad ix h) as [h0 [[si vi]|e]]; simpl in Hn; subst h0;
    [|discriminate].
  cbn [fst snd] in Hbody.
  unfold bind at 1, load_array in Hbody.
  destruct (h !! X ad) as [[a|?|?]|]; try discriminate.
  unfold bind at 1, lift in Hbody.
  destruct (array_getitem a si vi) as [X'|] eqn:EX; [|discriminate].
  unfold bind at 1, alloc in Hbody.
  remember (h ++ [OArray X']) as h' eqn:Eh'.
  unfold bind at 1, load_table in Hbody.
  match type of Hbody with context [match ?x with Some _ => _ | None => _ end] =>
    destruct x as [[?|ts|?]|] end; try discriminate.
  unfold bind at 1, lift in Hbody.
  destruct (rec_getitem (dtype ts) si) as [smp_ann|]; [|discriminate].
  unfold bind at 1, load_table in Hbody.
  match type of Hbody with context [match ?x with Some _ => _ | None => _ end] =>
    destruct x as [[?|tv|?]|] end; try discriminate.
  unfold bind at 1, lift in Hbody.
  destruct (rec_getitem (dtype tv) vi) as [var_ann|]; [|discriminate].
  unfold bind at 1, lift in Hbody.
  destruct (shape_at (data X') 0) as [n0|] eqn:E0; [|discriminate].
  unfold bind at 1, assert in Hbody.
  destruct (Nat.eqb (rec_len smp_ann) n0); [|discriminate].
  unfold ret at 1 in Hbody.
  unfold bind at 1, lift in Hbody.
  destruct (shape_at (data X') 1) as [n1|] eqn:E1; [|discriminate].
  unfold bind at 1, assert in Hbody.
  destruct (Nat.eqb (rec_len var_ann) n1); [|discriminate].
  unfold ret at 1 in Hbody.
  unfold bind at 1, load_dict in Hbody.
  match type of Hbody with context [match ?x with Some _ => _ | None => _ end] =>
    destruct x as [[?|?|d]|] eqn:Ed end; try discriminate.
  assert (Hd : h !! add ad = Some (ODict d))
    by (subst h'; eapply lookup_dict_before; exact Ed).
  assert (HX' : h' !! length h = Some (OArray X'))
    by (subst h'; now apply list_lookup_middle).
  unfold bind, AnnData_call in Hbody.
  destruct (existsb _ _); [discriminate|].
  destruct (data X') as [x|xs|r n rows|d0 d1 d2 ds] eqn:EdX; try discriminate.
  2:{ rewrite (init_DataN _ _ _ _ _ X' d0 d1 d2 ds) in Hbody by assumption. discriminate. }
  rewrite (init_2d h' (length h) X' r n rows) in Hbody by assumption.
  unfold init_outcome in Hbody.
  destruct (BoundRecArr_new (SrcRecarray smp_ann) SMP_NAMES (Some r)) as [ts'|];
    [|discriminate].
  destruct (BoundRecArr_new (SrcRecarray var_ann) VAR_NAMES (Some n)) as [tv'|];
    [|discriminate].
  destruct (_check_dimensions (data X') ts' tv'); [|discriminate].
  unfold ret in Hbody. injection Hbody as <- <-.
  exists d, X', ts', tv'. split; [exact Hd|]. split.
  - subst h'. now rewrite <- app_assoc.
  - subst h'. simpl. rewrite length_app. simpl. lia.
Qed.

Lemma setitem_add_key f ad k v h d :
  h !! add ad = Some (ODict d) ->
  AnnData_setitem f ad (IdxOne (SelKey (KStr k))) v h =
    (<[add ad := ODict (dict_set k v d)]> h, Ok tt).
Proof.
  intros E. unfold AnnData_setitem.
  rewrite (bind_Ok _ _ h h d) by (now apply load_dict_Ok). reflexivity.
Qed.

(** C3, as the claim states it, fails: a key written through the
    sub-container [adata[0]] cannot be read through the parent. *)
Lemma C3_counterexample :
  exists h1 child h2,
    AnnData_getitem adata_named (IdxOne (SelKey (KInt 0))) heap_named
      = (h1, Ok (ItemData child)) /\
    AnnData_setitem fill_all child (IdxOne (SelKey (KStr "k"))) (PInt 1) h1 = (h2, Ok tt) /\
    AnnData_getitem child (IdxOne (SelKey (KStr "k"))) h2 = (h2, Ok (ItemValue (PInt 1))) /\
    AnnData_getitem adata_named (IdxOne (SelKey (KStr "k"))) h2 = (h2, Raise KeyError) /\
    add child <> add adata_named.
Proof.
  eexists _, _, _. split; [reflexivity|]. split; [reflexivity|].
  split; [reflexivity|]. split; [reflexivity|]. discriminate.
Qed.

(** C3 (amended).  The [add] of a sub-container that [Get] returns is a
    dictionary of its own: a new object that holds the entries the
    parent's dictionary has at that moment.  A key written afterwards
    through the sub-container leaves the parent's dictionary as it was,
    and a key written through the parent leaves the sub-container's. *)
Theorem C3_get_gives_the_sub_container_its_own_add {scipy : Scipy}
    (array_setitem : loc -> nindex -> nindex -> pyobj -> M unit)
    h ad ix h1 child k v :
  AnnData_getitem ad ix h = (h1, Ok (ItemData child)) ->
  exists d,
    add child <> add ad /\
    h1 !! add ad = Some (ODict d) /\ h1 !! add child = Some (ODict d) /\
    (exists h2,
        AnnData_setitem array_setitem child (IdxOne (SelKey (KStr k))) v h1 = (h2, Ok tt) /\
        h2 !! add child = Some (ODict (dict_set k v d)) /\
        h2 !! add ad = Some (ODict d)) /\
    (exists h2,
        AnnData_setitem array_setitem ad (IdxOne (SelKey (KStr k))) v h1 = (h2, Ok tt) /\
        h2 !! add ad = Some (ODict (dict_set k v d)) /\
        h2 !! add child = Some (ODict d)).
Proof.
  intros H. destruct (getitem_data_inv _ _ _ _ _ H) as (d & X' & ts' & tv' & Hd & -> & Hc).
  assert (Hlt : (add ad < length h)%nat) by (eapply lookup_lt_Some; eauto).
  set (h1 := h ++ [OArray X'; OTable ts'; OTable tv'; ODict d]).
  assert (Hne : add child <> add ad) by lia.
  assert (Hp : h1 !! add ad = Some (ODict d)) by (now apply lookup_app_l_Some).
  assert (Hch : h1 !! add child = Some (ODict d)).
  { unfold h1. rewrite Hc, lookup_app_r by lia.
    replace (length h + 3 - length h)%nat with 3%nat by lia. reflexivity. }
  exists d. repeat split; try assumption.
  - eexists. split; [apply setitem_add_key; exact Hch|]. split.
    + apply list_lookup_insert_eq. eapply lookup_lt_Some; exact Hch.
    + rewrite list_lookup_insert_ne; assumption.
  - eexists. split; [apply setitem_add_key; exact Hp|]. split.
    + apply list_lookup_insert_eq. eapply lookup_lt_Some; exact Hp.
    + rewrite list_lookup_insert_ne; [assumption|]. congruence.
Qed.

Lemma C3_witness :
  exists d,
    7%nat <> 3%nat /\
    (heap_named ++
       [OArray (mkArray cls_ndarray false (Data2 1 3 [[1; 2; 3]]));
        OTable (mkBoundRecArr [(SMP_NAMES, StrCol ["A"])] SMP_NAMES);
        OTable (mkBoundRecArr [(VAR_NAMES, StrCol ["a"; "b"; "c"])] VAR_NAMES);
        ODict []]) !! 3%nat = Some (ODict d).
Proof.
  destruct (C3_get_gives_the_sub_container_its_own_add fill_all
              heap_named adata_named (IdxOne (SelKey (KInt 0)))
              (heap_named ++
                 [OArray (mkArray cls_ndarray false (Data2 1 3 [[1; 2; 3]]));
                  OTable (mkBoundRecArr [(SMP_NAMES, StrCol ["A"])] SMP_NAMES);
                  OTable (mkBoundRecArr [(VAR_NAMES, StrCol ["a"; "b"; "c"])] VAR_NAMES);
                  ODict []])
              (mkAnnData Array 4%nat 5%nat 6%nat 7%nat) "k" (PInt 1) eq_refl)
    as (d & Hne & Hp & _).
  exists d. split; assumption.
Defined.

(** ** Dictionaries *)

Lemma existsb_eqb_false k (l : list string) :
  existsb (String.eqb k) l = false -> ~ In k l.
Proof.
  intros E Hin. induction l as [|x l IH]; [destruct Hin|].
  simpl in E. apply orb_false_iff in E as [E1 E2].
  destruct Hin as [->|Hin]; [|now apply IH].
  now rewrite String.eqb_refl in E1.
Qed.

Lemma dict_get_del {V} k k' (d : list (string * V)) :
  dict_get k (dict_del k' d) = if String.eqb k k' then None else dict_get k d.
Proof.
  induction d as [|[k1 v1] d IH]; simpl; [now destruct (String.eqb k k')|].
  destruct (String.eqb_spec k' k1) as [->|Hne1].
  - rewrite IH. destruct (String.eqb k k1); reflexivity.
  - simpl. rewrite IH. destruct (String.eqb_spec k k') as [->|Hne2]; [|reflexivity].
    destruct (String.eqb_spec k' k1); [contradiction|reflexivity].
Qed.

Lemma dict_get_None_keys {V} k (d : list (string * V)) :
  ~ In k (map fst d) -> dict_get k d = None.
Proof.
  induction d as [|[k1 v1] d IH]; simpl; [reflexivity|].
  intros Hn. destruct (String.eqb_spec k k1) as [->|_]; [exfalso; auto|].
  apply IH. auto.
Qed.

(** Writing the items of a dictionary one by one into an empty dictionary
    gives the dictionary back. *)
Lemma fold_set_append {V} (d acc : list (string * V)) :
  is_dict d -> (forall k, In k (map fst d) -> ~ In k (map fst acc)) ->
  fold_left (fun m kv => dict_set (fst kv) (snd kv) m) d acc = acc ++ d.
Proof.
  unfold is_dict. revert acc. induction d as [|[k v] d IH]; intros acc Hd Hdisj.
  - now rewrite app_nil_r.
  - simpl in *. apply andb_true_iff in Hd as [Hk Hd].
    apply negb_true_iff, existsb_eqb_false in Hk.
    assert (Hset : dict_set k v acc = acc ++ [(k, v)]).
    { assert (Hn : ~ In k (map fst acc)) by (apply Hdisj; now left).
      clear -Hn. induction acc as [|[k1 v1] acc IH]; simpl in *; [reflexivity|].
      destruct (String.eqb_spec k k1) as [->|_]; [exfalso; auto|].
      rewrite IH; auto. }
    rewrite Hset, IH, <- app_assoc; [reflexivity|assumption|].
    intros k' Hin. rewrite map_app, in_app_iff. simpl.
    intros [Hacc|[<-|[]]]; [|contradiction].
    apply (Hdisj k'); [now right|assumption].
Qed.

Lemma odict_merge_single {V} (d : list (string * V)) : is_dict d -> odict_merge [d] = d.
Proof. intros Hd. unfold odict_merge. simpl. now rewrite fold_set_append. Qed.

(** Merging into a dictionary whose first key is [k] leaves [k] first; its
    value is replaced when the merged dictionary has the key. *)
Lemma fold_set_head_absent {V} k v (d acc : list (string * V)) :
  dict_get k d = None ->
  exists acc', fold_left (fun m kv => dict_set (fst kv) (snd kv) m) d ((k, v) :: acc)
               = (k, v) :: acc'.
Proof.
  revert acc. induction d as [|[k1 v1] d IH]; intros acc Hn; simpl in *; [eauto|].
  rewrite String.eqb_sym. destruct (String.eqb k k1); [discriminate|]. now apply IH.
Qed.

Lemma fold_set_head_present {V} k v x (d acc : list (string * V)) :
  is_dict d -> dict_get k d = Some x ->
  exists acc', fold_left (fun m kv => dict_set (fst kv) (snd kv) m) d ((k, v) :: acc)
               = (k, x) :: acc'.
Proof.
  unfold is_dict. revert v acc. induction d as [|[k1 v1] d IH]; intros v acc Hd Hg;
    simpl in *; [discriminate|].
  apply andb_true_iff in Hd as [Hk Hd]. rewrite String.eqb_sym.
  destruct (String.eqb_spec k k1) as [->|Hne].
  - injection Hg as ->. apply fold_set_head_absent. apply dict_get_None_keys.
    now apply existsb_eqb_false, negb_true_iff.
  - now apply IH.
Qed.

Lemma merged_head {V} name (e v : V) (first second : list (string * V)) :
  is_dict first -> is_dict second ->
  match dict_get name second with
  | Some x => Some x
  | None => dict_get name first
  end = Some v ->
  exists rest, odict_merge [[(name, e)]; first; second] = (name, v) :: rest.
Proof.
  intros Hf Hs Hv. unfold odict_merge. cbn [fold_left dict_set fst snd].
  assert (H1 : exists e1 acc1,
             fold_left (fun m kv => dict_set (fst kv) (snd kv) m) first [(name, e)]
             = (name, e1) :: acc1 /\ (dict_get name first = Some e1 \/ dict_get name first = None)).
  { destruct (dict_get name first) as [x|] eqn:E.
    - destruct (fold_set_head_present name e x first [] Hf E) as [acc1 ->]. eauto.
    - destruct (fold_set_head_absent name e first [] E) as [acc1 ->]. eauto. }
  destruct H1 as (e1 & acc1 & -> & He1).
  destruct (dict_get name second) as [x|] eqn:E.
  - injection Hv as ->. apply fold_set_head_present; assumption.
  - destruct He1 as [He1|He1]; [|congruence].
    assert (e1 = v) as -> by congruence. now apply fold_set_head_absent.
Qed.

(** The nested mapping that [from_ddata] reads under a key. *)
Lemma items_nested ddata k name m :
  dict_of_dicts ddata ->
  items (dict_get_default k (PDict []) ddata) = Ok m ->
  is_dict m /\ entry_of name (dict_get k ddata) = dict_get name m.
Proof.
  intros [_ Hall] Hi. unfold dict_get_default in Hi.
  destruct (dict_get k ddata) as [x|] eqn:E.
  - destruct x; try discriminate. injection Hi as ->. split; [eauto|reflexivity].
  - injection Hi as <-. split; reflexivity.
Qed.

(** When an explicit list is given and a nested mapping has an identifier
    entry, the mapping that [from_ddata] hands on begins with the
    identifier column, holding the nested entry. *)
Lemma from_ddata_heads ddata X0 smp var add :
  dict_of_dicts ddata ->
  from_ddata ddata = Ok (X0, smp, var, add) ->
  (forall v,
      dict_has "row_names" ddata || dict_has "smp_names" ddata = true ->
      nested_identifier ddata "row" "smp" SMP_NAMES = Some v ->
      exists rest, smp = (SMP_NAMES, v) :: rest) /\
  (forall v,
      dict_has "col_names" ddata || dict_has "var_names" ddata = true ->
      nested_identifier ddata "col" "var" VAR_NAMES = Some v ->
      exists rest, var = (VAR_NAMES, v) :: rest).
Proof.
  intros Hdd H. pose proof Hdd as [Hd Hall]. unfold from_ddata in H.
  rewrite (odict_merge_single ddata Hd) in H.
  destruct (dict_get "X" ddata) as [x|]; [|discriminate].
  set (add1 := dict_del "X" ddata) in *.
  assert (G1 : forall k, String.eqb k "X" = false -> dict_get k add1 = dict_get k ddata).
  { intros k Hk. unfold add1. now rewrite dict_get_del, Hk. }
  rewrite !G1 in H by reflexivity.
  set (sa := match dict_get "row_names" ddata with
             | Some v => ([("smp_names", v)], dict_del "row_names" add1)
             | None => match dict_get "smp_names" ddata with
                       | Some v => ([("smp_names", v)], dict_del "smp_names" add1)
                       | None => ([], add1)
                       end
             end) in *.
  assert (G2 : forall k, String.eqb k "X" = false -> String.eqb k "row_names" = false ->
                         String.eqb k "smp_names" = false ->
                         dict_get k (snd sa) = dict_get k ddata).
  { intros k Hx Hr Hs. unfold sa.
    destruct (dict_get "row_names" ddata); [|destruct (dict_get "smp_names" ddata)];
      simpl; rewrite ?dict_get_del, ?Hr, ?Hs; now apply G1. }
  assert (S2 : dict_has "row_names" ddata || dict_has "smp_names" ddata = true ->
               exists e, fst sa = [(SMP_NAMES, e)]).
  { unfold sa, dict_has.
    destruct (dict_get "row_names" ddata); [eauto|].
    destruct (dict_get "smp_names" ddata); [eauto|discriminate]. }
  destruct sa as [smp0 add2]. cbn [fst snd] in G2, S2.
  rewrite !G2 in H by reflexivity.
  set (va := match dict_get "col_names" ddata with
             | Some v => ([("var_names", v)], dict_del "col_names" add2)
             | None => match dict_get "var_names" ddata with
                       | Some v => ([("var_names", v)], dict_del "var_names" add2)
                       | None => ([], add2)
                       end
             end) in *.
  assert (G3 : forall k, String.eqb k "X" = false -> String.eqb k "row_names" = false ->
                         String.eqb k "smp_names" = false ->
                         String.eqb k "col_names" = false ->
                         String.eqb k "var_names" = false ->
                         dict_get k (snd va) = dict_get k ddata).
  { intros k Hx Hr Hs Hc Hv. unfold va.
    destruct (dict_get "col_names" ddata); [|destruct (dict_get "var_names" ddata)];
      simpl; rewrite ?dict_get_del, ?Hc, ?Hv; now apply G2. }
  assert (S3 : dict_has "col_names" ddata || dict_has "var_names" ddata = true ->
               exists e, fst va = [(VAR_NAMES, e)]).
  { unfold va, dict_has.
    destruct (dict_get "col_names" ddata); [eauto|].
    destruct (dict_get "var_names" ddata); [eauto|discriminate]. }
  destruct va as [var0 add3]. cbn [fst snd] in G3, S3.
  assert (D : forall k, String.eqb k "X" = false -> String.eqb k "row_names" = false ->
                        String.eqb k "smp_names" = false ->
                        String.eqb k "col_names" = false ->
                        String.eqb k "var_names" = false ->
                        dict_get_default k (PDict []) add3 = dict_get_default k (PDict []) ddata).
  { intros. unfold dict_get_default. now rewrite G3. }
  rewrite !D in H by reflexivity.
  destruct (items (dict_get_default "row" (PDict []) ddata)) as [row|] eqn:Erow;
    [|discriminate].
  destruct (items (dict_get_default "smp" (PDict []) ddata)) as [smp'|] eqn:Esmp;
    [|discriminate].
  destruct (items (dict_get_default "col" (PDict []) ddata)) as [col|] eqn:Ecol;
    [|discriminate].
  destruct (items (dict_get_default "var" (PDict []) ddata)) as [var'|] eqn:Evar;
    [|discriminate].
  cbn [rbind] in H. injection H as _ <- <- _.
  destruct (items_nested ddata "row" SMP_NAMES row Hdd Erow) as [Hrow Grow].
  destruct (items_nested ddata "smp" SMP_NAMES smp' Hdd Esmp) as [Hsmp Gsmp].
  destruct (items_nested ddata "col" VAR_NAMES col Hdd Ecol) as [Hcol Gcol].
  destruct (items_nested ddata "var" VAR_NAMES var' Hdd Evar) as [Hvar Gvar].
  split.
  - intros v Hex Hn. destruct (S2 Hex) as [e ->].
    apply merged_head; [assumption..|].
    unfold nested_identifier in Hn. now rewrite Gsmp, Grow in Hn.
  - intros v Hex Hn. destruct (S3 Hex) as [e ->].
    apply merged_head; [assumption..|].
    unfold nested_identifier in Hn. now rewrite Gvar, Gcol in Hn.
Qed.

Lemma BoundRecArr_new_mapping_head name ids rest n_row t :
  BoundRecArr_new (SrcMapping ((name, PList ids) :: rest)) name n_row = Ok t ->
  rec_field name (dtype t) = Ok ids.
Proof.
  unfold BoundRecArr_new. cbn [rmap asarray rbind fst snd].
  destruct (rmap _ rest) as [cols|]; [|discriminate]. cbn [rbind].
  unfold dict_has. cbn [dict_get]. rewrite String.eqb_refl. cbn [rbind].
  destruct (negb (distinct (map fst ((name, ids) :: cols)))); [discriminate|].
  cbn [rmap snd fst]. rewrite broadcast_to_same. cbn [rbind].
  destruct (rmap _ cols) as [filled|]; [|discriminate]. cbn [rbind].
  intros [= <-]. unfold rec_field. cbn [dtype dict_get]. now rewrite String.eqb_refl.
Qed.

(** A construction that succeeds has built both tables from its sources
    and has stored them under the references of the container. *)
Lemma init_Ok_inv l s v add h h' ad :
  AnnData_init (PRef l) s v add h = (h', Ok ad) ->
  exists ts tv n_smp n_var,
    BoundRecArr_new s SMP_NAMES (Some n_smp) = Ok ts /\
    BoundRecArr_new v VAR_NAMES (Some n_var) = Ok tv /\
    h' !! smp ad = Some (OTable ts) /\ h' !! var ad = Some (OTable tv).
Proof.
  intros H.
  assert (Hout : exists h0 a r c,
             AnnData_init (PRef l) s v add h = init_outcome h0 l a r c s v add).
  { destruct (h !! l) as [[a|?|?]|] eqn:El;
      try (unfold AnnData_init, bind, ret, load_array in H; rewrite El in H; discriminate).
    destruct (data a) as [x|xs|r c rows|] eqn:Ed.
    - exfalso. unfold AnnData_init in H.
      rewrite (bind_Ok _ _ h h (PRef l, s, v, add)) in H by reflexivity.
      cbv beta iota in H. rewrite (bind_Ok _ _ h h a) in H by (now apply load_array_Ok).
      rewrite find_storage_type_recorded, Ed in H.
      rewrite (bind_Ok _ _ h h a) in H by reflexivity.
      rewrite Ed in H. simpl in H. destruct (dtype_names a); discriminate.
    - rewrite (init_1d h l a xs) by assumption.
      eexists _, _, _, _. apply (init_2d _ l _ (length xs) 1 (map (fun x => [x]) xs)).
      + apply list_lookup_insert_eq. eapply lookup_lt_Some; eauto.
      + reflexivity.
    - eexists _, _, _, _. now apply (init_2d h l a r c rows).
    - exfalso. unfold AnnData_init in H.
      rewrite (bind_Ok _ _ h h (PRef l, s, v, add)) in H by reflexivity.
      cbv beta iota in H. rewrite (bind_Ok _ _ h h a) in H by (now apply load_array_Ok).
      rewrite find_storage_type_recorded, Ed in H.
      rewrite (bind_Ok _ _ h h a) in H by reflexivity.
      rewrite Ed in H. simpl in H. destruct (dtype_names a); discriminate. }
  destruct Hout as (h0 & a & r & c & Hout). rewrite Hout in H. unfold init_outcome in H.
  destruct (BoundRecArr_new s SMP_NAMES (Some r)) as [ts|] eqn:Es; [|discriminate].
  destruct (BoundRecArr_new v VAR_NAMES (Some c)) as [tv|] eqn:Ev; [|discriminate].
  destruct (_check_dimensions (data a) ts tv); [|discriminate].
  injection H as <- <-. exists ts, tv, r, c. cbn [smp var].
  repeat split; try assumption.
  - now apply list_lookup_middle.
  - rewrite lookup_app_r by lia.
    replace (length h0 + 1 - length h0)%nat with 1%nat by lia. reflexivity.
Qed.

Lemma init_ddata_inv ddata h h' ad :
  AnnData_init (PDict ddata) SrcNone SrcNone [] h = (h', Ok ad) ->
  exists l smp var add,
    from_ddata ddata = Ok (PRef l, smp, var, add) /\
    AnnData_init (PRef l) (SrcMapping smp) (SrcMapping var) add h = (h', Ok ad).
Proof.
  intros H. unfold AnnData_init in H. cbn [truth orb] in H.
  unfold bind at 1 in H. unfold bind at 1, lift in H.
  destruct (from_ddata ddata) as [[[[X0 smp] var] add]|] eqn:E; [|discriminate].
  unfold ret at 1 in H.
  destruct X0 as [| | | | | |l]; try discriminate.
  exists l, smp, var, add. split; [reflexivity|].
  unfold AnnData_init. rewrite (bind_Ok _ _ h h (PRef l, SrcMapping smp, SrcMapping var, add))
    by reflexivity.
  exact H.
Qed.

(** ** Construction from a combined mapping *)

(** C4, as the claim states it, fails: with the explicit list ['A', 'B']
    under [row_names] and the entry ['C', 'D'] in the mapping under [row],
    the identifier column of the row table holds ['C', 'D']; the same on
    the column axis. *)
Lemma C4_counterexample :
  exists h ad,
    AnnData_init (PDict ddata_both) SrcNone SrcNone [] [OArray mat23] = (h, Ok ad) /\
    smp_names ad h = (h, Ok (StrCol ["C"; "D"])) /\
    StrCol ["C"; "D"] <> StrCol ["A"; "B"] /\
    var_names ad h = (h, Ok (StrCol ["x"; "y"; "z"])) /\
    StrCol ["x"; "y"; "z"] <> StrCol ["a"; "b"; "c"].
Proof.
  eexists _, _. split; [reflexivity|]. split; [reflexivity|]. split; [discriminate|].
  split; [reflexivity|discriminate].
Qed.

(** C4 (amended).  When a combined mapping supplies an explicit
    identifier list under a reserved alias key and the nested annotation
    mappings of that axis have an identifier entry, the nested entry takes
    precedence (that of the mapping under [smp] or [var] over that of the
    mapping under [row] or [col]): the identifier column of the
    constructed table holds the values of the nested entry. *)
Theorem C4_nested_identifier_entry_takes_precedence ddata h h' ad :
  dict_of_dicts ddata ->
  AnnData_init (PDict ddata) SrcNone SrcNone [] h = (h', Ok ad) ->
  (forall ids,
      dict_has "row_names" ddata || dict_has "smp_names" ddata = true ->
      nested_identifier ddata "row" "smp" SMP_NAMES = Some (PList ids) ->
      smp_names ad h' = (h', Ok ids)) /\
  (forall ids,
      dict_has "col_names" ddata || dict_has "var_names" ddata = true ->
      nested_identifier ddata "col" "var" VAR_NAMES = Some (PList ids) ->
      var_names ad h' = (h', Ok ids)).
Proof.
  intros Hdd H.
  destruct (init_ddata_inv _ _ _ _ H) as (l & ms & mv & madd & Hf & Hi).
  destruct (from_ddata_heads _ _ _ _ _ Hdd Hf) as [Hs Hv].
  destruct (init_Ok_inv _ _ _ _ _ _ _ Hi) as (ts & tv & r & c & Ets & Etv & Ls & Lv).
  split; intros ids Hex Hn.
  - destruct (Hs _ Hex Hn) as [rest ->].
    unfold smp_names. rewrite (bind_Ok _ _ h' h' ts) by (now apply load_table_Ok).
    unfold lift. now rewrite (BoundRecArr_new_mapping_head _ _ _ _ _ Ets).
  - destruct (Hv _ Hex Hn) as [rest ->].
    unfold var_names. rewrite (bind_Ok _ _ h' h' tv) by (now apply load_table_Ok).
    unfold lift. now rewrite (BoundRecArr_new_mapping_head _ _ _ _ _ Etv).
Qed.

Lemma dict_of_dicts_both : dict_of_dicts ddata_both.
Proof.
  split; [reflexivity|].
  intros k m. unfold ddata_both. cbn [dict_get].
  repeat (destruct (String.eqb k _); [intros [= <-]; reflexivity || discriminate|]);
    try discriminate.
  all: intros [= <-]; reflexivity.
Qed.

Lemma C4_witness :
  let h' := [OArray mat23;
             OTable (mkBoundRecArr [(SMP_NAMES, StrCol ["C"; "D"])] SMP_NAMES);
             OTable (mkBoundRecArr [(VAR_NAMES, StrCol ["x"; "y"; "z"])] VAR_NAMES);
             ODict []] in
  let ad := mkAnnData Array 0%nat 1%nat 2%nat 3%nat in
  smp_names ad h' = (h', Ok (StrCol ["C"; "D"])) /\
  var_names ad h' = (h', Ok (StrCol ["x"; "y"; "z"])).
Proof.
  intros h' ad.
  destruct (C4_nested_identifier_entry_takes_precedence ddata_both [OArray mat23] h' ad
              dict_of_dicts_both eq_refl) as [Hs Hv].
  split; [apply Hs|apply Hv]; reflexivity.
Defined.

(** ** Transposing a matrix *)

Lemma length_transpose_rows {A} n (rows : list (list A)) :
  Forall (fun row => length row = n) rows -> length (transpose_rows n rows) = n.
Proof.
  induction 1 as [|r rows Hr _ IH]; simpl; [apply length_replicate|].
  rewrite length_zip_with. lia.
Qed.

Lemma transpose_rows_zip {A} k (r : list A) (M : list (list A)) :
  length r = length M ->
  transpose_rows (S k) (zip_with cons r M) = r :: transpose_rows k M.
Proof.
  revert M. induction r as [|x r IH]; intros [|m M] Hlen; try discriminate; [reflexivity|].
  simpl in *. rewrite IH by lia. reflexivity.
Qed.

Lemma transpose_rows_nil {A} n : transpose_rows 0 (replicate n (@nil A)) = [].
Proof. destruct n; reflexivity. Qed.

Lemma transpose_rows_involutive {A} n (rows : list (list A)) :
  Forall (fun row => length row = n) rows ->
  transpose_rows (length rows) (transpose_rows n rows) = rows.
Proof.
  induction 1 as [|r rows Hr Hall IH]; simpl; [apply transpose_rows_nil|].
  rewrite transpose_rows_zip, IH; [reflexivity|].
  now rewrite length_transpose_rows.
Qed.


Lemma transposed_involutive r c rows :
  wf_grid r c rows -> transposed (transposed (Data2 r c rows)) = Data2 r c rows.
Proof.
  intros [Hlen Hall]. simpl. subst r. now rewrite transpose_rows_involutive.
Qed.


(** ** Renaming the identifier field *)

Lemma existsb_eqb_In x (l : list string) : existsb (String.eqb x) l = true <-> In x l.
Proof.
  rewrite existsb_exists. split.
  - intros (y & Hin & Heq). apply String.eqb_eq in Heq. now subst.
  - intros Hin. exists x. split; [assumption|apply String.eqb_refl].
Qed.

Lemma existsb_eqb_notin x (l : list string) : existsb (String.eqb x) l = false <-> ~ In x l.
Proof.
  rewrite <- existsb_eqb_In. destruct (existsb (String.eqb x) l); split; intros H;
    try reflexivity; try discriminate; try (intros [=]). now destruct H.
Qed.

Lemma distinct_NoDup (l : list string) : distinct l = true <-> List.NoDup l.
Proof.
  induction l as [|x l IH]; simpl.
  - split; [constructor|reflexivity].
  - rewrite andb_true_iff, negb_true_iff, existsb_eqb_notin, IH. split.
    + intros [Hx Hl]. now constructor.
    + intros H. inversion H; subst. now split.
Qed.

Lemma dict_has_In {V} k (a : list (string * V)) : dict_has k a = true <-> In k (map fst a).
Proof.
  unfold dict_has. induction a as [|[k' v] a IH]; simpl.
  - split; [discriminate|tauto].
  - destruct (String.eqb_spec k k') as [->|Hne].
    + split; [now left|reflexivity].
    + rewrite IH. split; [now right|]. intros [Heq|Hin]; [congruence|assumption].
Qed.












(** ** Transposing a container *)


Lemma bind_alloc {B} o (k : loc -> M B) h : bind (alloc o) k h = k (length h) (h ++ [o]).
Proof. reflexivity. Qed.

Lemma check_dimensions_wf r c rows ts tv :
  wf_fields (dtype ts) r -> wf_fields (dtype tv) c ->
  _check_dimensions (Data2 r c rows) ts tv = Ok tt.
Proof.
  intros Hs Hv. unfold _check_dimensions. cbn [shape].
  rewrite (rec_len_wf _ _ Hs), (rec_len_wf _ _ Hv), !Nat.eqb_refl. reflexivity.
Qed.










(** The other way [transpose] fails: a combined mapping may carry a key
    that is a parameter name of [__init__]; it lands in [add], and the
    keyword call of [transpose] is refused with [TypeError]. *)
Lemma transpose_refuses_parameter_key :
  exists h ad h',
    AnnData_init (PDict [("X", PRef 0%nat); ("self", PInt 1)]) SrcNone SrcNone []
                 [OArray mat23] = (h, Ok ad) /\
    transpose ad h = (h', Raise TypeError).
Proof. eexists _, _, _. split; reflexivity. Qed.



(** ** Merging dictionaries *)

Lemma dict_get_set {V} k k' (v : V) d :
  dict_get k (dict_set k' v d) = if String.eqb k k' then Some v else dict_get k d.
Proof.
  induction d as [|[k0 v0] d IH]; simpl; [reflexivity|].
  destruct (String.eqb k' k0) eqn:E; simpl.
  - apply String.eqb_eq in E. rewrite E. destruct (String.eqb k k0); reflexivity.
  - rewrite IH. destruct (String.eqb k k0) eqn:E2; [|reflexivity].
    apply String.eqb_eq in E2. rewrite E2, String.eqb_sym, E. reflexivity.
Qed.

Lemma is_dict_cons {V} k (v : V) d :
  is_dict ((k, v) :: d) <-> ~ In k (map fst d) /\ is_dict d.
Proof.
  unfold is_dict. simpl. rewrite andb_true_iff, negb_true_iff, existsb_eqb_notin. tauto.
Qed.

Lemma dict_get_update {V} k (items d : list (string * V)) :
  is_dict items ->
  dict_get k (dict_update d items) =
    match dict_get k items with Some v => Some v | None => dict_get k d end.
Proof.
  revert d. induction items as [|[k1 v1] items IH]; intros d Hd; [reflexivity|].
  apply is_dict_cons in Hd as [Hk1 Hd].
  change (dict_update d ((k1, v1) :: items)) with (dict_update (dict_set k1 v1 d) items).
  rewrite IH, dict_get_set by assumption. simpl.
  destruct (String.eqb k k1) eqn:E; [|reflexivity].
  apply String.eqb_eq in E. subst. now rewrite (dict_get_None_keys _ _ Hk1).
Qed.

Lemma dict_get_merge_from {V} k (ds : list (list (string * V))) acc :
  Forall is_dict ds ->
  dict_get k (fold_left dict_update ds acc) =
    fold_left (fun found d => match dict_get k d with Some v => Some v | None => found end)
              ds (dict_get k acc).
Proof.
  revert acc. induction ds as [|d ds IH]; intros acc Hds; simpl; [reflexivity|].
  inversion Hds; subst. rewrite IH by assumption. now rewrite dict_get_update.
Qed.

(** Merging gives every key the value of the last dictionary that has it:
    for [odict_merge] and for [merge_dicts] alike. *)
Theorem merged_lookup_is_last_binding {V} (ds : list (list (string * V))) k :
  Forall is_dict ds ->
  dict_get k (odict_merge ds) = last_binding k ds /\
  dict_get k (merge_dicts ds) = last_binding k ds.
Proof.
  intros Hds. split.
  - exact (dict_get_merge_from k ds [] Hds).
  - exact (dict_get_merge_from k ds [] Hds).
Qed.

Lemma merged_lookup_witness :
  dict_get "b" (odict_merge [[("a", 1); ("b", 2)]; [("b", 3); ("c", 4)]]) = Some 3 /\
  dict_get "a" (merge_dicts [[("a", 1); ("b", 2)]; [("b", 3); ("c", 4)]]) = Some 1.
Proof.
  split.
  - apply (merged_lookup_is_last_binding [[("a", 1); ("b", 2)]; [("b", 3); ("c", 4)]] "b").
    repeat constructor.
  - apply (merged_lookup_is_last_binding [[("a", 1); ("b", 2)]; [("b", 3); ("c", 4)]] "a").
    repeat constructor.
Defined.

Lemma names_dict_set {V} k (v : V) d :
  map fst (dict_set k v d) =
    if existsb (String.eqb k) (map fst d) then map fst d else map fst d ++ [k].
Proof.
  induction d as [|[k0 v0] d IH]; simpl; [reflexivity|].
  destruct (String.eqb k k0) eqn:E; simpl; [reflexivity|].
  rewrite IH. destruct (existsb (String.eqb k) (map fst d)); reflexivity.
Qed.

Lemma names_dict_update {V} (items d : list (string * V)) :
  map fst (dict_update d items) =
    fold_left (fun seen k => if existsb (String.eqb k) seen then seen else seen ++ [k])
              (map fst items) (map fst d).
Proof.
  revert d. induction items as [|[k v] items IH]; intros d; [reflexivity|].
  change (dict_update d ((k, v) :: items)) with (dict_update (dict_set k v d) items).
  rewrite IH, names_dict_set. reflexivity.
Qed.

Lemma names_merge_from {V} (ds : list (list (string * V))) acc :
  map fst (fold_left dict_update ds acc) =
    fold_left (fun seen k => if existsb (String.eqb k) seen then seen else seen ++ [k])
              (concat (map (map fst) ds)) (map fst acc).
Proof.
  revert acc. induction ds as [|d ds IH]; intros acc; simpl; [reflexivity|].
  rewrite IH, names_dict_update, fold_left_app. reflexivity.
Qed.

Lemma NoDup_first_occurrences_from l seen :
  List.NoDup seen ->
  List.NoDup (fold_left (fun seen k => if existsb (String.eqb k) seen then seen
                                       else seen ++ [k]) l seen).
Proof.
  revert seen. induction l as [|k l IH]; intros seen Hnd; simpl; [assumption|].
  apply IH. destruct (existsb (String.eqb k) seen) eqn:E; [assumption|].
  apply existsb_eqb_notin in E.
  apply NoDup_ListNoDup, NoDup_app. split; [now apply NoDup_ListNoDup|]. split.
  - intros x Hx Hx'. apply list_elem_of_singleton in Hx'. subst.
    apply E. now apply list_elem_of_In.
  - apply NoDup_ListNoDup. repeat constructor. intros [].
Qed.

Lemma In_first_occurrences_from l seen x :
  In x (fold_left (fun seen k => if existsb (String.eqb k) seen then seen
                                 else seen ++ [k]) l seen) <-> In x seen \/ In x l.
Proof.
  revert seen. induction l as [|k l IH]; intros seen; simpl; [tauto|].
  rewrite IH. destruct (existsb (String.eqb k) seen) eqn:E.
  - apply existsb_eqb_In in E. split; [tauto|]. intros [H|[->|H]]; tauto.
  - rewrite in_app_iff. simpl. tauto.
Qed.

(** The merged dictionary has the keys of the dictionaries given, each
    once, in the order in which they first occur. *)
Theorem merged_keys_in_order_of_first_occurrence {V} (ds : list (list (string * V))) :
  map fst (odict_merge ds) = first_occurrences (concat (map (map fst) ds)) /\
  is_dict (odict_merge ds) /\
  (forall k, dict_has k (odict_merge ds) = existsb (dict_has k) ds).
Proof.
  assert (Hn : map fst (odict_merge ds) = first_occurrences (concat (map (map fst) ds)))
    by exact (names_merge_from ds []).
  split; [exact Hn|]. split.
  - unfold is_dict. rewrite Hn. apply distinct_NoDup, NoDup_first_occurrences_from.
    constructor.
  - intros k. apply eq_true_iff_eq. rewrite existsb_exists, dict_has_In, Hn.
    unfold first_occurrences. rewrite In_first_occurrences_from, in_concat.
    split.
    + intros [[]|(l & Hl & Hk)]. apply in_map_iff in Hl as (d & <- & Hd).
      exists d. split; [assumption|]. now apply dict_has_In.
    + intros (d & Hd & Hk). right. exists (map fst d). split; [now apply in_map|].
      now apply dict_has_In.
Qed.

(** ** Taking a combined mapping apart *)

Lemma dict_del_absent {V} k (d : list (string * V)) : dict_get k d = None -> dict_del k d = d.
Proof.
  induction d as [|[k1 v1] d IH]; simpl; [reflexivity|].
  destruct (String.eqb k k1); [discriminate|]. intros H. now rewrite IH.
Qed.

Lemma dict_del_filter {V} k (d : list (string * V)) :
  dict_del k d = List.filter (fun kv => negb (String.eqb (fst kv) k)) d.
Proof.
  induction d as [|[k1 v1] d IH]; simpl; [reflexivity|].
  rewrite (String.eqb_sym k1 k). destruct (String.eqb k k1); simpl; now rewrite IH.
Qed.

Lemma filter_filter_andb {A} (f g : A -> bool) l :
  List.filter f (List.filter g l) = List.filter (fun x => g x && f x) l.
Proof.
  induction l as [|x l IH]; simpl; [reflexivity|].
  destruct (g x); simpl; [destruct (f x)|]; now rewrite IH.
Qed.

Lemma fold_dict_del_filter {V} ks (d : list (string * V)) :
  fold_left (fun a k => dict_del k a) ks d =
    List.filter (fun kv => negb (existsb (String.eqb (fst kv)) ks)) d.
Proof.
  revert d. induction ks as [|k ks IH]; intros d; simpl.
  - induction d as [|x d IHd]; simpl; [reflexivity|]. now rewrite <- IHd.
  - rewrite IH, dict_del_filter, filter_filter_andb. apply List.filter_ext.
    intros kv. now rewrite negb_orb.
Qed.

(** All that [from_ddata] returns, read off the combined mapping. *)
Lemma from_ddata_spec ddata X0 s v add :
  is_dict ddata ->
  from_ddata ddata = Ok (X0, s, v, add) ->
  exists row smp' col var',
    dict_get "X" ddata = Some X0 /\
    items (dict_get_default "row" (PDict []) ddata) = Ok row /\
    items (dict_get_default "smp" (PDict []) ddata) = Ok smp' /\
    items (dict_get_default "col" (PDict []) ddata) = Ok col /\
    items (dict_get_default "var" (PDict []) ddata) = Ok var' /\
    s = odict_merge [match explicit_identifier ddata "row_names" SMP_NAMES with
                     | Some e => [(SMP_NAMES, e)]
                     | None => []
                     end; row; smp'] /\
    v = odict_merge [match explicit_identifier ddata "col_names" VAR_NAMES with
                     | Some e => [(VAR_NAMES, e)]
                     | None => []
                     end; col; var'] /\
    add = List.filter (fun kv => negb (existsb (String.eqb (fst kv)) (consumed_keys ddata)))
                      ddata.
Proof.
  intros Hd H. unfold from_ddata in H.
  rewrite (odict_merge_single ddata Hd) in H.
  destruct (dict_get "X" ddata) as [x|] eqn:EX; [|discriminate].
  set (add1 := dict_del "X" ddata) in *.
  assert (G1 : forall k, String.eqb k "X" = false -> dict_get k add1 = dict_get k ddata).
  { intros k Hk. unfold add1. now rewrite dict_get_del, Hk. }
  rewrite !G1 in H by reflexivity.
  set (rn := if dict_has "row_names" ddata then "row_names" else "smp_names").
  set (sa := match dict_get "row_names" ddata with
             | Some v => ([("smp_names", v)], dict_del "row_names" add1)
             | None => match dict_get "smp_names" ddata with
                       | Some v => ([("smp_names", v)], dict_del "smp_names" add1)
                       | None => ([], add1)
                       end
             end) in *.
  assert (A2 : sa = (match explicit_identifier ddata "row_names" SMP_NAMES with
                     | Some e => [(SMP_NAMES, e)]
                     | None => []
                     end, dict_del rn add1)).
  { unfold sa, rn, explicit_identifier, dict_has, SMP_NAMES.
    destruct (dict_get "row_names" ddata); [reflexivity|].
    destruct (dict_get "smp_names" ddata) eqn:E; [reflexivity|].
    f_equal. symmetry. apply dict_del_absent. now rewrite G1. }
  clearbody sa. subst sa.
  assert (G2 : forall k, String.eqb k "X" = false -> String.eqb k "row_names" = false ->
                         String.eqb k "smp_names" = false ->
                         dict_get k (dict_del rn add1) = dict_get k ddata).
  { intros k Hx Hr Hs. rewrite dict_get_del. unfold rn.
    destruct (dict_has "row_names" ddata); rewrite ?Hr, ?Hs; now apply G1. }
  set (add2 := dict_del rn add1) in *.
  rewrite !G2 in H by reflexivity.
  set (cn := if dict_has "col_names" ddata then "col_names" else "var_names").
  set (va := match dict_get "col_names" ddata with
             | Some v => ([("var_names", v)], dict_del "col_names" add2)
             | None => match dict_get "var_names" ddata with
                       | Some v => ([("var_names", v)], dict_del "var_names" add2)
                       | None => ([], add2)
                       end
             end) in *.
  assert (A3 : va = (match explicit_identifier ddata "col_names" VAR_NAMES with
                     | Some e => [(VAR_NAMES, e)]
                     | None => []
                     end, dict_del cn add2)).
  { unfold va, cn, explicit_identifier, dict_has, VAR_NAMES.
    destruct (dict_get "col_names" ddata); [reflexivity|].
    destruct (dict_get "var_names" ddata) eqn:E; [reflexivity|].
    f_equal. symmetry. apply dict_del_absent. now rewrite G2. }
  clearbody va. subst va.
  assert (G3 : forall k, String.eqb k "X" = false -> String.eqb k "row_names" = false ->
                         String.eqb k "smp_names" = false ->
                         String.eqb k "col_names" = false ->
                         String.eqb k "var_names" = false ->
                         dict_get k (dict_del cn add2) = dict_get k ddata).
  { intros k Hx Hr Hs Hc Hv. rewrite dict_get_del. unfold cn.
    destruct (dict_has "col_names" ddata); rewrite ?Hc, ?Hv; now apply G2. }
  set (add3 := dict_del cn add2) in *.
  assert (D : forall k, String.eqb k "X" = false -> String.eqb k "row_names" = false ->
                        String.eqb k "smp_names" = false ->
                        String.eqb k "col_names" = false ->
                        String.eqb k "var_names" = false ->
                        dict_get_default k (PDict []) add3 = dict_get_default k (PDict []) ddata).
  { intros. unfold dict_get_default. now rewrite G3. }
  rewrite !D in H by reflexivity.
  destruct (items (dict_get_default "row" (PDict []) ddata)) as [row|] eqn:Erow;
    [|discriminate].
  destruct (items (dict_get_default "smp" (PDict []) ddata)) as [smp'|] eqn:Esmp;
    [|discriminate].
  destruct (items (dict_get_default "col" (PDict []) ddata)) as [col|] eqn:Ecol;
    [|discriminate].
  destruct (items (dict_get_default "var" (PDict []) ddata)) as [var'|] eqn:Evar;
    [|discriminate].
  cbn [rbind] in H. injection H as <- <- <- <-.
  exists row, smp', col, var'. repeat (split; [reflexivity|]).
  exact (fold_dict_del_filter ["X"; rn; cn; "row"; "smp"; "col"; "var"] ddata).
Qed.

(** Everything of a combined mapping that is not the matrix, an
    identifier list that was used, or a nested annotation mapping becomes
    unstructured annotation, in the order given.  Of the two keys that may
    bring an identifier list only one is taken away: when both [row_names]
    and [smp_names] are given, [smp_names] stays among the extras. *)
Theorem from_ddata_leaves_the_rest_in_add ddata X0 s v add :
  is_dict ddata ->
  from_ddata ddata = Ok (X0, s, v, add) ->
  dict_get "X" ddata = Some X0 /\
  add = List.filter (fun kv => negb (existsb (String.eqb (fst kv)) (consumed_keys ddata)))
                    ddata /\
  (forall k, dict_get k add =
             if existsb (String.eqb k) (consumed_keys ddata) then None else dict_get k ddata).
Proof.
  intros Hd H.
  destruct (from_ddata_spec _ _ _ _ _ Hd H)
    as (row & smp' & col & var' & HX & _ & _ & _ & _ & _ & _ & Hadd).
  split; [assumption|]. split; [assumption|].
  intros k. rewrite Hadd. clear. generalize (consumed_keys ddata) as ks. intros ks.
  induction ddata as [|[k1 v1] d IH]; simpl.
  - now destruct (existsb (String.eqb k) ks).
  - destruct (String.eqb k k1) eqn:E.
    + apply String.eqb_eq in E. subst k1.
      destruct (existsb (String.eqb k) ks); simpl; [assumption|].
      now rewrite String.eqb_refl.
    + destruct (existsb (String.eqb k1) ks); simpl; [assumption|]. now rewrite E.
Qed.

Lemma from_ddata_leaves_the_rest_witness :
  dict_get "smp_names" (dict_del "row_names" (dict_del "X"
     [("X", PRef 0%nat); ("row_names", labels_AB); ("smp_names", labels_AB); ("k", PInt 1)]))
    = Some labels_AB.
Proof.
  destruct (from_ddata_leaves_the_rest_in_add
              [("X", PRef 0%nat); ("row_names", labels_AB); ("smp_names", labels_AB);
               ("k", PInt 1)]
              (PRef 0%nat) [("smp_names", labels_AB)] []
              (dict_del "row_names" (dict_del "X"
                 [("X", PRef 0%nat); ("row_names", labels_AB); ("smp_names", labels_AB);
                  ("k", PInt 1)]))
              eq_refl eq_refl) as (_ & _ & H).
  exact (H "smp_names").
Defined.

Lemma dict_has_merge_from {V} k (ds : list (list (string * V))) :
  dict_has k (odict_merge ds) = existsb (dict_has k) ds.
Proof.
  apply eq_true_iff_eq. rewrite existsb_exists, dict_has_In.
  change (odict_merge ds) with (fold_left dict_update ds []).
  rewrite names_merge_from, In_first_occurrences_from, in_concat. split.
  - intros [[]|(l & Hl & Hk)]. apply in_map_iff in Hl as (d & <- & Hd).
    exists d. split; [assumption|]. now apply dict_has_In.
  - intros (d & Hd & Hk). right. exists (map fst d). split; [now apply in_map|].
    now apply dict_has_In.
Qed.

Lemma truth_false s : truth s = Ok false -> counts_for_nothing s.
Proof.
  destruct s as [|a|m|b]; simpl.
  - trivial.
  - destruct (rec_len a) as [|[|n]]; [now left| |discriminate].
    intros [= E]. right. split; [reflexivity|].
    apply Forall_forall. intros kc Hin. apply list_elem_of_In in Hin.
    destruct (col_nonzero (snd kc)) eqn:Ec; [|reflexivity].
    assert (existsb (fun kc => col_nonzero (snd kc)) a = true)
      by (apply existsb_exists; eauto).
    congruence.
  - destruct m; [reflexivity|discriminate].
  - congruence.
Qed.

Lemma truth_raises s e : truth s = Raise e -> e = ValueError.
Proof.
  destruct s as [|a|m|b]; simpl; try discriminate.
  destruct (rec_len a) as [|[|n]]; try discriminate. congruence.
Qed.

Lemma any_annotation_cases s v add :
  any_annotation s v add = Ok true \/ any_annotation s v add = Raise ValueError \/
  (counts_for_nothing s /\ counts_for_nothing v /\ add = []).
Proof.
  unfold any_annotation.
  destruct (truth s) as [[|]|e] eqn:Es; cbn [rbind].
  - now left.
  - destruct (truth v) as [[|]|e] eqn:Ev; cbn [rbind].
    + now left.
    + destruct add; [|now left]. right. right.
      split; [now apply truth_false|]. split; [now apply truth_false|reflexivity].
    + right. left. now rewrite (truth_raises _ _ Ev).
  - right. left. now rewrite (truth_raises _ _ Es).
Qed.

(** A combined mapping without the key [X] gives no container: the
    constructor raises [KeyError] and writes nothing.  A combined mapping
    that comes with any further annotation is refused with [ValueError]
    before it is read; so it is when numpy refuses to say whether a record
    array given with it counts. *)
Theorem constructor_refuses_combined_mapping ddata h :
  (dict_has "X" ddata = false ->
   AnnData_init (PDict ddata) SrcNone SrcNone [] h = (h, Raise KeyError)) /\
  (forall s v add,
      ~ (counts_for_nothing s /\ counts_for_nothing v /\ add = []) ->
      AnnData_init (PDict ddata) s v add h = (h, Raise ValueError)).
Proof.
  split.
  - intros HX. unfold AnnData_init. cbn [any_annotation truth rbind].
    assert (Hf : from_ddata ddata = Raise KeyError).
    { unfold from_ddata.
      pose proof (dict_has_merge_from "X" [ddata]) as Hm. cbn [existsb] in Hm.
      rewrite HX in Hm. unfold dict_has in Hm.
      destruct (dict_get "X" (odict_merge [ddata])); [discriminate|reflexivity]. }
    unfold bind, lift. now rewrite Hf.
  - intros s v add Ht. unfold AnnData_init.
    destruct (any_annotation_cases s v add) as [E|[E|E]]; [| |contradiction];
      unfold bind, lift; rewrite E; reflexivity.
Qed.

Lemma constructor_refuses_witness :
  AnnData_init (PDict [("row_names", labels_AB)]) SrcNone SrcNone [] []
    = ([], Raise KeyError) /\
  AnnData_init (PDict [("X", PRef 0%nat)]) SrcNone SrcNone [("k", PInt 1)] [OArray mat23]
    = ([OArray mat23], Raise ValueError).
Proof.
  split.
  - apply (constructor_refuses_combined_mapping [("row_names", labels_AB)] []). reflexivity.
  - apply (constructor_refuses_combined_mapping [("X", PRef 0%nat)] [OArray mat23]).
    intros (_ & _ & E). discriminate E.
Defined.

Lemma merged_head_explicit {V} name (e : V) (first second : list (string * V)) :
  dict_get name first = None -> dict_get name second = None ->
  exists rest, odict_merge [[(name, e)]; first; second] = (name, e) :: rest.
Proof.
  intros Hf Hs. unfold odict_merge. cbn [fold_left dict_set fst snd].
  destruct (fold_set_head_absent name e first [] Hf) as [acc1 ->].
  now apply fold_set_head_absent.
Qed.

(** When no nested annotation mapping has an identifier entry, the
    identifier column holds the explicit list of the combined mapping:
    the one under the alias [row_names] (or [col_names]) if there is one,
    else the one under [smp_names] (or [var_names]). *)
Theorem explicit_identifier_list_is_used ddata h h' ad :
  dict_of_dicts ddata ->
  AnnData_init (PDict ddata) SrcNone SrcNone [] h = (h', Ok ad) ->
  (forall ids,
      explicit_identifier ddata "row_names" SMP_NAMES = Some (PList ids) ->
      nested_identifier ddata "row" "smp" SMP_NAMES = None ->
      smp_names ad h' = (h', Ok ids)) /\
  (forall ids,
      explicit_identifier ddata "col_names" VAR_NAMES = Some (PList ids) ->
      nested_identifier ddata "col" "var" VAR_NAMES = None ->
      var_names ad h' = (h', Ok ids)).
Proof.
  intros Hdd H. pose proof Hdd as [Hd _].
  destruct (init_ddata_inv _ _ _ _ H) as (l & ms & mv & madd & Hf & Hi).
  destruct (from_ddata_spec _ _ _ _ _ Hd Hf)
    as (row & smp' & col & var' & _ & Erow & Esmp & Ecol & Evar & Hms & Hmv & _).
  destruct (items_nested ddata "row" SMP_NAMES row Hdd Erow) as [_ Grow].
  destruct (items_nested ddata "smp" SMP_NAMES smp' Hdd Esmp) as [_ Gsmp].
  destruct (items_nested ddata "col" VAR_NAMES col Hdd Ecol) as [_ Gcol].
  destruct (items_nested ddata "var" VAR_NAMES var' Hdd Evar) as [_ Gvar].
  destruct (init_Ok_inv _ _ _ _ _ _ _ Hi) as (ts & tv & r & c & Ets & Etv & Ls & Lv).
  split; intros ids Hex Hn; unfold nested_identifier in Hn.
  - rewrite Hex in Hms. rewrite Gsmp, Grow in Hn.
    destruct (dict_get SMP_NAMES smp') eqn:E1; [discriminate|].
    destruct (merged_head_explicit SMP_NAMES (PList ids) row smp' Hn E1) as [rest Hrest].
    rewrite Hrest in Hms. subst ms.
    unfold smp_names. rewrite (bind_Ok _ _ h' h' ts) by (now apply load_table_Ok).
    unfold lift. now rewrite (BoundRecArr_new_mapping_head _ _ _ _ _ Ets).
  - rewrite Hex in Hmv. rewrite Gvar, Gcol in Hn.
    destruct (dict_get VAR_NAMES var') eqn:E1; [discriminate|].
    destruct (merged_head_explicit VAR_NAMES (PList ids) col var' Hn E1) as [rest Hrest].
    rewrite Hrest in Hmv. subst mv.
    unfold var_names. rewrite (bind_Ok _ _ h' h' tv) by (now apply load_table_Ok).
    unfold lift. now rewrite (BoundRecArr_new_mapping_head _ _ _ _ _ Etv).
Qed.

Lemma explicit_identifier_list_witness :
  let ddata := [("X", PRef 0%nat); ("row_names", labels_AB); ("col_names", labels_abc);
                ("smp_names", PList (StrCol ["C"; "D"]))] in
  let h' := [OArray mat23;
             OTable (mkBoundRecArr [(SMP_NAMES, StrCol ["A"; "B"])] SMP_NAMES);
             OTable (mkBoundRecArr [(VAR_NAMES, StrCol ["a"; "b"; "c"])] VAR_NAMES);
             ODict [("smp_names", PList (StrCol ["C"; "D"]))]] in
  let ad := mkAnnData Array 0%nat 1%nat 2%nat 3%nat in
  smp_names ad h' = (h', Ok (StrCol ["A"; "B"])) /\
  var_names ad h' = (h', Ok (StrCol ["a"; "b"; "c"])).
Proof.
  intros ddata h' ad.
  assert (Hdd : dict_of_dicts ddata).
  { split; [reflexivity|]. intros k m. unfold ddata. cbn [dict_get].
    repeat (destruct (String.eqb k _); [discriminate|]). discriminate. }
  destruct (explicit_identifier_list_is_used ddata [OArray mat23] h' ad Hdd eq_refl)
    as [Hs Hv].
  split; [apply Hs|apply Hv]; reflexivity.
Defined.

(** ** What the constructor establishes *)

Lemma rmap_Ok_Forall2 {A B} (f : A -> result B) l l' :
  rmap f l = Ok l' -> Forall2 (fun a b => f a = Ok b) l l'.
Proof.
  revert l'. induction l as [|a l IH]; intros l' H; simpl in H.
  - injection H as <-. constructor.
  - destruct (f a) as [b|] eqn:Ea; [|discriminate]. cbn [rbind] in H.
    destruct (rmap f l) as [bs|]; [|discriminate]. cbn [rbind] in H.
    injection H as <-. constructor; [assumption|]. now apply IH.
Qed.

Lemma length_concat_replicate {A} n (xs : list A) :
  length (concat (replicate n xs)) = (n * length xs)%nat.
Proof. induction n as [|n IH]; simpl; [reflexivity|]. rewrite length_app, IH. lia. Qed.

Lemma col_len_repeat n c : col_len (col_repeat n c) = (n * col_len c)%nat.
Proof. destruct c; simpl; apply length_concat_replicate. Qed.

Lemma broadcast_to_len n c c' : broadcast_to n c = Ok c' -> col_len c' = n.
Proof.
  unfold broadcast_to. destruct (Nat.eqb_spec (col_len c) n) as [E|_].
  - now intros [= <-].
  - destruct (Nat.eqb_spec (col_len c) 1) as [E|_]; [|discriminate].
    intros [= <-]. rewrite col_len_repeat. lia.
Qed.

(** The record array that [BoundRecArr] fills from the columns [cols]. *)
Lemma filled_wf (cols filled : recarray) n :
  rmap (fun kc => let? c := broadcast_to n (snd kc) in Ok (fst kc, c)) cols = Ok filled ->
  map fst filled = map fst cols /\ Forall (fun kc => col_len (snd kc) = n) filled.
Proof.
  intros H. apply rmap_Ok_Forall2 in H.
  induction H as [|[k c] [k' c'] cols filled Hx _ IH]; [split; constructor|].
  destruct IH as [IHn IHl]. simpl in Hx.
  destruct (broadcast_to n c) as [c2|] eqn:E; [|discriminate]. cbn [rbind] in Hx.
  injection Hx as <- <-. split.
  - simpl. now rewrite IHn.
  - constructor; [|assumption]. simpl. now apply broadcast_to_len in E.
Qed.

Lemma names_asarray (m : list (string * pyobj)) (cols : recarray) :
  rmap (fun kv => let? c := asarray (snd kv) in Ok (fst kv, c)) m = Ok cols ->
  map fst cols = map fst m.
Proof.
  intros H. apply rmap_Ok_Forall2 in H.
  induction H as [|[k x] [k' c'] m cols Hx _ IH]; [reflexivity|].
  simpl in Hx. destruct (asarray x); [|discriminate]. cbn [rbind] in Hx.
  injection Hx as <- <-. simpl. now rewrite IH.
Qed.

Lemma dict_has_names {V W} k (a : list (string * V)) (b : list (string * W)) :
  map fst a = map fst b -> dict_has k a = dict_has k b.
Proof.
  intros H. apply eq_true_iff_eq. now rewrite !dict_has_In, H.
Qed.

Lemma rec_len_first a n :
  a <> [] -> Forall (fun kc => col_len (snd kc) = n) a -> rec_len a = n.
Proof. destruct a as [|[k c] a]; [congruence|]. intros _ H. now inversion H. Qed.

(** Every table [BoundRecArr] makes has at least one field, no field name
    twice, columns of one length, and (unless it was made from a record
    array without one) the identifier column it is bound to. *)
Lemma BoundRecArr_new_wf s name n_row t :
  BoundRecArr_new s name n_row = Ok t ->
  wf_fields (dtype t) (rec_len (dtype t)) /\ _name_col t = name /\
  (brings_identifier name s -> dict_has name (dtype t) = true).
Proof.
  unfold BoundRecArr_new. intros H.
  match type of H with
  | rbind ?src _ = _ => destruct src as [cols|] eqn:Ecols; [|discriminate]
  end.
  cbn [rbind] in H.
  destruct (distinct (map fst cols)) eqn:Ed; [|discriminate]. cbn [negb] in H.
  destruct cols as [|[k0 c0] cols']; [discriminate|].
  destruct (first_is_unsized s) eqn:Eu; [discriminate|].
  match type of H with
  | rbind ?r _ = _ => destruct r as [filled|] eqn:Ef; [|discriminate]
  end.
  cbn [rbind] in H. injection H as <-. cbn [dtype _name_col].
  destruct (filled_wf _ _ _ Ef) as [Hn Hl].
  assert (Hne : filled <> []).
  { intros ->. discriminate. }
  split; [|split; [reflexivity|]].
  - rewrite (rec_len_first _ _ Hne Hl). split; [assumption|]. split; [|assumption].
    unfold names. now rewrite Hn.
  - intros Hb. rewrite (dict_has_names name filled ((k0, c0) :: cols') Hn).
    destruct s as [|a|m|b]; cbn [rbind] in Ecols.
    + destruct (arange_opt n_row); [|discriminate]. cbn [rbind] in Ecols.
      injection Ecols as <- <- <-. unfold dict_has. simpl. now rewrite String.eqb_refl.
    + injection Ecols as <-. exact Hb.
    + destruct (rmap (fun kv => let? c := asarray (snd kv) in Ok (fst kv, c)) m)
        as [cols0|] eqn:E0; [|discriminate].
      cbn [rbind] in Ecols. apply names_asarray in E0.
      destruct (dict_has name m) eqn:Em.
      * injection Ecols as <-. now rewrite (dict_has_names name cols0 m E0).
      * match type of Ecols with
        | rbind ?r _ = _ => destruct r as [c|]; [|discriminate]
        end.
        cbn [rbind] in Ecols. injection Ecols as <-.
        apply dict_has_In. rewrite map_app, in_app_iff. right. now left.
    + discriminate.
Qed.

Lemma wf_grid_column xs : wf_grid (length xs) 1 (map (fun x => [x]) xs).
Proof.
  split; [apply length_map|]. induction xs as [|x xs IH]; simpl; constructor; auto.
Qed.

Lemma check_dimensions_Ok r c rows ts tv u :
  _check_dimensions (Data2 r c rows) ts tv = Ok u ->
  rec_len (dtype ts) = r /\ rec_len (dtype tv) = c.
Proof.
  unfold _check_dimensions. cbn [shape].
  destruct (Nat.eqb_spec (rec_len (dtype ts)) r) as [Er|_]; [|discriminate].
  destruct (Nat.eqb_spec (rec_len (dtype tv)) c) as [Ec|_]; [|discriminate].
  now split.
Qed.

Lemma no_parameter_name_call X0 s v kwargs h h' ad :
  AnnData_call X0 s v kwargs h = (h', Ok ad) ->
  no_parameter_name kwargs /\ AnnData_init X0 s v kwargs h = (h', Ok ad).
Proof.
  unfold AnnData_call, no_parameter_name, parameter_names.
  destruct (existsb (fun k => dict_has k kwargs) ["self"; "ddata_or_X"; "smp"; "var"]);
    [discriminate|]. now split.
Qed.

(** The state [__init__] leaves when it returns a container for the
    matrix object at [l]. *)
Lemma init_Ok_valid h l a0 s v kw h' ad :
  h !! l = Some (OArray a0) -> payload_ok (data a0) ->
  brings_identifier SMP_NAMES s -> brings_identifier VAR_NAMES v ->
  no_parameter_name kw ->
  AnnData_init (PRef l) s v kw h = (h', Ok ad) ->
  exists r c rows a ts tv h0,
    holds h' ad a ts tv kw /\ well_formed r c rows a ts tv kw /\
    ad = mkAnnData (recorded_storage_type (klass a0)) l
                   (length h) (length h + 1)%nat (length h + 2)%nat /\
    klass a = klass a0 /\ dtype_names a = dtype_names a0 /\
    BoundRecArr_new s SMP_NAMES (Some r) = Ok ts /\
    BoundRecArr_new v VAR_NAMES (Some c) = Ok tv /\
    h' = h0 ++ [OTable ts; OTable tv; ODict kw] /\ length h0 = length h /\
    (forall l', l' <> l -> h0 !! l' = h !! l') /\
    (data a = data a0 \/ exists xs, data a0 = Data1 xs /\ data a = to_column_matrix xs).
Proof.
  intros Hl Hok Hbs Hbv Hp H.
  assert (Hlt : (l < length h)%nat) by (eapply lookup_lt_Some; eauto).
  assert (Hout : exists h0 a r c rows,
             AnnData_init (PRef l) s v kw h = init_outcome h0 l a r c s v kw /\
             h0 !! l = Some (OArray a) /\ data a = Data2 r c rows /\ wf_grid r c rows /\
             klass a = klass a0 /\ dtype_names a = dtype_names a0 /\
             length h0 = length h /\
             (forall l', l' <> l -> h0 !! l' = h !! l') /\
             (data a = data a0 \/
              exists xs, data a0 = Data1 xs /\ data a = to_column_matrix xs)).
  { destruct (data a0) as [x|xs|r c rows|] eqn:Ed.
    - exfalso. unfold AnnData_init in H.
      rewrite (bind_Ok _ _ h h (PRef l, s, v, kw)) in H by reflexivity.
      cbv beta iota in H. rewrite (bind_Ok _ _ h h a0) in H by (now apply load_array_Ok).
      rewrite find_storage_type_recorded, Ed in H.
      rewrite (bind_Ok _ _ h h a0) in H by reflexivity.
      rewrite Ed in H. simpl in H. destruct (dtype_names a0); discriminate.
    - rewrite (init_1d h l a0 xs) by assumption.
      exists (<[l := OArray (mkArray (klass a0) (dtype_names a0) (to_column_matrix xs))]> h),
             (mkArray (klass a0) (dtype_names a0) (to_column_matrix xs)),
             (length xs), 1%nat, (map (fun x => [x]) xs).
      split; [|split; [|split; [|split; [|split; [|split; [|split; [|split]]]]]]].
      + apply (init_2d _ l _ (length xs) 1 (map (fun x => [x]) xs)); [|reflexivity].
        now apply list_lookup_insert_eq.
      + now apply list_lookup_insert_eq.
      + reflexivity.
      + apply wf_grid_column.
      + reflexivity.
      + reflexivity.
      + apply length_insert.
      + intros l' Hne. now apply list_lookup_insert_ne.
      + right. exists xs. now split.
    - exists h, a0, r, c, rows.
      split; [now apply (init_2d h l a0 r c rows)|].
      repeat (split; [assumption || reflexivity|]). now left.
    - exfalso. unfold AnnData_init in H.
      rewrite (bind_Ok _ _ h h (PRef l, s, v, kw)) in H by reflexivity.
      cbv beta iota in H. rewrite (bind_Ok _ _ h h a0) in H by (now apply load_array_Ok).
      rewrite find_storage_type_recorded, Ed in H.
      rewrite (bind_Ok _ _ h h a0) in H by reflexivity.
      rewrite Ed in H. simpl in H. destruct (dtype_names a0); discriminate. }
  destruct Hout as (h0 & a & r & c & rows & Hout & Hl0 & Hd & Hg & Hk & Hdn & Hlen & Hfr & Hda).
  rewrite Hout in H. unfold init_outcome in H.
  destruct (BoundRecArr_new s SMP_NAMES (Some r)) as [ts|] eqn:Es; [|discriminate].
  destruct (BoundRecArr_new v VAR_NAMES (Some c)) as [tv|] eqn:Ev; [|discriminate].
  rewrite Hd in H.
  destruct (_check_dimensions (Data2 r c rows) ts tv) as [u|] eqn:Ec; [|discriminate].
  injection H as <- <-.
  destruct (check_dimensions_Ok _ _ _ _ _ _ Ec) as [Lr Lc].
  destruct (BoundRecArr_new_wf _ _ _ _ Es) as (Ws & Ns & Is).
  destruct (BoundRecArr_new_wf _ _ _ _ Ev) as (Wv & Nv & Iv).
  rewrite Lr in Ws. rewrite Lc in Wv.
  exists r, c, rows, a, ts, tv, h0.
  split; [|split; [|split; [|split; [|split; [|split; [|split; [|split; [|split]]]]]]]];
    try assumption; try reflexivity.
  - repeat split; cbn [X smp var add].
    + now apply lookup_app_l_Some.
    + now apply list_lookup_middle.
    + rewrite lookup_app_r by lia.
      now replace (length h0 + 1 - length h0)%nat with 1%nat by lia.
    + rewrite lookup_app_r by lia.
      now replace (length h0 + 2 - length h0)%nat with 2%nat by lia.
  - unfold well_formed. repeat (split; [assumption || auto|]). assumption.
  - rewrite Hk, Hlen. reflexivity.
  - now split.
Qed.

(** Whatever container the constructor returns for a matrix object is
    valid: its matrix is the object given (reshaped if it was 1-D), both
    tables have their identifier column and distinct field names, and the
    tables are as long as the matrix has rows and columns; [len] of the
    container is that number of rows. *)
Theorem constructor_establishes_validity h l a0 s v kwargs h' ad :
  h !! l = Some (OArray a0) -> payload_ok (data a0) ->
  brings_identifier SMP_NAMES s -> brings_identifier VAR_NAMES v ->
  AnnData_call (PRef l) s v kwargs h = (h', Ok ad) ->
  valid h' ad /\ X ad = l /\
  exists a ts tv,
    holds h' ad a ts tv kwargs /\
    shape (data a) = [rec_len (dtype ts); rec_len (dtype tv)] /\
    AnnData_len ad h' = (h', Ok (rec_len (dtype ts))).
Proof.
  intros Hl Hok Hbs Hbv H.
  destruct (no_parameter_name_call _ _ _ _ _ _ _ H) as [Hp Hi].
  destruct (init_Ok_valid _ _ _ _ _ _ _ _ Hl Hok Hbs Hbv Hp Hi)
    as (r & c & rows & a & ts & tv & h0 & Hh & Hwf & -> & _).
  split; [|split; [reflexivity|]].
  - exists r, c, rows, a, ts, tv, kwargs. now split.
  - exists a, ts, tv. split; [assumption|].
    destruct Hwf as (Hd & _ & Ws & _ & _ & Wv & _).
    rewrite (rec_len_wf _ _ Ws), (rec_len_wf _ _ Wv), Hd.
    split; [reflexivity|].
    destruct Hh as (HX & _). unfold AnnData_len.
    rewrite (bind_Ok _ _ h' h' a) by (now apply load_array_Ok).
    now rewrite Hd.
Qed.

Lemma constructor_establishes_validity_witness :
  valid [OArray (mkArray cls_ndarray false (Data2 2 1 [[1]; [2]]));
         OTable (mkBoundRecArr [("a", IntCol [5; 6]); (SMP_NAMES, IntCol [0; 1])] SMP_NAMES);
         OTable (mkBoundRecArr [(VAR_NAMES, IntCol [0])] VAR_NAMES);
         ODict [("k", PInt 1)]]
        (mkAnnData Array 0%nat 1%nat 2%nat 3%nat).
Proof.
  apply (constructor_establishes_validity [OArray vec2] 0%nat vec2
           (SrcMapping [("a", PList (IntCol [5; 6]))]) SrcNone [("k", PInt 1)]);
    try exact I; reflexivity.
Defined.

(** ** Tables made from mappings *)

Lemma rmap_asarray_mapping cols :
  rmap (fun kv => let? c := asarray (snd kv) in Ok (fst kv, c)) (as_mapping cols) = Ok cols.
Proof.
  unfold as_mapping. induction cols as [|[k c] cols IH]; [reflexivity|].
  simpl. rewrite IH. reflexivity.
Qed.

Lemma first_sized_as_mapping cols : first_is_unsized (SrcMapping (as_mapping cols)) = false.
Proof. destruct cols as [|[k c] cols]; reflexivity. Qed.

Lemma dict_has_as_mapping name cols : dict_has name (as_mapping cols) = dict_has name cols.
Proof.
  apply dict_has_names. unfold as_mapping. rewrite map_map. reflexivity.
Qed.

Lemma rmap_broadcast_same (cols : recarray) n :
  Forall (fun kc => col_len (snd kc) = n) cols ->
  rmap (fun kc => let? c := broadcast_to n (snd kc) in Ok (fst kc, c)) cols = Ok cols.
Proof.
  induction 1 as [|[k c] cols Hc _ IH]; [reflexivity|].
  simpl in *. rewrite <- Hc at 1. rewrite broadcast_to_same. cbn [rbind].
  rewrite IH. reflexivity.
Qed.

Lemma with_identifier_lengths name n cols :
  Forall (fun kc => col_len (snd kc) = n) cols ->
  Forall (fun kc => col_len (snd kc) = n) (with_identifier name n cols).
Proof.
  intros H. unfold with_identifier. destruct (dict_has name cols); [assumption|].
  apply Forall_app. split; [assumption|]. repeat constructor. apply col_len_arange.
Qed.

(** What [BoundRecArr] makes of a mapping of columns of one length. *)
Lemma BoundRecArr_new_mapping cols name n n_row :
  cols <> [] -> Forall (fun kc => col_len (snd kc) = n) cols ->
  BoundRecArr_new (SrcMapping (as_mapping cols)) name n_row =
    if distinct (names (with_identifier name n cols))
    then Ok (mkBoundRecArr (with_identifier name n cols) name)
    else Raise ValueError.
Proof.
  intros Hne Hall. unfold BoundRecArr_new.
  rewrite rmap_asarray_mapping, !first_sized_as_mapping. cbn [rbind].
  rewrite dict_has_as_mapping.
  pose proof (with_identifier_lengths name n cols Hall) as Hall'.
  assert (Hcols : (if dict_has name cols then Ok cols
                   else let? c := arange_opt (match cols with
                                              | (_, c0) :: _ => Some (col_len c0)
                                              | [] => n_row
                                              end) in Ok (cols ++ [(name, c)]))
                  = Ok (with_identifier name n cols)).
  { unfold with_identifier. destruct (dict_has name cols); [reflexivity|].
    destruct cols as [|[k0 c0] cols']; [congruence|].
    inversion Hall; subst. reflexivity. }
  rewrite Hcols. cbn [rbind]. unfold names.
  destruct (distinct (map fst (with_identifier name n cols))); [|reflexivity].
  cbn [negb].
  destruct (with_identifier name n cols) as [|[k0 c0] cols'] eqn:E.
  - unfold with_identifier in E. destruct (dict_has name cols); [congruence|].
    destruct cols; discriminate.
  - assert (Hc0 : col_len c0 = n) by (now inversion Hall').
    rewrite Hc0, rmap_broadcast_same by assumption. reflexivity.
Qed.




Lemma rec_len_with_identifier name n cols :
  cols <> [] -> Forall (fun kc => col_len (snd kc) = n) cols ->
  rec_len (with_identifier name n cols) = n.
Proof.
  intros Hne Hall. apply rec_len_first.
  - unfold with_identifier. destruct (dict_has name cols); [assumption|].
    destruct cols; [congruence|discriminate].
  - now apply with_identifier_lengths.
Qed.

(** A mapping whose columns are not as long as the matrix has rows (for
    [smp]) or columns (for [var]) is refused: the constructor raises
    [ValueError] and returns no container. *)
Theorem constructor_refuses_wrong_length h l a r c rows cols n kw :
  h !! l = Some (OArray a) -> data a = Data2 r c rows ->
  cols <> [] -> Forall (fun kc => col_len (snd kc) = n) cols ->
  (n <> r ->
   snd (AnnData_init (PRef l) (SrcMapping (as_mapping cols)) SrcNone kw h)
     = Raise ValueError) /\
  (n <> c ->
   snd (AnnData_init (PRef l) SrcNone (SrcMapping (as_mapping cols)) kw h)
     = Raise ValueError).
Proof.
  intros Hl Hd Hne Hall. split; intros Hn.
  - rewrite (init_2d h l a r c rows) by assumption. unfold init_outcome.
    rewrite (BoundRecArr_new_mapping cols SMP_NAMES n) by assumption.
    destruct (distinct (names (with_identifier SMP_NAMES n cols))); [|reflexivity].
    rewrite BoundRecArr_new_None, Hd. unfold _check_dimensions. cbn [shape dtype].
    rewrite (rec_len_with_identifier SMP_NAMES n cols) by assumption.
    destruct (Nat.eqb_spec n r); [contradiction|]. reflexivity.
  - rewrite (init_2d h l a r c rows) by assumption. unfold init_outcome.
    rewrite BoundRecArr_new_None.
    rewrite (BoundRecArr_new_mapping cols VAR_NAMES n) by assumption.
    destruct (distinct (names (with_identifier VAR_NAMES n cols))); [|reflexivity].
    rewrite Hd. unfold _check_dimensions. cbn [shape dtype rec_len].
    rewrite col_len_arange, Nat.eqb_refl. cbn [negb].
    rewrite (rec_len_with_identifier VAR_NAMES n cols) by assumption.
    destruct (Nat.eqb_spec n c); [contradiction|]. reflexivity.
Qed.

Lemma constructor_refuses_wrong_length_witness :
  snd (AnnData_init (PRef 0%nat)
         (SrcMapping (as_mapping [("TooLong", IntCol [1; 2; 3; 4])])) SrcNone []
         [OArray masked22]) = Raise ValueError.
Proof.
  apply (constructor_refuses_wrong_length [OArray masked22] 0%nat masked22 2 2 [[1; 2]; [3; 4]]
           [("TooLong", IntCol [1; 2; 3; 4])] 4 []);
    try reflexivity; try discriminate; try lia.
  repeat constructor.
Defined.

(** ** The positions of integer indices and slices *)

Lemma range_step_one start k :
  0 <= k -> range start (start + k) 1 = map (fun i => start + Z.of_nat i) (seq 0 (Z.to_nat k)).
Proof.
  intros Hk. unfold range. change (0 <? 1) with true. cbv iota.
  destruct (Z.ltb_spec start (start + k)) as [Hlt|Hge].
  - replace (start + k - start - 1) with (k - 1) by lia. rewrite Z.div_1_r.
    replace (k - 1 + 1) with k by lia. apply map_ext. intros i. lia.
  - assert (k = 0) as -> by lia. reflexivity.
Qed.

Lemma range_step_one_empty start stop : stop <= start -> range start stop 1 = [].
Proof.
  intros H. unfold range. change (0 <? 1) with true. cbv iota.
  destruct (Z.ltb_spec start stop); [lia|reflexivity].
Qed.

Lemma range_single start : range start (start + 1) 1 = [start].
Proof.
  rewrite range_step_one by lia. change (Z.to_nat 1) with 1%nat. cbn [seq map].
  f_equal. lia.
Qed.

Lemma to_nat_shifted_seq a k :
  0 <= a -> map Z.to_nat (map (fun i => a + Z.of_nat i) (seq 0 k)) = seq (Z.to_nat a) k.
Proof.
  intros Ha. rewrite map_map.
  assert (G : forall s, map (fun i => Z.to_nat (a + Z.of_nat i)) (seq s k)
                        = seq (Z.to_nat a + s) k).
  { induction k as [|k IH]; intros s; simpl; [reflexivity|].
    f_equal; [lia|]. rewrite IH. f_equal. lia. }
  rewrite G. f_equal. lia.
Qed.

Lemma axis_positions_int_key i n :
  axis_positions (NSlice (Some i) (Some (i + 1)) (Some 1)) n = Ok (int_key_positions i n).
Proof.
  unfold axis_positions, slice_bounds. unfold default, from_option, id.
  change (1 =? 0) with false. change (1 <? 0) with false. cbv iota. cbn [rbind fst snd].
  unfold int_key_positions. f_equal.
  set (N := Z.of_nat n).
  assert (HN : 0 <= N) by (unfold N; lia).
  destruct (Z.leb_spec 0 i) as [H0|H0]; destruct (Z.ltb_spec i N) as [H1|H1]; cbn [andb].
  - destruct (Z.ltb_spec i 0) as [?|_]; [lia|].
    destruct (Z.ltb_spec (i + 1) 0) as [?|_]; [lia|].
    rewrite Z.min_l, Z.min_l by lia.
    rewrite range_single. reflexivity.
  - destruct (Z.leb_spec (- N) i) as [_|?]; [|lia].
    destruct (Z.ltb_spec i (-1)) as [?|_]; [lia|]. cbn [andb].
    rewrite range_step_one_empty; [reflexivity|].
    destruct (Z.ltb_spec i 0); destruct (Z.ltb_spec (i + 1) 0); lia.
  - destruct (Z.leb_spec (- N) i) as [H2|H2]; destruct (Z.ltb_spec i (-1)) as [H3|H3];
      cbn [andb].
    + destruct (Z.ltb_spec i 0) as [_|?]; [|lia].
      destruct (Z.ltb_spec (i + 1) 0) as [_|?]; [|lia].
      rewrite Z.max_l, Z.max_l by lia.
      replace (i + 1 + N) with (i + N + 1) by lia.
      rewrite range_single. reflexivity.
    + rewrite range_step_one_empty; [reflexivity|].
      destruct (Z.ltb_spec i 0); destruct (Z.ltb_spec (i + 1) 0); lia.
    + rewrite range_step_one_empty; [reflexivity|].
      destruct (Z.ltb_spec i 0); destruct (Z.ltb_spec (i + 1) 0); lia.
    + rewrite range_step_one_empty; [reflexivity|].
      destruct (Z.ltb_spec i 0); destruct (Z.ltb_spec (i + 1) 0); lia.
  - lia.
Qed.

Lemma axis_positions_slice a b n :
  0 <= a <= b -> b <= Z.of_nat n ->
  axis_positions (NSlice (Some a) (Some b) None) n
    = Ok (seq (Z.to_nat a) (Z.to_nat (b - a))).
Proof.
  intros Hab Hb. unfold axis_positions, slice_bounds. unfold default, from_option, id.
  change (1 =? 0) with false. change (1 <? 0) with false. cbv iota. cbn [rbind fst snd].
  destruct (Z.ltb_spec a 0) as [?|_]; [lia|].
  destruct (Z.ltb_spec b 0) as [?|_]; [lia|].
  rewrite Z.min_l, Z.min_l by lia.
  replace b with (a + (b - a)) at 1 by lia.
  rewrite range_step_one, to_nat_shifted_seq by lia. reflexivity.
Qed.

Lemma range_bounds start stop step x :
  step <> 0 -> In x (range start stop step) ->
  if 0 <? step then start <= x < stop else stop < x <= start.
Proof.
  intros Hstep Hin. unfold range in Hin. apply in_map_iff in Hin as (i & <- & Hi).
  apply in_seq in Hi. destruct Hi as [_ Hi]. rewrite Nat.add_0_l in Hi.
  destruct (Z.ltb_spec 0 step) as [Hpos|Hneg].
  - destruct (Z.ltb_spec start stop) as [Hlt|Hge]; [|simpl in Hi; lia].
    pose proof (Z.mul_div_le (stop - start - 1) step Hpos) as Hq.
    assert (Hq0 : 0 <= (stop - start - 1) / step) by (apply Z.div_pos; lia).
    assert (Hi' : Z.of_nat i <= (stop - start - 1) / step) by lia.
    nia.
  - assert (Hpos : 0 < - step) by lia.
    destruct (Z.ltb_spec stop start) as [Hlt|Hge]; [|simpl in Hi; lia].
    pose proof (Z.mul_div_le (start - stop - 1) (- step) Hpos) as Hq.
    assert (Hq0 : 0 <= (start - stop - 1) / - step) by (apply Z.div_pos; lia).
    assert (Hi' : Z.of_nat i <= (start - stop - 1) / - step) by lia.
    nia.
Qed.

(** A normalized selector never selects a position outside the axis. *)
Lemma axis_positions_in_range ni n ps :
  axis_positions ni n = Ok ps -> Forall (fun p => (p < n)%nat) ps.
Proof.
  destruct ni as [start stop step|js]; unfold axis_positions.
  - unfold slice_bounds. set (s := default 1 step).
    destruct (Z.eqb_spec s 0) as [|Hs]; [discriminate|].
    cbn [rbind fst snd]. intros [= <-].
    apply Forall_forall. intros p Hp. apply list_elem_of_In, in_map_iff in Hp.
    destruct Hp as (x & <- & Hx). apply range_bounds in Hx; [|assumption].
    destruct (Z.ltb_spec 0 s) as [Hpos|Hneg].
    + destruct (Z.ltb_spec s 0) as [?|_]; [lia|].
      assert (0 <= x < Z.of_nat n); [|lia].
      destruct Hx as [Hx1 Hx2]. split.
      * destruct start as [v|]; [|lia]. destruct (Z.ltb_spec v 0); lia.
      * destruct stop as [v|]; [|lia]. destruct (Z.ltb_spec v 0); lia.
    + destruct (Z.ltb_spec s 0) as [_|?]; [|lia].
      assert (0 <= x < Z.of_nat n); [|lia].
      destruct Hx as [Hx1 Hx2]. split.
      * destruct stop as [v|]; [|lia]. destruct (Z.ltb_spec v 0); lia.
      * destruct start as [v|]; [|lia]. destruct (Z.ltb_spec v 0); lia.
  - intros H. apply rmap_Ok_Forall2 in H.
    induction H as [|j p js ps Hj _ IH]; constructor; [|assumption].
    destruct (Z.leb_spec (- Z.of_nat n) j); [|discriminate].
    destruct (Z.ltb_spec j (Z.of_nat n)); [|discriminate].
    cbn [andb] in Hj. injection Hj as <-. destruct (Z.ltb_spec j 0); lia.
Qed.

(** ** Selecting by integers, slices and labels *)

Lemma getitem_selected {scipy : Scipy} h ad r c rows a ts tv d ix rsel csel sn vn si vi rs cs :
  holds h ad a ts tv d -> well_formed r c rows a ts tv d ->
  numpy_class (klass a) = true ->
  is_add_key ix = false ->
  _unpack_index ix = Ok (rsel, csel) ->
  rec_field SMP_NAMES (dtype ts) = Ok sn -> rec_field VAR_NAMES (dtype tv) = Ok vn ->
  _normalize_index rsel sn = Ok si -> _normalize_index csel vn = Ok vi ->
  match si, vi with NArray _, NArray _ => False | _, _ => True end ->
  axis_positions si r = Ok rs -> axis_positions vi c = Ok cs ->
  AnnData_getitem ad ix h = selection_outcome h a ts tv d rows rs cs.
Proof.
  intros Hh Hwf Hnp Hk Hu Hsn Hvn Hsi Hvi Hnot Hrs Hcs.
  apply (getitem_positions h ad r c rows a ts tv d ix si vi rs cs); try assumption.
  - now apply (normalize_indices_Ok h ad a ts tv d ix rsel csel sn vn).
  - now apply (axis_positions_in_range si).
  - now apply (axis_positions_in_range vi).
Qed.

(** An integer index selects the row (or column) at that position; a
    negative index other than [-1] counts from the end; [-1] and every
    index outside the axis select nothing, and nothing is raised. *)
Theorem integer_index_selects_its_position {scipy : Scipy} h ad r c rows a ts tv d i j :
  holds h ad a ts tv d -> well_formed r c rows a ts tv d ->
  numpy_class (klass a) = true ->
  AnnData_getitem ad (IdxTuple [SelKey (KInt i); full_slice]) h
    = selection_outcome h a ts tv d rows (int_key_positions i r) (seq 0 c) /\
  AnnData_getitem ad (IdxOne (SelKey (KInt i))) h
    = selection_outcome h a ts tv d rows (int_key_positions i r) (seq 0 c) /\
  AnnData_getitem ad (IdxTuple [full_slice; SelKey (KInt j)]) h
    = selection_outcome h a ts tv d rows (seq 0 r) (int_key_positions j c) /\
  AnnData_getitem ad (IdxTuple [SelKey (KInt i); SelKey (KInt j)]) h
    = selection_outcome h a ts tv d rows (int_key_positions i r) (int_key_positions j c).
Proof.
  intros Hh Hwf Hnp.
  pose proof Hwf as (_ & _ & _ & _ & Hits & _ & _ & Hitv & _).
  destruct (rec_field_has _ _ Hits) as [sn Hsn].
  destruct (rec_field_has _ _ Hitv) as [vn Hvn].
  repeat split.
  - apply (getitem_selected h ad r c rows a ts tv d _ (SelKey (KInt i)) full_slice sn vn
             (NSlice (Some i) (Some (i + 1)) (Some 1)) (NSlice None None None));
      try assumption; try reflexivity; try exact I.
    + apply axis_positions_int_key.
    + apply axis_positions_full.
  - apply (getitem_selected h ad r c rows a ts tv d _ (SelKey (KInt i)) full_slice sn vn
             (NSlice (Some i) (Some (i + 1)) (Some 1)) (NSlice None None None));
      try assumption; try reflexivity; try exact I.
    + apply axis_positions_int_key.
    + apply axis_positions_full.
  - apply (getitem_selected h ad r c rows a ts tv d _ full_slice (SelKey (KInt j)) sn vn
             (NSlice None None None) (NSlice (Some j) (Some (j + 1)) (Some 1)));
      try assumption; try reflexivity; try exact I.
    + apply axis_positions_full.
    + apply axis_positions_int_key.
  - apply (getitem_selected h ad r c rows a ts tv d _ (SelKey (KInt i)) (SelKey (KInt j))
             sn vn (NSlice (Some i) (Some (i + 1)) (Some 1))
             (NSlice (Some j) (Some (j + 1)) (Some 1)));
      try assumption; try reflexivity; try exact I.
    + apply axis_positions_int_key.
    + apply axis_positions_int_key.
Qed.

Lemma integer_index_witness :
  AnnData_getitem adata_named (IdxTuple [SelKey (KInt 1); SelKey (KInt (-3))]) heap_named =
    (heap_named ++
       [OArray (mkArray cls_ndarray false (Data2 1 1 [[4]]));
        OTable (mkBoundRecArr [(SMP_NAMES, StrCol ["B"])] SMP_NAMES);
        OTable (mkBoundRecArr [(VAR_NAMES, StrCol ["a"])] VAR_NAMES);
        ODict []],
     Ok (ItemData (mkAnnData Array 4%nat 5%nat 6%nat 7%nat))) /\
  AnnData_getitem adata_named (IdxOne (SelKey (KInt 2))) heap_named =
    (heap_named ++
       [OArray (mkArray cls_ndarray false (Data2 0 3 []));
        OTable (mkBoundRecArr [(SMP_NAMES, StrCol [])] SMP_NAMES);
        OTable (mkBoundRecArr [(VAR_NAMES, StrCol ["a"; "b"; "c"])] VAR_NAMES);
        ODict []],
     Ok (ItemData (mkAnnData Array 4%nat 5%nat 6%nat 7%nat))).
Proof.
  destruct (integer_index_selects_its_position heap_named adata_named _ _ _ _ _ _ _ 1 (-3)
              holds_named well_formed_named eq_refl) as (_ & _ & _ & H4).
  destruct (integer_index_selects_its_position heap_named adata_named _ _ _ _ _ _ _ 2 0
              holds_named well_formed_named eq_refl) as (_ & H2 & _).
  split; [exact H4|exact H2].
Defined.

Lemma pick_seq_range {A} k a (xs : list A) :
  (a + k <= length xs)%nat -> pick (seq a k) xs = take k (drop a xs).
Proof.
  revert a. induction k as [|k IH]; intros a Hle; [reflexivity|].
  destruct (lookup_lt_is_Some_2 xs a) as [x Hx]; [lia|].
  cbn [seq]. rewrite (pick_cons a _ xs x Hx), IH by lia.
  rewrite (drop_S xs x a Hx). reflexivity.
Qed.

Lemma map_pick_seq_range {A} k a c (rows : list (list A)) :
  Forall (fun row => length row = c) rows -> (a + k <= c)%nat ->
  map (pick (seq a k)) rows = map (fun row => take k (drop a row)) rows.
Proof.
  intros Hall Hle. induction Hall as [|row rows Hrow _ IH]; [reflexivity|].
  simpl. rewrite IH, pick_seq_range by lia. reflexivity.
Qed.

(** A slice [lo:hi] of integers within the axis selects the rows (or
    columns) from [lo] up to, not including, [hi], in order. *)
Theorem integer_slice_selects_the_range {scipy : Scipy} h ad r c rows a ts tv d (lo hi : nat) :
  holds h ad a ts tv d -> well_formed r c rows a ts tv d ->
  numpy_class (klass a) = true ->
  (lo <= hi)%nat ->
  ((hi <= r)%nat ->
   AnnData_getitem ad (IdxTuple [SelSlice (Some (KInt (Z.of_nat lo))) (Some (KInt (Z.of_nat hi)))
                                          None; full_slice]) h
     = selection_outcome h a ts tv d rows (seq lo (hi - lo)) (seq 0 c) /\
   pick (seq lo (hi - lo)) rows = take (hi - lo) (drop lo rows)) /\
  ((hi <= c)%nat ->
   AnnData_getitem ad (IdxTuple [full_slice;
                                 SelSlice (Some (KInt (Z.of_nat lo))) (Some (KInt (Z.of_nat hi)))
                                          None]) h
     = selection_outcome h a ts tv d rows (seq 0 r) (seq lo (hi - lo)) /\
   map (pick (seq lo (hi - lo))) rows = map (fun row => take (hi - lo) (drop lo row)) rows).
Proof.
  intros Hh Hwf Hnp Hle.
  pose proof Hwf as (_ & [Hlen Hrows] & _ & _ & Hits & _ & _ & Hitv & _).
  destruct (rec_field_has _ _ Hits) as [sn Hsn].
  destruct (rec_field_has _ _ Hitv) as [vn Hvn].
  assert (Hpos : forall n, (hi <= n)%nat ->
             axis_positions (NSlice (Some (Z.of_nat lo)) (Some (Z.of_nat hi)) None) n
             = Ok (seq lo (hi - lo))).
  { intros n Hn. rewrite axis_positions_slice by lia.
    rewrite Nat2Z.id. now replace (Z.to_nat (Z.of_nat hi - Z.of_nat lo)) with (hi - lo)%nat by lia. }
  split; intros Hhi; split.
  - apply (getitem_selected h ad r c rows a ts tv d _
             (SelSlice (Some (KInt (Z.of_nat lo))) (Some (KInt (Z.of_nat hi))) None)
             full_slice sn vn
             (NSlice (Some (Z.of_nat lo)) (Some (Z.of_nat hi)) None) (NSlice None None None));
      try assumption; try reflexivity; try exact I.
    + now apply Hpos.
    + apply axis_positions_full.
  - apply pick_seq_range. lia.
  - apply (getitem_selected h ad r c rows a ts tv d _ full_slice
             (SelSlice (Some (KInt (Z.of_nat lo))) (Some (KInt (Z.of_nat hi))) None)
             sn vn (NSlice None None None)
             (NSlice (Some (Z.of_nat lo)) (Some (Z.of_nat hi)) None));
      try assumption; try reflexivity; try exact I.
    + apply axis_positions_full.
    + now apply Hpos.
  - apply (map_pick_seq_range _ _ c); [assumption|lia].
Qed.

Lemma integer_slice_witness :
  AnnData_getitem adata_named
      (IdxTuple [full_slice; SelSlice (Some (KInt 1)) (Some (KInt 3)) None]) heap_named =
    (heap_named ++
       [OArray (mkArray cls_ndarray false (Data2 2 2 [[2; 3]; [5; 6]]));
        OTable (mkBoundRecArr [(SMP_NAMES, StrCol ["A"; "B"])] SMP_NAMES);
        OTable (mkBoundRecArr [(VAR_NAMES, StrCol ["b"; "c"])] VAR_NAMES);
        ODict []],
     Ok (ItemData (mkAnnData Array 4%nat 5%nat 6%nat 7%nat))).
Proof.
  destruct (integer_slice_selects_the_range heap_named adata_named _ _ _ _ _ _ _ 1 3
              holds_named well_formed_named eq_refl ltac:(lia)) as [_ Hc].
  destruct (Hc ltac:(lia)) as [H _]. exact H.
Defined.

Lemma first_match_first xs s k p0 :
  xs !! k = Some s -> (forall q, (q < k)%nat -> xs !! q <> Some s) ->
  first_match s xs p0 = Ok (p0 + Z.of_nat k).
Proof.
  revert k p0. induction xs as [|x xs IH]; intros k p0 Hk Hfirst; [discriminate|].
  simpl. destruct (String.eqb_spec x s) as [->|Hne].
  - destruct k as [|k]; [f_equal; lia|].
    exfalso. apply (Hfirst 0%nat); [lia|reflexivity].
  - destruct k as [|k]; [simpl in Hk; congruence|].
    rewrite (IH k (p0 + 1)); [f_equal; lia|exact Hk|].
    intros q Hq. apply (Hfirst (S q)). lia.
Qed.

Lemma name_idx_label xs s k :
  xs !! k = Some s -> (forall q, (q < k)%nat -> xs !! q <> Some s) ->
  name_idx (StrCol xs) (KStr s) = name_idx (StrCol xs) (KInt (Z.of_nat k)).
Proof.
  intros Hk Hfirst. simpl. now rewrite (first_match_first xs s k 0 Hk Hfirst).
Qed.

Lemma bind_congr {A B} (m1 m2 : M A) (k : A -> M B) h :
  m1 h = m2 h -> bind m1 k h = bind m2 k h.
Proof. intros H. unfold bind. now rewrite H. Qed.

Lemma getitem_same_normal {scipy : Scipy} ad l1 l2 h :
  _normalize_indices ad (IdxTuple l1) h = _normalize_indices ad (IdxTuple l2) h ->
  AnnData_getitem ad (IdxTuple l1) h = AnnData_getitem ad (IdxTuple l2) h.
Proof. intros H. unfold AnnData_getitem, getitem_data. now apply bind_congr. Qed.

(** A pair of selectors of which one is not [...]: the other, if it is
    [...], stands for all of its axis. *)
Lemma unpack_pair_left r1 other :
  is_Ellipsis r1 = false ->
  _unpack_index (IdxTuple [r1; other]) =
    Ok (_check_boolean r1, _check_boolean (if is_Ellipsis other then full_slice else other)).
Proof.
  intros E. destruct r1; try discriminate E; destruct other; reflexivity.
Qed.

Lemma unpack_pair_right other c1 :
  is_Ellipsis c1 = false ->
  _unpack_index (IdxTuple [other; c1]) =
    Ok (_check_boolean (if is_Ellipsis other then full_slice else other), _check_boolean c1).
Proof.
  intros E. destruct c1; try discriminate E; destruct other; reflexivity.
Qed.

(** Selecting by a label is selecting by the position at which the label
    first occurs among the identifiers; a slice between two labels
    includes the row (or column) of the stop label. *)
Theorem label_selects_its_first_position {scipy : Scipy} h ad a ts tv d (sn vn : list string) other :
  holds h ad a ts tv d ->
  rec_field SMP_NAMES (dtype ts) = Ok (StrCol sn) ->
  rec_field VAR_NAMES (dtype tv) = Ok (StrCol vn) ->
  (forall s k,
      sn !! k = Some s -> (forall q, (q < k)%nat -> sn !! q <> Some s) ->
      AnnData_getitem ad (IdxTuple [SelKey (KStr s); other]) h
        = AnnData_getitem ad (IdxTuple [SelKey (KInt (Z.of_nat k)); other]) h) /\
  (forall s k,
      vn !! k = Some s -> (forall q, (q < k)%nat -> vn !! q <> Some s) ->
      AnnData_getitem ad (IdxTuple [other; SelKey (KStr s)]) h
        = AnnData_getitem ad (IdxTuple [other; SelKey (KInt (Z.of_nat k))]) h) /\
  (forall s1 k1 s2 k2 step,
      sn !! k1 = Some s1 -> (forall q, (q < k1)%nat -> sn !! q <> Some s1) ->
      sn !! k2 = Some s2 -> (forall q, (q < k2)%nat -> sn !! q <> Some s2) ->
      AnnData_getitem ad (IdxTuple [SelSlice (Some (KStr s1)) (Some (KStr s2)) step; other]) h
        = AnnData_getitem ad
            (IdxTuple [SelSlice (Some (KInt (Z.of_nat k1))) (Some (KInt (Z.of_nat k2 + 1))) step;
                       other]) h) /\
  (forall s1 k1 s2 k2 step,
      vn !! k1 = Some s1 -> (forall q, (q < k1)%nat -> vn !! q <> Some s1) ->
      vn !! k2 = Some s2 -> (forall q, (q < k2)%nat -> vn !! q <> Some s2) ->
      AnnData_getitem ad (IdxTuple [other; SelSlice (Some (KStr s1)) (Some (KStr s2)) step]) h
        = AnnData_getitem ad
            (IdxTuple [other;
                       SelSlice (Some (KInt (Z.of_nat k1))) (Some (KInt (Z.of_nat k2 + 1))) step])
            h).
Proof.
  intros (_ & Hs & Hv & _) Hsn Hvn.
  assert (Rows : forall r1 r2,
             _normalize_index r1 (StrCol sn) = _normalize_index r2 (StrCol sn) ->
             _check_boolean r1 = r1 -> _check_boolean r2 = r2 ->
             is_Ellipsis r1 = false -> is_Ellipsis r2 = false ->
             AnnData_getitem ad (IdxTuple [r1; other]) h
             = AnnData_getitem ad (IdxTuple [r2; other]) h).
  { intros r1 r2 Hn E1 E2 N1 N2. apply getitem_same_normal.
    unfold _normalize_indices. rewrite !unpack_pair_left by assumption.
    unfold bind, lift. cbn [fst snd].
    unfold smp_names, bind, lift, load_table. rewrite Hs, Hsn, E1, E2, Hn. reflexivity. }
  assert (Cols : forall c1 c2,
             _normalize_index c1 (StrCol vn) = _normalize_index c2 (StrCol vn) ->
             _check_boolean c1 = c1 -> _check_boolean c2 = c2 ->
             is_Ellipsis c1 = false -> is_Ellipsis c2 = false ->
             AnnData_getitem ad (IdxTuple [other; c1]) h
             = AnnData_getitem ad (IdxTuple [other; c2]) h).
  { intros c1 c2 Hn E1 E2 N1 N2. apply getitem_same_normal.
    unfold _normalize_indices. rewrite !unpack_pair_right by assumption.
    unfold bind, lift. cbn [fst snd].
    unfold smp_names, var_names, bind, lift, load_table. rewrite Hs, Hsn, Hv, Hvn, E1, E2.
    destruct (_normalize_index _ (StrCol sn)); [|reflexivity].
    rewrite Hn. reflexivity. }
  repeat split.
  - intros s k Hk Hf. apply Rows; try reflexivity.
    unfold _normalize_index. now rewrite (name_idx_label sn s k Hk Hf).
  - intros s k Hk Hf. apply Cols; try reflexivity.
    unfold _normalize_index. now rewrite (name_idx_label vn s k Hk Hf).
  - intros s1 k1 s2 k2 step H1 F1 H2 F2. apply Rows; try reflexivity.
    unfold _normalize_index, name_idx_bound.
    rewrite (name_idx_label sn s1 k1 H1 F1), (name_idx_label sn s2 k2 H2 F2). reflexivity.
  - intros s1 k1 s2 k2 step H1 F1 H2 F2. apply Cols; try reflexivity.
    unfold _normalize_index, name_idx_bound.
    rewrite (name_idx_label vn s1 k1 H1 F1), (name_idx_label vn s2 k2 H2 F2). reflexivity.
Qed.

Lemma label_selects_witness :
  AnnData_getitem adata_named (IdxTuple [SelKey (KStr "B"); full_slice]) heap_named
    = AnnData_getitem adata_named (IdxTuple [SelKey (KInt 1); full_slice]) heap_named.
Proof.
  destruct (label_selects_its_first_position heap_named adata_named _ _ _ _
              ["A"; "B"] ["a"; "b"; "c"] full_slice holds_named eq_refl eq_refl)
    as (Hrow & _).
  apply (Hrow "B" 1%nat); [reflexivity|].
  intros [|q] Hq; [discriminate|lia].
Defined.

(** ** What reading never writes *)

Lemma extends_refl h : extends h h.
Proof. exists []. now rewrite app_nil_r. Qed.

Lemma extends_app h objs : extends h (h ++ objs).
Proof. now exists objs. Qed.

Lemma extends_app_app h objs objs' : extends h ((h ++ objs) ++ objs').
Proof. exists (objs ++ objs'). now rewrite app_assoc. Qed.

Lemma extends_lookup h h' l o : extends h h' -> h !! l = Some o -> h' !! l = Some o.
Proof. intros [objs ->] H. now apply lookup_app_l_Some. Qed.

Lemma fst_bind_pure {A B} (m : M A) (k : A -> M B) h (P : list obj -> Prop) :
  fst (m h) = h -> P h -> (forall a, P (fst (k a h))) -> P (fst (bind m k h)).
Proof.
  intros Hm Hh Hk. unfold bind. destruct (m h) as [h' [a|e]]; simpl in Hm; subst h'.
  - apply Hk.
  - exact Hh.
Qed.

Lemma fst_bind_ret {A B} (m : M A) (f : A -> B) h :
  fst (bind m (fun a => ret (f a)) h) = fst (m h).
Proof. unfold bind, ret. now destruct (m h) as [h' [a|e]]. Qed.

Lemma fst_assert b h : fst (assert b h) = h.
Proof. now destruct b. Qed.

Lemma init_heap_no_matrix h l a s v kw :
  h !! l = Some (OArray a) ->
  match data a with Data0 _ | DataN _ _ _ _ => True | _ => False end ->
  fst (AnnData_init (PRef l) s v kw h) = h.
Proof.
  intros Hl Hd. unfold AnnData_init.
  rewrite (bind_Ok _ _ h h (PRef l, s, v, kw)) by reflexivity.
  cbv beta iota. rewrite (bind_Ok _ _ h h a) by (now apply load_array_Ok).
  rewrite find_storage_type_recorded.
  destruct (data a) as [x|xs|r c rows|d0 d1 d2 ds] eqn:Ed; try contradiction.
  - rewrite (bind_Ok _ _ h h a) by reflexivity.
    rewrite Ed. simpl. now destruct (dtype_names a).
  - rewrite (bind_Ok _ _ h h a) by reflexivity.
    rewrite Ed. simpl. now destruct (dtype_names a).
Qed.

Lemma init_outcome_extends h l a r c s v kw :
  extends h (fst (init_outcome h l a r c s v kw)).
Proof.
  unfold init_outcome.
  destruct (BoundRecArr_new s SMP_NAMES (Some r)); [|apply extends_refl].
  destruct (BoundRecArr_new v VAR_NAMES (Some c)); [|apply extends_app].
  destruct (_check_dimensions (data a) _ _); apply extends_app.
Qed.

(** Constructing a container for a matrix object that has just been made
    changes no object that was there before. *)
Lemma call_fresh_extends h a s v kw :
  extends h (fst (AnnData_call (PRef (length h)) s v kw (h ++ [OArray a]))).
Proof.
  unfold AnnData_call.
  destruct (existsb _ _); [apply extends_app|].
  assert (Hl : (h ++ [OArray a]) !! length h = Some (OArray a))
    by (now apply list_lookup_middle).
  destruct (data a) as [x|xs|r c rows|d0 d1 d2 ds] eqn:Ed.
  - rewrite init_heap_no_matrix with (a := a); [apply extends_app|assumption|now rewrite Ed].
  - rewrite (init_1d _ _ a xs) by assumption.
    set (a' := mkArray (klass a) (dtype_names a) (to_column_matrix xs)).
    replace (<[length h := OArray a']> (h ++ [OArray a])) with (h ++ [OArray a']).
    + rewrite (init_2d (h ++ [OArray a']) (length h) a' (length xs) 1
                       (map (fun x => [x]) xs));
        [|now apply list_lookup_middle|reflexivity].
      destruct (init_outcome_extends (h ++ [OArray a']) (length h) a' (length xs) 1 s v kw)
        as [objs ->].
      apply extends_app_app.
    + rewrite <- (Nat.add_0_r (length h)). now rewrite insert_app_r.
  - rewrite (init_2d _ (length h) a r c rows) by assumption.
    destruct (init_outcome_extends (h ++ [OArray a]) (length h) a r c s v kw) as [objs ->].
    apply extends_app_app.
  - rewrite init_heap_no_matrix with (a := a); [apply extends_app|assumption|now rewrite Ed].
Qed.

(** Get and Transpose change no object of the store: whatever they
    return or raise, the matrix, the tables and the dictionaries that
    were there are as they were, and new objects come after them. *)
Theorem get_and_transpose_change_no_object {scipy : Scipy} ad ix h :
  extends h (fst (AnnData_getitem ad ix h)) /\
  extends h (fst (transpose ad h)) /\
  (forall l o, h !! l = Some o ->
               fst (AnnData_getitem ad ix h) !! l = Some o /\
               fst (transpose ad h) !! l = Some o).
Proof.
  assert (Hget : extends h (fst (AnnData_getitem ad ix h))).
  { destruct (is_add_key ix) eqn:Ek.
    - destruct ix as [[[z|s|b]| | | | | |]|ss|bss]; try discriminate.
      unfold AnnData_getitem.
      apply (fst_bind_pure _ _ _ (extends h));
        [apply load_dict_heap|apply extends_refl|].
      intros d. destruct (dict_get s d); apply extends_refl.
    - rewrite getitem_body by assumption.
      apply (fst_bind_pure _ _ _ (extends h));
        [apply normalize_indices_heap|apply extends_refl|intros [si vi]].
      apply (fst_bind_pure _ _ _ (extends h));
        [apply load_array_heap|apply extends_refl|intros a].
      apply (fst_bind_pure _ _ _ (extends h)); [reflexivity|apply extends_refl|intros Xd].
      rewrite bind_alloc.
      apply (fst_bind_pure _ _ _ (extends h));
        [apply load_table_heap|apply extends_app|intros ts].
      apply (fst_bind_pure _ _ _ (extends h)); [reflexivity|apply extends_app|intros sa].
      apply (fst_bind_pure _ _ _ (extends h));
        [apply load_table_heap|apply extends_app|intros tv].
      apply (fst_bind_pure _ _ _ (extends h)); [reflexivity|apply extends_app|intros va].
      apply (fst_bind_pure _ _ _ (extends h)); [reflexivity|apply extends_app|intros n0].
      apply (fst_bind_pure _ _ _ (extends h)); [apply fst_assert|apply extends_app|intros _].
      apply (fst_bind_pure _ _ _ (extends h)); [reflexivity|apply extends_app|intros n1].
      apply (fst_bind_pure _ _ _ (extends h)); [apply fst_assert|apply extends_app|intros _].
      apply (fst_bind_pure _ _ _ (extends h));
        [apply load_dict_heap|apply extends_app|intros d].
      rewrite fst_bind_ret. apply call_fresh_extends. }
  assert (Htr : extends h (fst (transpose ad h))).
  { unfold transpose.
    apply (fst_bind_pure _ _ _ (extends h));
      [apply load_array_heap|apply extends_refl|intros a].
    rewrite bind_alloc.
    apply (fst_bind_pure _ _ _ (extends h));
      [apply load_table_heap|apply extends_app|intros tv].
    apply (fst_bind_pure _ _ _ (extends h)); [reflexivity|apply extends_app|intros fv].
    apply (fst_bind_pure _ _ _ (extends h));
      [apply load_table_heap|apply extends_app|intros ts].
    apply (fst_bind_pure _ _ _ (extends h)); [reflexivity|apply extends_app|intros fs].
    apply (fst_bind_pure _ _ _ (extends h));
      [apply load_dict_heap|apply extends_app|intros d].
    apply call_fresh_extends. }
  split; [exact Hget|]. split; [exact Htr|].
  intros l o Hl. split; eapply extends_lookup; eauto.
Qed.

(** ** The sub-container of a valid container *)

Lemma lookup_table_before (h : list obj) X' l t :
  (h ++ [OArray X']) !! l = Some (OTable t) -> h !! l = Some (OTable t).
Proof.
  intros H. destruct (Nat.lt_ge_cases l (length h)) as [Hlt|Hge].
  - now rewrite lookup_app_l in H.
  - rewrite lookup_app_r in H by assumption.
    destruct (l - length h)%nat as [|n]; simpl in H; [discriminate|].
    now destruct n.
Qed.

(** What a Get that returns a sub-container has done. *)
Lemma getitem_Ok_inv {scipy : Scipy} ad ix h h1 child :
  AnnData_getitem ad ix h = (h1, Ok (ItemData child)) ->
  exists si vi a X' ts tv smp_ann var_ann d,
    _normalize_indices ad ix h = (h, Ok (si, vi)) /\
    h !! X ad = Some (OArray a) /\
    array_getitem a si vi = Ok X' /\
    h !! smp ad = Some (OTable ts) /\ rec_getitem (dtype ts) si = Ok smp_ann /\
    h !! var ad = Some (OTable tv) /\ rec_getitem (dtype tv) vi = Ok var_ann /\
    h !! add ad = Some (ODict d) /\
    AnnData_call (PRef (length h)) (SrcRecarray smp_ann) (SrcRecarray var_ann) d
                 (h ++ [OArray X']) = (h1, Ok child).
Proof.
  intros H.
  assert (Hk : is_add_key ix = false).
  { destruct ix as [[[z|s|b]| | | | | |]|ss|bss]; try reflexivity.
    unfold AnnData_getitem, bind, load_dict, ret, raise in H.
    destruct (h !! add ad) as [[?|?|d]|]; try discriminate.
    destruct (dict_get s d); discriminate. }
  rewrite getitem_body in H by assumption. unfold getitem_data in H.
  unfold bind at 1 in H.
  pose proof (normalize_indices_heap ad ix h) as Hn.
  destruct (_normalize_indices ad ix h) as [h0 [[si vi]|e]] eqn:En; simpl in Hn; subst h0;
    [|discriminate].
  cbn [fst snd] in H.
  unfold bind at 1, load_array in H.
  destruct (h !! X ad) as [[a|?|?]|] eqn:EX; try discriminate.
  unfold bind at 1, lift in H.
  destruct (array_getitem a si vi) as [X'|] eqn:EXd; [|discriminate].
  unfold bind at 1, alloc in H.
  remember (h ++ [OArray X']) as h' eqn:Eh'.
  unfold bind at 1, load_table in H.
  match type of H with context [match ?x with Some _ => _ | None => _ end] =>
    destruct x as [[?|ts|?]|] eqn:Ets end; try discriminate.
  unfold bind at 1, lift in H.
  destruct (rec_getitem (dtype ts) si) as [smp_ann|] eqn:Es; [|discriminate].
  unfold bind at 1, load_table in H.
  match type of H with context [match ?x with Some _ => _ | None => _ end] =>
    destruct x as [[?|tv|?]|] eqn:Etv end; try discriminate.
  unfold bind at 1, lift in H.
  destruct (rec_getitem (dtype tv) vi) as [var_ann|] eqn:Ev; [|discriminate].
  unfold bind at 1, lift in H.
  destruct (shape_at (data X') 0) as [n0|]; [|discriminate].
  unfold bind at 1, assert in H.
  destruct (Nat.eqb (rec_len smp_ann) n0); [|discriminate].
  unfold ret at 1 in H.
  unfold bind at 1, lift in H.
  destruct (shape_at (data X') 1) as [n1|] eqn:E1; [|discriminate].
  unfold bind at 1, assert in H.
  destruct (Nat.eqb (rec_len var_ann) n1); [|discriminate].
  unfold ret at 1 in H.
  unfold bind at 1, load_dict in H.
  match type of H with context [match ?x with Some _ => _ | None => _ end] =>
    destruct x as [[?|?|d]|] eqn:Ed end; try discriminate.
  unfold bind, ret in H.
  destruct (AnnData_call (PRef (length h)) (SrcRecarray smp_ann) (SrcRecarray var_ann) d h')
    as [h2 [child'|e]] eqn:Ecall; [|discriminate].
  injection H as <- <-.
  exists si, vi, a, X', ts, tv, smp_ann, var_ann, d.
  subst h'. repeat split; try assumption; try reflexivity.
  - eapply lookup_table_before; eassumption.
  - eapply lookup_table_before; eassumption.
  - eapply lookup_dict_before; eassumption.
Qed.

Lemma Forall_pick {A} (P : A -> Prop) ps (xs : list A) :
  Forall P xs -> Forall P (pick ps xs).
Proof.
  intros Hall. unfold pick. induction ps as [|p ps IH]; simpl; [constructor|].
  destruct (xs !! p) as [x|] eqn:E; [|assumption].
  constructor; [|assumption].
  rewrite Forall_forall in Hall. apply Hall. eapply list_elem_of_lookup_2; eauto.
Qed.

Lemma wf_grid_selection r c rows rs cs :
  wf_grid r c rows ->
  Forall (fun p => (p < r)%nat) rs -> Forall (fun p => (p < c)%nat) cs ->
  wf_grid (length rs) (length cs) (map (pick cs) (pick rs rows)).
Proof.
  intros [Hlen Hrows] Hrs Hcs. split.
  - rewrite length_map. apply length_pick. now rewrite Hlen.
  - apply Forall_map. apply (Forall_pick _ rs) in Hrows.
    eapply Forall_impl; [exact Hrows|]. intros row Hrow. simpl.
    apply length_pick. now rewrite Hrow.
Qed.

Lemma ndarray_getitem_ok k r c rows si vi Xd :
  wf_grid r c rows ->
  ndarray_getitem k (Data2 r c rows) si vi = Ok Xd -> payload_ok Xd.
Proof.
  intros Hg. unfold ndarray_getitem.
  destruct (axis_positions si r) as [rs|] eqn:Ers; [|discriminate].
  destruct (axis_positions vi c) as [cs|] eqn:Ecs; [|discriminate].
  cbn [rbind]. apply axis_positions_in_range in Ers, Ecs.
  assert (Hsel : payload_ok (Data2 (length rs) (length cs) (map (pick cs) (pick rs rows))))
    by (now apply (wf_grid_selection r c)).
  destruct si, vi; try (intros [= <-]; exact Hsel).
  destruct (paired rs cs) as [ij|]; [|discriminate]. cbn [rbind].
  destruct k; intros [= <-]; try exact I.
  split; [reflexivity|]. now repeat constructor.
Qed.

(** What indexing returns is as well shaped as what was indexed. *)
Lemma array_getitem_ok {scipy : Scipy} a si vi X' :
  payload_ok (data a) -> array_getitem a si vi = Ok X' -> payload_ok (data X').
Proof.
  intros Hok. unfold array_getitem.
  assert (Hnp : forall k,
             (let? Xd := ndarray_getitem k (data a) si vi in
              Ok (mkArray k (dtype_names a) Xd)) = Ok X' -> payload_ok (data X')).
  { intros k. destruct (ndarray_getitem k (data a) si vi) as [Xd|] eqn:E; [|discriminate].
    cbn [rbind]. intros [= <-]. cbn [data].
    destruct (data a) as [x|xs|r c rows|]; try discriminate E.
    exact (ndarray_getitem_ok _ _ _ _ _ _ _ Hok E). }
  destruct (klass a) as [| | |f]; try apply Hnp.
  destruct (has_getitem f); [|discriminate].
  now apply spmatrix_getitem_ok.
Qed.

Lemma rec_getitem_has name a ni a' :
  rec_getitem a ni = Ok a' -> dict_has name a' = dict_has name a.
Proof.
  unfold rec_getitem. destruct (axis_positions ni (rec_len a)) as [ps|]; [|discriminate].
  cbn [rbind]. intros [= <-]. apply dict_has_names. apply names_rec_rows.
Qed.

(** Every sub-container that Get returns from a valid container is valid,
    and the container it was taken from is still valid afterwards. *)
Theorem get_returns_a_valid_container {scipy : Scipy} h ad ix h1 child :
  valid h ad ->
  AnnData_getitem ad ix h = (h1, Ok (ItemData child)) ->
  valid h1 child /\ valid h1 ad.
Proof.
  intros (r & c & rows & a0 & ts0 & tv0 & d0 & Hh & Hwf) H.
  destruct (getitem_Ok_inv _ _ _ _ _ H)
    as (si & vi & a & X' & ts & tv & smp_ann & var_ann & d &
        _ & HX & EXd & Hs & Es & Hv & Ev & Hd & Hcall).
  pose proof Hh as (HX0 & Hs0 & Hv0 & Hd0).
  assert (a = a0) as -> by congruence. assert (ts = ts0) as -> by congruence.
  assert (tv = tv0) as -> by congruence. assert (d = d0) as -> by congruence.
  pose proof Hwf as (Hdata & Hg & _ & _ & Hits & _ & _ & Hitv & _).
  destruct (no_parameter_name_call _ _ _ _ _ _ _ Hcall) as [Hp Hi].
  assert (Hl : (h ++ [OArray X']) !! length h = Some (OArray X'))
    by (now apply list_lookup_middle).
  assert (Hok : payload_ok (data X')).
  { apply (array_getitem_ok a0 si vi X'); [|exact EXd]. now rewrite Hdata. }
  assert (Hbs : brings_identifier SMP_NAMES (SrcRecarray smp_ann)).
  { simpl. now rewrite (rec_getitem_has SMP_NAMES _ _ _ Es). }
  assert (Hbv : brings_identifier VAR_NAMES (SrcRecarray var_ann)).
  { simpl. now rewrite (rec_getitem_has VAR_NAMES _ _ _ Ev). }
  destruct (init_Ok_valid _ _ X' _ _ _ _ _ Hl Hok Hbs Hbv Hp Hi)
    as (r' & c' & rows' & a' & ts' & tv' & h0 & Hh' & Hwf' & _ & _ & _ & _ & _ &
        -> & Hlen & Hfr & _).
  split.
  - exists r', c', rows', a', ts', tv', d0. now split.
  - exists r, c, rows, a0, ts0, tv0, d0. split; [|assumption].
    assert (Keep : forall l o, h !! l = Some o ->
              (h0 ++ [OTable ts'; OTable tv'; ODict d0]) !! l = Some o).
    { intros l o Hlo. apply lookup_app_l_Some.
      assert (Hlt : (l < length h)%nat) by (eapply lookup_lt_Some; eauto).
      rewrite Hfr by lia. now apply lookup_app_l_Some. }
    repeat split; now apply Keep.
Qed.

Lemma get_returns_a_valid_container_witness :
  valid (heap_named ++
           [OArray (mkArray cls_ndarray false (Data2 1 3 [[4; 5; 6]]));
            OTable (mkBoundRecArr [(SMP_NAMES, StrCol ["B"])] SMP_NAMES);
            OTable (mkBoundRecArr [(VAR_NAMES, StrCol ["a"; "b"; "c"])] VAR_NAMES);
            ODict []])
        (mkAnnData Array 4%nat 5%nat 6%nat 7%nat).
Proof.
  destruct (get_returns_a_valid_container heap_named adata_named
              (IdxTuple [SelKey (KStr "B"); full_slice])
              (heap_named ++
                 [OArray (mkArray cls_ndarray false (Data2 1 3 [[4; 5; 6]]));
                  OTable (mkBoundRecArr [(SMP_NAMES, StrCol ["B"])] SMP_NAMES);
                  OTable (mkBoundRecArr [(VAR_NAMES, StrCol ["a"; "b"; "c"])] VAR_NAMES);
                  ODict []])
              (mkAnnData Array 4%nat 5%nat 6%nat 7%nat) valid_named eq_refl) as [Hc _].
  exact Hc.
Defined.

(** ** Unstructured annotation *)

(** Writing an entry of unstructured annotation and reading it: after
    [adata[k] = v] the key is in the container, [adata[k]] and
    [adata.get(k)] give [v], every other key reads as before (a missing
    one raises [KeyError] on indexing and gives the default with [get]),
    and no other object of the store has changed. *)
Theorem add_entry_written_is_read {scipy : Scipy}
    (array_setitem : loc -> nindex -> nindex -> pyobj -> M unit)
    h ad d k v dflt :
  h !! add ad = Some (ODict d) ->
  let h2 := <[add ad := ODict (dict_set k v d)]> h in
  AnnData_setitem array_setitem ad (IdxOne (SelKey (KStr k))) v h = (h2, Ok tt) /\
  AnnData_getitem ad (IdxOne (SelKey (KStr k))) h2 = (h2, Ok (ItemValue v)) /\
  AnnData_contains ad k h2 = (h2, Ok true) /\
  AnnData_get ad k dflt h2 = (h2, Ok v) /\
  (forall k', k' <> k ->
     AnnData_getitem ad (IdxOne (SelKey (KStr k'))) h2
       = (h2, match dict_get k' d with
              | Some x => Ok (ItemValue x)
              | None => Raise KeyError
              end) /\
     AnnData_contains ad k' h2 = (h2, Ok (dict_has k' d)) /\
     AnnData_get ad k' dflt h2 = (h2, Ok (dict_get_default k' dflt d))) /\
  (forall l, l <> add ad -> h2 !! l = h !! l).
Proof.
  intros Hd h2.
  assert (Hlt : (add ad < length h)%nat) by (eapply lookup_lt_Some; eauto).
  assert (Hd2 : h2 !! add ad = Some (ODict (dict_set k v d)))
    by (now apply list_lookup_insert_eq).
  assert (Hkk : dict_get k (dict_set k v d) = Some v)
    by (now rewrite dict_get_set, String.eqb_refl).
  split; [now apply setitem_add_key|].
  split; [|split; [|split; [|split]]].
  - unfold AnnData_getitem. rewrite (bind_Ok _ _ h2 h2 _ (load_dict_Ok _ _ _ Hd2)).
    now rewrite Hkk.
  - unfold AnnData_contains. rewrite (bind_Ok _ _ h2 h2 _ (load_dict_Ok _ _ _ Hd2)).
    unfold dict_has. now rewrite Hkk.
  - unfold AnnData_get. rewrite (bind_Ok _ _ h2 h2 _ (load_dict_Ok _ _ _ Hd2)).
    unfold dict_get_default. now rewrite Hkk.
  - intros k' Hne.
    assert (Hk' : dict_get k' (dict_set k v d) = dict_get k' d).
    { rewrite dict_get_set. now destruct (String.eqb_spec k' k). }
    split; [|split].
    + unfold AnnData_getitem. rewrite (bind_Ok _ _ h2 h2 _ (load_dict_Ok _ _ _ Hd2)).
      rewrite Hk'. now destruct (dict_get k' d).
    + unfold AnnData_contains. rewrite (bind_Ok _ _ h2 h2 _ (load_dict_Ok _ _ _ Hd2)).
      unfold dict_has. now rewrite Hk'.
    + unfold AnnData_get. rewrite (bind_Ok _ _ h2 h2 _ (load_dict_Ok _ _ _ Hd2)).
      unfold dict_get_default. now rewrite Hk'.
  - intros l Hl. apply list_lookup_insert_ne. congruence.
Qed.

Lemma add_entry_written_is_read_witness :
  AnnData_getitem adata_named (IdxOne (SelKey (KStr "k")))
      (<[3%nat := ODict [("k", PInt 1)]]> heap_named)
    = (<[3%nat := ODict [("k", PInt 1)]]> heap_named, Ok (ItemValue (PInt 1))).
Proof.
  destruct (add_entry_written_is_read fill_all heap_named adata_named [] "k" (PInt 1) PNone
              eq_refl) as (_ & H & _).
  exact H.
Defined.

(** ** Assigning a table *)



(** The reading of the old identifiers and of the matrix dimension with
    which [__setattr__] begins. *)
Lemma setattr_source_begin h ad r c rows a ts tv d key src :
  holds h ad a ts tv d -> well_formed r c rows a ts tv d ->
  exists names_orig,
    rec_field (match key with attr_smp => SMP_NAMES | attr_var => VAR_NAMES end)
              (dtype (match key with attr_smp => ts | attr_var => tv end)) = Ok names_orig /\
    AnnData_setattr ad key (ValSource src) h =
      match BoundRecArr_new src (match key with attr_smp => SMP_NAMES | attr_var => VAR_NAMES end)
                            None with
      | Raise e => (h, Raise e)
      | Ok value =>
          let names_col := match key with attr_smp => SMP_NAMES | attr_var => VAR_NAMES end in
          let n := match key with attr_smp => r | attr_var => c end in
          if negb (Nat.eqb (rec_len (dtype value)) n) then (h, Raise ValueError)
          else
            (c0 <- lift (rec_field names_col (dtype value)) ;;
             is_default <- lift (equals_arange c0 n) ;;
             value' <- (if is_default : bool
                        then
                          fs <- lift (rec_set_field names_col names_orig (dtype value)) ;;
                          ret (mkBoundRecArr fs (_name_col value))
                        else ret value) ;;
             l <- alloc (OTable value') ;;
             ret (set_table key l ad)) h
      end.
Proof.
  intros (HX & Hs & Hv & _) (Hd & _ & _ & _ & Hits & _ & _ & Hitv & _).
  destruct (rec_field_has _ _ Hits) as [sn Hsn].
  destruct (rec_field_has _ _ Hitv) as [vn Hvn].
  exists (match key with attr_smp => sn | attr_var => vn end).
  split; [now destruct key|].
  unfold AnnData_setattr.
  assert (Hnames : (match key with
                    | attr_smp => smp_names ad
                    | attr_var => var_names ad
                    end) h = (h, Ok (match key with attr_smp => sn | attr_var => vn end))).
  { destruct key; [unfold smp_names|unfold var_names].
    - rewrite (bind_Ok _ _ h h ts) by (now apply load_table_Ok). unfold lift. now rewrite Hsn.
    - rewrite (bind_Ok _ _ h h tv) by (now apply load_table_Ok). unfold lift. now rewrite Hvn. }
  rewrite (bind_Ok _ _ h h _ Hnames).
  unfold bind at 1, lift at 1.
  destruct (BoundRecArr_new src _ None) as [value|e]; [|reflexivity].
  rewrite (bind_Ok _ _ h h a) by (now apply load_array_Ok).
  rewrite Hd.
  assert (Hshape : shape_at (Data2 r c rows) (match key with attr_smp => 0 | attr_var => 1 end)%nat
                   = Ok (match key with attr_smp => r | attr_var => c end))
    by (now destruct key).
  unfold bind at 1, lift at 1. rewrite Hshape.
  destruct (negb (Nat.eqb (rec_len (dtype value)) _)); reflexivity.
Qed.



(** The assignments to [smp] and [var] that are refused, all before
    anything is written: a mapping whose columns are not as long as the
    axis ([ValueError]), [None] and the empty mapping ([TypeError]), and
    a value that is neither a mapping nor a record array ([ValueError]). *)
Theorem setattr_refusals_write_nothing h ad r c rows a ts tv d key :
  holds h ad a ts tv d -> well_formed r c rows a ts tv d ->
  (forall cols m,
      cols <> [] -> Forall (fun kc => col_len (snd kc) = m) cols ->
      m <> (match key with attr_smp => r | attr_var => c end) ->
      AnnData_setattr ad key (ValSource (SrcMapping (as_mapping cols))) h
        = (h, Raise ValueError)) /\
  AnnData_setattr ad key (ValSource SrcNone) h = (h, Raise TypeError) /\
  AnnData_setattr ad key (ValSource (SrcMapping [])) h = (h, Raise TypeError) /\
  (forall b, AnnData_setattr ad key (ValSource (SrcOther b)) h = (h, Raise ValueError)).
Proof.
  intros Hh Hwf. split; [|split; [|split]].
  - intros cols m Hne Hall Hm.
    destruct (setattr_source_begin h ad r c rows a ts tv d key
                (SrcMapping (as_mapping cols)) Hh Hwf) as (names_orig & _ & ->).
    rewrite (BoundRecArr_new_mapping cols _ m) by assumption.
    destruct (distinct _); [|reflexivity].
    cbn [dtype]. rewrite rec_len_with_identifier by assumption.
    destruct (Nat.eqb_spec m (match key with attr_smp => r | attr_var => c end));
      [contradiction|reflexivity].
  - destruct (setattr_source_begin h ad r c rows a ts tv d key SrcNone Hh Hwf)
      as (names_orig & _ & ->). reflexivity.
  - destruct (setattr_source_begin h ad r c rows a ts tv d key (SrcMapping []) Hh Hwf)
      as (names_orig & _ & ->). reflexivity.
  - intros b.
    destruct (setattr_source_begin h ad r c rows a ts tv d key (SrcOther b) Hh Hwf)
      as (names_orig & _ & ->). reflexivity.
Qed.

Lemma setattr_refusals_witness :
  AnnData_setattr adata_named attr_smp
      (ValSource (SrcMapping (as_mapping [("a", IntCol [1; 2; 3])]))) heap_named
    = (heap_named, Raise ValueError) /\
  AnnData_setattr adata_named attr_var (ValSource SrcNone) heap_named
    = (heap_named, Raise TypeError).
Proof.
  destruct (setattr_refusals_write_nothing heap_named adata_named _ _ _ _ _ _ _ attr_smp
              holds_named well_formed_named) as (Hlen & _).
  destruct (setattr_refusals_write_nothing heap_named adata_named _ _ _ _ _ _ _ attr_var
              holds_named well_formed_named) as (_ & Hnone & _).
  split; [|exact Hnone].
  apply (Hlen [("a", IntCol [1; 2; 3])] 3%nat); [discriminate|repeat constructor|lia].
Defined.

(** ** What Transpose gives *)





(** ** Saving a container as a combined mapping *)

Lemma dict_get_app {V} k (a b : list (string * V)) :
  dict_get k (a ++ b) = match dict_get k a with Some v => Some v | None => dict_get k b end.
Proof.
  induction a as [|[k1 v1] a IH]; simpl; [reflexivity|].
  now destruct (String.eqb k k1).
Qed.

Lemma fields_of_suffix (a pre suf : recarray) (P : string -> bool) :
  a = pre ++ suf -> List.NoDup (names a) ->
  rmap (fun k => let? c := rec_field k a in Ok (k, PList c)) (List.filter P (names suf))
    = Ok (as_mapping (List.filter (fun kc => P (fst kc)) suf)).
Proof.
  revert pre. induction suf as [|[k c] suf IH]; intros pre Ha Hnd; [reflexivity|].
  assert (Hk : rec_field k a = Ok c).
  { unfold rec_field. rewrite Ha, dict_get_app.
    rewrite dict_get_None_keys.
    - simpl. now rewrite String.eqb_refl.
    - rewrite Ha in Hnd. unfold names in Hnd. rewrite map_app in Hnd.
      apply NoDup_ListNoDup, NoDup_app in Hnd. destruct Hnd as (_ & Hdis & _).
      intros Hin. apply (Hdis k); [now apply list_elem_of_In|]. simpl. left. }
  assert (Hrest : rmap (fun k => let? c := rec_field k a in Ok (k, PList c))
                       (List.filter P (names suf))
                  = Ok (as_mapping (List.filter (fun kc => P (fst kc)) suf))).
  { apply (IH (pre ++ [(k, c)])); [|assumption]. now rewrite <- app_assoc. }
  simpl. destruct (P k); [|exact Hrest].
  simpl. rewrite Hk. cbn [rbind]. rewrite Hrest. reflexivity.
Qed.

Lemma fields_of_keys t (P : string -> bool) :
  distinct (names (dtype t)) = true ->
  fields_of t (List.filter P (names (dtype t)))
    = Ok (as_mapping (List.filter (fun kc => P (fst kc)) (dtype t))).
Proof.
  intros Hd. unfold fields_of. apply (fields_of_suffix (dtype t) []); [reflexivity|].
  now apply distinct_NoDup.
Qed.

Lemma names_as_mapping cols : map fst (as_mapping cols) = names cols.
Proof. unfold as_mapping, names. rewrite map_map. reflexivity. Qed.

Lemma names_filter (a : recarray) (P : string -> bool) :
  names (List.filter (fun kc => P (fst kc)) a) = List.filter P (names a).
Proof.
  unfold names. induction a as [|[k c] a IH]; simpl; [reflexivity|].
  destruct (P k); simpl; now rewrite IH.
Qed.

Lemma NoDup_filter_names (l : list string) (P : string -> bool) :
  List.NoDup l -> List.NoDup (List.filter P l).
Proof.
  induction 1 as [|x l Hx _ IH]; simpl; [constructor|].
  destruct (P x); [|assumption]. constructor; [|assumption].
  intros Hin. apply filter_In in Hin. tauto.
Qed.

Lemma is_dict_others name (a : recarray) :
  distinct (names a) = true ->
  is_dict (as_mapping (List.filter (fun kc => negb (String.eqb (fst kc) name)) a)) /\
  dict_get name (as_mapping (List.filter (fun kc => negb (String.eqb (fst kc) name)) a)) = None.
Proof.
  intros Hd. split.
  - unfold is_dict. rewrite names_as_mapping.
    rewrite (names_filter a (fun k => negb (String.eqb k name))).
    apply distinct_NoDup, NoDup_filter_names. now apply distinct_NoDup.
  - apply dict_get_None_keys. rewrite names_as_mapping.
    rewrite (names_filter a (fun k => negb (String.eqb k name))).
    intros Hin. apply filter_In in Hin. destruct Hin as [_ Hin].
    now rewrite String.eqb_refl in Hin.
Qed.

Lemma dict_of_items_dict {V} (d : list (string * V)) : is_dict d -> dict_of_items d = d.
Proof. intros Hd. exact (odict_merge_single d Hd). Qed.

(** [from_ddata] as one equation. *)
Lemma from_ddata_eq ddata :
  is_dict ddata ->
  from_ddata ddata =
    match dict_get "X" ddata with
    | None => Raise KeyError
    | Some X0 =>
        let? row := items (dict_get_default "row" (PDict []) ddata) in
        let? smp' := items (dict_get_default "smp" (PDict []) ddata) in
        let? col := items (dict_get_default "col" (PDict []) ddata) in
        let? var' := items (dict_get_default "var" (PDict []) ddata) in
        Ok (X0,
            odict_merge [match explicit_identifier ddata "row_names" SMP_NAMES with
                         | Some e => [(SMP_NAMES, e)]
                         | None => []
                         end; row; smp'],
            odict_merge [match explicit_identifier ddata "col_names" VAR_NAMES with
                         | Some e => [(VAR_NAMES, e)]
                         | None => []
                         end; col; var'],
            List.filter (fun kv => negb (existsb (String.eqb (fst kv)) (consumed_keys ddata)))
                        ddata)
    end.
Proof.
  intros Hd.
  destruct (from_ddata ddata) as [[[[X0 s] v] add]|e] eqn:E.
  - destruct (from_ddata_spec _ _ _ _ _ Hd E)
      as (row & smp' & col & var' & -> & -> & -> & -> & -> & -> & -> & ->).
    reflexivity.
  - unfold from_ddata in E. rewrite (odict_merge_single ddata Hd) in E.
    destruct (dict_get "X" ddata) as [x|] eqn:EX; [|congruence].
    set (add1 := dict_del "X" ddata) in *.
    assert (G1 : forall k, String.eqb k "X" = false -> dict_get k add1 = dict_get k ddata).
    { intros k Hk. unfold add1. now rewrite dict_get_del, Hk. }
    rewrite !G1 in E by reflexivity.
    set (sa := match dict_get "row_names" ddata with
               | Some v => ([("smp_names", v)], dict_del "row_names" add1)
               | None => match dict_get "smp_names" ddata with
                         | Some v => ([("smp_names", v)], dict_del "smp_names" add1)
                         | None => ([], add1)
                         end
               end) in *.
    assert (G2 : forall k, String.eqb k "X" = false -> String.eqb k "row_names" = false ->
                           String.eqb k "smp_names" = false ->
                           dict_get k (snd sa) = dict_get k ddata).
    { intros k Hx Hr Hs. unfold sa.
      destruct (dict_get "row_names" ddata); [|destruct (dict_get "smp_names" ddata)];
        simpl; rewrite ?dict_get_del, ?Hr, ?Hs; now apply G1. }
    destruct sa as [smp0 add2]. cbn [fst snd] in G2.
    rewrite !G2 in E by reflexivity.
    set (va := match dict_get "col_names" ddata with
               | Some v => ([("var_names", v)], dict_del "col_names" add2)
               | None => match dict_get "var_names" ddata with
                         | Some v => ([("var_names", v)], dict_del "var_names" add2)
                         | None => ([], add2)
                         end
               end) in *.
    assert (G3 : forall k, String.eqb k "X" = false -> String.eqb k "row_names" = false ->
                           String.eqb k "smp_names" = false ->
                           String.eqb k "col_names" = false ->
                           String.eqb k "var_names" = false ->
                           dict_get k (snd va) = dict_get k ddata).
    { intros k Hx Hr Hs Hc Hv. unfold va.
      destruct (dict_get "col_names" ddata); [|destruct (dict_get "var_names" ddata)];
        simpl; rewrite ?dict_get_del, ?Hc, ?Hv; now apply G2. }
    destruct va as [var0 add3]. cbn [fst snd] in G3.
    assert (D : forall k, String.eqb k "X" = false -> String.eqb k "row_names" = false ->
                          String.eqb k "smp_names" = false ->
                          String.eqb k "col_names" = false ->
                          String.eqb k "var_names" = false ->
                          dict_get_default k (PDict []) add3
                          = dict_get_default k (PDict []) ddata).
    { intros. unfold dict_get_default. now rewrite G3. }
    rewrite !D in E by reflexivity.
    destruct (items (dict_get_default "row" (PDict []) ddata)); [|cbn [rbind] in *; congruence].
    destruct (items (dict_get_default "smp" (PDict []) ddata)); [|cbn [rbind] in *; congruence].
    destruct (items (dict_get_default "col" (PDict []) ddata)); [|cbn [rbind] in *; congruence].
    destruct (items (dict_get_default "var" (PDict []) ddata)); [|cbn [rbind] in *; congruence].
    discriminate.
Qed.

Lemma no_ddata_key k d :
  Forall (fun k => dict_has k d = false) ddata_keys -> In k ddata_keys ->
  @dict_get pyobj k d = None.
Proof.
  intros Hall Hin. rewrite Forall_forall in Hall.
  specialize (Hall k (proj2 (list_elem_of_In _ _) Hin)).
  unfold dict_has in Hall. now destruct (dict_get k d).
Qed.

(** The combined mapping that [to_ddata] makes of a valid container. *)
Lemma to_ddata_eq h ad r c rows a ts tv d sn vn :
  holds h ad a ts tv d -> well_formed r c rows a ts tv d ->
  rec_field SMP_NAMES (dtype ts) = Ok sn -> rec_field VAR_NAMES (dtype tv) = Ok vn ->
  is_dict d -> Forall (fun k => dict_has k d = false) ddata_keys ->
  to_ddata ad h =
    (h, Ok ([("X", PRef (X ad));
             ("smp", PDict (as_mapping (List.filter
                              (fun kc => negb (String.eqb (fst kc) SMP_NAMES)) (dtype ts))));
             ("var", PDict (as_mapping (List.filter
                              (fun kc => negb (String.eqb (fst kc) VAR_NAMES)) (dtype tv))));
             ("smp_names", PList sn);
             ("var_names", PList vn)] ++ d)).
Proof.
  intros (HX & Hs & Hv & Hd) (_ & _ & Ws & _ & _ & Wv & _) Hsn Hvn Hdd Hkeys.
  destruct Ws as (_ & Ds & _). destruct Wv as (_ & Dv & _).
  unfold to_ddata.
  rewrite (bind_Ok _ _ h h
             (List.filter (fun n => negb (String.eqb n SMP_NAMES)) (names (dtype ts)))).
  2: { unfold smp_keys. now rewrite (bind_Ok _ _ h h ts (load_table_Ok _ _ _ Hs)). }
  rewrite (bind_Ok _ _ h h ts (load_table_Ok _ _ _ Hs)).
  unfold bind at 1, lift at 1.
  rewrite (fields_of_keys ts (fun n => negb (String.eqb n SMP_NAMES)) Ds).
  rewrite (bind_Ok _ _ h h
             (List.filter (fun n => negb (String.eqb n VAR_NAMES)) (names (dtype tv)))).
  2: { unfold var_keys. now rewrite (bind_Ok _ _ h h tv (load_table_Ok _ _ _ Hv)). }
  rewrite (bind_Ok _ _ h h tv (load_table_Ok _ _ _ Hv)).
  unfold bind at 1, lift at 1.
  rewrite (fields_of_keys tv (fun n => negb (String.eqb n VAR_NAMES)) Dv).
  rewrite (bind_Ok _ _ h h sn).
  2: { unfold smp_names. rewrite (bind_Ok _ _ h h ts (load_table_Ok _ _ _ Hs)).
       unfold lift. now rewrite Hsn. }
  rewrite (bind_Ok _ _ h h vn).
  2: { unfold var_names. rewrite (bind_Ok _ _ h h tv (load_table_Ok _ _ _ Hv)).
       unfold lift. now rewrite Hvn. }
  rewrite (bind_Ok _ _ h h d (load_dict_Ok _ _ _ Hd)).
  unfold ret. f_equal. f_equal.
  rewrite (dict_of_items_dict _ (proj1 (is_dict_others SMP_NAMES (dtype ts) Ds))).
  rewrite (dict_of_items_dict _ (proj1 (is_dict_others VAR_NAMES (dtype tv) Dv))).
  apply fold_set_append; [assumption|].
  intros k Hk Hin. apply dict_has_In in Hk.
  assert (Hnone : @dict_get pyobj k d = None).
  { apply no_ddata_key; [assumption|]. simpl in Hin. unfold ddata_keys. simpl. tauto. }
  unfold dict_has in Hk. now rewrite Hnone in Hk.
Qed.

Lemma rec_field_len name (a : recarray) n ids :
  Forall (fun kc => col_len (snd kc) = n) a -> rec_field name a = Ok ids -> col_len ids = n.
Proof.
  unfold rec_field. induction 1 as [|[k x] a Hx _ IH]; simpl; [discriminate|].
  destruct (String.eqb name k); [now intros [= <-]|exact IH].
Qed.

Lemma wf_fields_identifier_first name ids a n :
  wf_fields a n -> rec_field name a = Ok ids ->
  wf_fields (identifier_first name ids a) n.
Proof.
  intros (_ & Hd & Hall) Hf. unfold identifier_first. split; [discriminate|]. split.
  - apply distinct_NoDup. unfold names. simpl.
    fold (names (List.filter (fun kc => negb (String.eqb (fst kc) name)) a)).
    rewrite (names_filter a (fun k => negb (String.eqb k name))).
    constructor.
    + intros Hin. apply filter_In in Hin. destruct Hin as [_ Hin].
      now rewrite String.eqb_refl in Hin.
    + apply NoDup_filter_names. now apply distinct_NoDup.
  - constructor; [simpl; now apply (rec_field_len name a)|].
    apply Forall_forall. intros kc Hin. apply list_elem_of_In, filter_In in Hin.
    rewrite Forall_forall in Hall. apply Hall. now apply list_elem_of_In.
Qed.

Lemma BoundRecArr_new_identifier_first name ids a n n_row :
  wf_fields a n -> rec_field name a = Ok ids ->
  BoundRecArr_new (SrcMapping (as_mapping (identifier_first name ids a))) name n_row
    = Ok (mkBoundRecArr (identifier_first name ids a) name).
Proof.
  intros Hwf Hf.
  destruct (wf_fields_identifier_first name ids a n Hwf Hf) as (Hne & Hd & Hall).
  rewrite (BoundRecArr_new_mapping _ name n) by assumption.
  assert (Hw : with_identifier name n (identifier_first name ids a)
               = identifier_first name ids a).
  { unfold with_identifier, dict_has, identifier_first. simpl.
    now rewrite String.eqb_refl. }
  rewrite Hw, Hd. reflexivity.
Qed.

Lemma init_ddata_eq ddata l s v kw h :
  from_ddata ddata = Ok (PRef l, s, v, kw) ->
  AnnData_init (PDict ddata) SrcNone SrcNone [] h
    = AnnData_init (PRef l) (SrcMapping s) (SrcMapping v) kw h.
Proof.
  intros Hf. unfold AnnData_init. cbn [truth orb].
  unfold bind at 2. unfold bind at 2. unfold lift at 1. rewrite Hf.
  reflexivity.
Qed.

Lemma filter_keeps_all {A} (P : A -> bool) (l : list A) :
  Forall (fun x => P x = true) l -> List.filter P l = l.
Proof. induction 1 as [|x l Hx _ IH]; simpl; [reflexivity|]. now rewrite Hx, IH. Qed.

(** Saving a valid container with [to_ddata] and constructing from the
    result gives the container back: the same matrix object, the same
    unstructured annotation, and tables with the same columns and
    identifiers, the identifier column now standing first.  This holds
    when no key of the unstructured annotation is one of the keys a
    combined mapping reserves. *)
Theorem to_ddata_round_trip h ad r c rows a ts tv d sn vn :
  holds h ad a ts tv d -> well_formed r c rows a ts tv d ->
  rec_field SMP_NAMES (dtype ts) = Ok sn -> rec_field VAR_NAMES (dtype tv) = Ok vn ->
  is_dict d -> Forall (fun k => dict_has k d = false) ddata_keys ->
  exists ddata,
    to_ddata ad h = (h, Ok ddata) /\
    from_ddata ddata =
      Ok (PRef (X ad),
          as_mapping (identifier_first SMP_NAMES sn (dtype ts)),
          as_mapping (identifier_first VAR_NAMES vn (dtype tv)),
          d) /\
    AnnData_init (PDict ddata) SrcNone SrcNone [] h =
      (h ++ [OTable (mkBoundRecArr (identifier_first SMP_NAMES sn (dtype ts)) SMP_NAMES);
             OTable (mkBoundRecArr (identifier_first VAR_NAMES vn (dtype tv)) VAR_NAMES);
             ODict d],
       Ok (mkAnnData (recorded_storage_type (klass a)) (X ad)
                     (length h) (length h + 1)%nat (length h + 2)%nat)).
Proof.
  intros Hh Hwf Hsn Hvn Hdd Hkeys.
  pose proof (to_ddata_eq _ _ _ _ _ _ _ _ _ _ _ Hh Hwf Hsn Hvn Hdd Hkeys) as Hto.
  pose proof Hh as (HX & _).
  pose proof Hwf as (Hdata & _ & Ws & _ & _ & Wv & _).
  pose proof Ws as (_ & Ds & _). pose proof Wv as (_ & Dv & _).
  set (others_s := as_mapping (List.filter
                      (fun kc => negb (String.eqb (fst kc) SMP_NAMES)) (dtype ts))) in *.
  set (others_v := as_mapping (List.filter
                      (fun kc => negb (String.eqb (fst kc) VAR_NAMES)) (dtype tv))) in *.
  set (d0 := [("X", PRef (X ad)); ("smp", PDict others_s); ("var", PDict others_v);
              ("smp_names", PList sn); ("var_names", PList vn)]) in *.
  assert (Hget : forall k, In k ddata_keys -> dict_get k (d0 ++ d) = dict_get k d0).
  { intros k Hk. rewrite dict_get_app, (no_ddata_key k d Hkeys Hk).
    now destruct (dict_get k d0). }
  assert (Hnd : is_dict (d0 ++ d)).
  { unfold is_dict. rewrite map_app. apply distinct_NoDup, NoDup_ListNoDup, NoDup_app.
    split; [apply NoDup_ListNoDup, distinct_NoDup; reflexivity|]. split.
    - intros k Hk Hin. apply list_elem_of_In in Hk, Hin. apply dict_has_In in Hin.
      assert (Hnone : @dict_get pyobj k d = None).
      { apply no_ddata_key; [assumption|]. simpl in Hk. unfold ddata_keys. simpl. tauto. }
      unfold dict_has in Hin. now rewrite Hnone in Hin.
    - now apply NoDup_ListNoDup, distinct_NoDup. }
  assert (Hfrom : from_ddata (d0 ++ d) =
                  Ok (PRef (X ad),
                      as_mapping (identifier_first SMP_NAMES sn (dtype ts)),
                      as_mapping (identifier_first VAR_NAMES vn (dtype tv)), d)).
  { rewrite (from_ddata_eq _ Hnd).
    unfold explicit_identifier, consumed_keys, dict_get_default, dict_has.
    rewrite !Hget by (unfold ddata_keys; simpl; tauto).
    rewrite (eq_refl : dict_get "X" d0 = Some (PRef (X ad))).
    rewrite (eq_refl : dict_get "row" d0 = None), (eq_refl : dict_get "col" d0 = None).
    rewrite (eq_refl : dict_get "smp" d0 = Some (PDict others_s)).
    rewrite (eq_refl : dict_get "var" d0 = Some (PDict others_v)).
    rewrite (eq_refl : dict_get "row_names" d0 = None).
    rewrite (eq_refl : dict_get "col_names" d0 = None).
    rewrite (eq_refl : dict_get SMP_NAMES d0 = Some (PList sn)).
    rewrite (eq_refl : dict_get VAR_NAMES d0 = Some (PList vn)).
    cbn [items rbind].
    destruct (is_dict_others SMP_NAMES (dtype ts) Ds) as [Is Ns].
    destruct (is_dict_others VAR_NAMES (dtype tv) Dv) as [Iv Nv].
    fold others_s in Is, Ns. fold others_v in Iv, Nv.
    destruct (merged_head_explicit SMP_NAMES (PList sn) [] others_s eq_refl Ns)
      as [rest_s Hs].
    destruct (merged_head_explicit VAR_NAMES (PList vn) [] others_v eq_refl Nv)
      as [rest_v Hv].
    assert (Ms : odict_merge [[(SMP_NAMES, PList sn)]; []; others_s]
                 = (SMP_NAMES, PList sn) :: others_s).
    { unfold odict_merge. cbn [fold_left dict_set fst snd].
      apply (fold_set_append others_s [(SMP_NAMES, PList sn)] Is).
      intros k Hk Hin. simpl in Hin. destruct Hin as [<-|[]]. apply dict_has_In in Hk. unfold dict_has in Hk.
      now rewrite Ns in Hk. }
    assert (Mv : odict_merge [[(VAR_NAMES, PList vn)]; []; others_v]
                 = (VAR_NAMES, PList vn) :: others_v).
    { unfold odict_merge. cbn [fold_left dict_set fst snd].
      apply (fold_set_append others_v [(VAR_NAMES, PList vn)] Iv).
      intros k Hk Hin. simpl in Hin. destruct Hin as [<-|[]]. apply dict_has_In in Hk. unfold dict_has in Hk.
      now rewrite Nv in Hk. }
    rewrite Ms, Mv. f_equal. f_equal.
    rewrite List.filter_app. cbn [List.filter fst existsb String.eqb Ascii.eqb Bool.eqb
                                   orb negb app].
    apply filter_keeps_all. apply Forall_forall. intros [k x] Hin.
    apply list_elem_of_In in Hin. cbn [fst].
    assert (Hk : dict_has k d = true)
      by (apply dict_has_In, in_map_iff; exists (k, x); now split).
    rewrite Forall_forall in Hkeys.
    assert (Hno : forall k', In k' ddata_keys -> String.eqb k k' = false).
    { intros k' Hk'. destruct (String.eqb_spec k k') as [->|]; [|reflexivity].
      rewrite (Hkeys k') in Hk by (now apply list_elem_of_In). discriminate. }
    rewrite !Hno by (unfold ddata_keys; simpl; tauto). reflexivity. }
  exists (d0 ++ d). split; [exact Hto|]. split; [exact Hfrom|].
  rewrite (init_ddata_eq _ _ _ _ _ h Hfrom).
  rewrite (init_2d h (X ad) a r c rows) by assumption.
  unfold init_outcome.
  rewrite (BoundRecArr_new_identifier_first SMP_NAMES sn (dtype ts) r) by assumption.
  rewrite (BoundRecArr_new_identifier_first VAR_NAMES vn (dtype tv) c) by assumption.
  rewrite Hdata, check_dimensions_wf
    by (cbn [dtype]; now apply wf_fields_identifier_first).
  reflexivity.
Qed.

Lemma to_ddata_round_trip_witness :
  exists ddata,
    to_ddata adata_named heap_named = (heap_named, Ok ddata) /\
    AnnData_init (PDict ddata) SrcNone SrcNone [] heap_named =
      (heap_named ++
         [OTable (mkBoundRecArr [(SMP_NAMES, StrCol ["A"; "B"])] SMP_NAMES);
          OTable (mkBoundRecArr [(VAR_NAMES, StrCol ["a"; "b"; "c"])] VAR_NAMES);
          ODict []],
       Ok (mkAnnData Array 0%nat 4%nat 5%nat 6%nat)).
Proof.
  destruct (to_ddata_round_trip heap_named adata_named _ _ _ _ _ _ _
              (StrCol ["A"; "B"]) (StrCol ["a"; "b"; "c"])
              holds_named well_formed_named eq_refl eq_refl eq_refl)
    as (ddata & Hto & _ & Hinit).
  - repeat constructor.
  - exists ddata. split; [exact Hto|exact Hinit].
Defined.

(** ** Updating parameters *)

Lemma update_params_loop_eq old check items updated :
  update_params_loop old check items updated =
    if check && negb (forallb (fun kv => dict_has (fst kv) old) items)
    then Raise ValueError
    else Ok (updates_applied items updated).
Proof.
  revert updated. induction items as [|[k v] items IH]; intros updated; simpl.
  - now rewrite andb_false_r.
  - destruct (dict_has k old); simpl.
    + rewrite IH. unfold updates_applied. simpl. now destruct (is_None v).
    + destruct check; simpl; [reflexivity|]. rewrite IH. simpl.
      unfold updates_applied. simpl. now destruct (is_None v).
Qed.

Lemma updates_applied_lookup items updated k :
  is_dict items ->
  dict_get k (updates_applied items updated) =
    match dict_get k items with
    | Some v => if is_None v then dict_get k updated else Some v
    | None => dict_get k updated
    end.
Proof.
  revert updated. induction items as [|[k1 v1] items IH]; intros updated Hd; [reflexivity|].
  apply is_dict_cons in Hd as [Hk1 Hd].
  change (updates_applied ((k1, v1) :: items) updated)
    with (updates_applied items (if is_None v1 then updated else dict_set k1 v1 updated)).
  rewrite IH by assumption. simpl.
  destruct (String.eqb k k1) eqn:E.
  - apply String.eqb_eq in E. subst k1. rewrite (dict_get_None_keys _ _ Hk1).
    destruct (is_None v1); [reflexivity|]. now rewrite dict_get_set, String.eqb_refl.
  - assert (Hu : dict_get k (if is_None v1 then updated else dict_set k1 v1 updated)
                 = dict_get k updated).
    { destruct (is_None v1); [reflexivity|]. now rewrite dict_get_set, E. }
    now rewrite Hu.
Qed.

Lemma existsb_names_has {V} k (d : list (string * V)) :
  existsb (String.eqb k) (map fst d) = dict_has k d.
Proof.
  apply eq_true_iff_eq. now rewrite existsb_eqb_In, dict_has_In.
Qed.

Lemma updates_applied_names items updated :
  forallb (fun kv => dict_has (fst kv) updated) items = true ->
  map fst (updates_applied items updated) = map fst updated.
Proof.
  revert updated. induction items as [|[k v] items IH]; intros updated Hall; [reflexivity|].
  simpl in Hall. apply andb_true_iff in Hall as [Hk Hall].
  change (updates_applied ((k, v) :: items) updated)
    with (updates_applied items (if is_None v then updated else dict_set k v updated)).
  assert (Hn : map fst (if is_None v then updated else dict_set k v updated) = map fst updated).
  { destruct (is_None v); [reflexivity|].
    now rewrite names_dict_set, existsb_names_has, Hk. }
  rewrite IH, Hn; [reflexivity|].
  rewrite forallb_forall in Hall |- *. intros kv Hin.
  rewrite (dict_has_names (fst kv) _ updated Hn). now apply Hall.
Qed.

Lemma update_params_eq old new check :
  is_dict old ->
  update_params old (Some new) check =
    if check && negb (forallb (fun kv => dict_has (fst kv) old) new)
    then Raise ValueError
    else Ok (updates_applied new old).
Proof.
  intros Hd. unfold update_params. rewrite (dict_of_items_dict old Hd).
  destruct new as [|x new]; [now rewrite andb_false_r|].
  apply update_params_loop_eq.
Qed.

(** What [update_params] returns: every key has the value [new_params]
    gives it, unless that value is [None] or [new_params] has no such
    key; then it has the value of [old_params].  [None] in place of
    [new_params] gives [old_params] back. *)
Theorem update_params_lookup old new check updated :
  is_dict old -> is_dict new ->
  update_params old (Some new) check = Ok updated ->
  (forall k, dict_get k updated =
             match dict_get k new with
             | Some v => if is_None v then dict_get k old else Some v
             | None => dict_get k old
             end) /\
  update_params old None check = Ok old.
Proof.
  intros Ho Hn H. rewrite (update_params_eq old new check Ho) in H.
  destruct (check && negb _); [discriminate|]. injection H as <-. split.
  - intros k. now apply updates_applied_lookup.
  - unfold update_params. now rewrite (dict_of_items_dict old Ho).
Qed.

Lemma update_params_lookup_witness :
  dict_get "k" [("k", PInt 1); ("knn", PBool true); ("n", PInt 5)] = Some (PInt 1).
Proof.
  destruct (update_params_lookup [("k", PInt 1); ("knn", PBool false)]
              [("k", PNone); ("knn", PBool true); ("n", PInt 5)] false
              [("k", PInt 1); ("knn", PBool true); ("n", PInt 5)]
              eq_refl eq_refl eq_refl) as [H _].
  exact (H "k").
Defined.

(** With [check=True], [update_params] raises [ValueError] exactly when
    [new_params] has a key that [old_params] does not have (even if its
    value is [None]); when it returns, the result has the keys of
    [old_params], in the same order, and no other.  Without [check] it
    always returns. *)
Theorem update_params_check old new :
  is_dict old ->
  (forallb (fun kv => dict_has (fst kv) old) new = false ->
   update_params old (Some new) true = Raise ValueError) /\
  (forallb (fun kv => dict_has (fst kv) old) new = true ->
   exists updated, update_params old (Some new) true = Ok updated /\
                   map fst updated = map fst old) /\
  (exists updated, update_params old (Some new) false = Ok updated).
Proof.
  intros Ho. split; [|split].
  - intros Hf. now rewrite (update_params_eq old new true Ho), Hf.
  - intros Hf. rewrite (update_params_eq old new true Ho), Hf.
    eexists. split; [reflexivity|]. now apply updates_applied_names.
  - rewrite (update_params_eq old new false Ho). eauto.
Qed.

Lemma update_params_check_witness :
  update_params [("k", PInt 1)] (Some [("n", PNone)]) true = Raise ValueError.
Proof.
  apply (update_params_check [("k", PInt 1)] [("n", PNone)]); reflexivity.
Defined.

(** ** Masks from index lists *)

Lemma marked_after_writes ps (m : list bool) p :
  fold_left (fun mask q => <[q := true]> mask) ps m !! p = Some true <->
  m !! p = Some true \/ (In p ps /\ (p < length m)%nat).
Proof.
  revert m. induction ps as [|q ps IH]; intros m; simpl; [tauto|].
  rewrite IH, length_insert. split.
  - intros [H|[Hin Hlt]]; [|tauto].
    apply list_lookup_insert_Some in H. destruct H as [(-> & _ & Hlt)|[_ H]]; tauto.
  - intros [H|[[->|Hin] Hlt]]; [|left|tauto].
    + destruct (Nat.eq_dec q p) as [->|Hne].
      * left. apply list_lookup_insert_eq. eapply lookup_lt_Some; eauto.
      * left. now rewrite list_lookup_insert_ne.
    + now apply list_lookup_insert_eq.
Qed.

Lemma length_after_writes ps (m : list bool) :
  length (fold_left (fun mask q => <[q := true]> mask) ps m) = length m.
Proof.
  revert m. induction ps as [|q ps IH]; intros m; simpl; [reflexivity|].
  now rewrite IH, length_insert.
Qed.

Lemma axis_positions_array_Ok js n :
  Forall (in_axis n) js ->
  axis_positions (NArray js) n
    = Ok (map (fun j => Z.to_nat (if j <? 0 then j + Z.of_nat n else j)) js).
Proof.
  intros Hall. unfold axis_positions. apply rmap_Ok_map. intros j Hj.
  rewrite Forall_forall in Hall. specialize (Hall j (proj2 (list_elem_of_In _ _) Hj)).
  unfold in_axis in Hall.
  destruct (Z.leb_spec (- Z.of_nat n) j); [|lia].
  destruct (Z.ltb_spec j (Z.of_nat n)); [|lia]. reflexivity.
Qed.

Lemma axis_positions_array_Raise js n :
  Exists (fun j => ~ in_axis n j) js -> axis_positions (NArray js) n = Raise IndexError.
Proof.
  unfold axis_positions. induction 1 as [j js Hj|j js _ IH]; simpl.
  - unfold in_axis in Hj.
    destruct (Z.leb_spec (- Z.of_nat n) j); destruct (Z.ltb_spec j (Z.of_nat n));
      try reflexivity. lia.
  - destruct (_ && _); [|reflexivity]. cbn [rbind]. now rewrite IH.
Qed.

Lemma axis_positions_array_exn js n e :
  axis_positions (NArray js) n = Raise e -> e = IndexError.
Proof.
  unfold axis_positions. induction js as [|j js IH]; simpl; [discriminate|].
  destruct (_ && _); cbn [rbind]; [|now intros [= <-]].
  destruct (rmap _ js); cbn [rbind]; [discriminate|]. intros [= <-]. now apply IH.
Qed.

(** The mask made for one index list. *)
Lemma mask_of_spec l n m :
  mask_of l n = Ok m ->
  length m = n /\
  forall p, m !! p = Some true <-> (p < n)%nat /\ exists j, In j l /\ names_position n p j.
Proof.
  unfold mask_of. destruct (axis_positions (NArray l) n) as [ps|] eqn:E; [|discriminate].
  cbn [rbind]. intros [= <-]. split.
  - now rewrite length_after_writes, length_replicate.
  - intros p. rewrite marked_after_writes, length_replicate.
    unfold axis_positions in E. apply rmap_Ok_Forall2 in E.
    split.
    + intros [H|[Hin Hlt]]; [apply lookup_replicate in H; destruct H; discriminate|].
      split; [assumption|].
      clear Hlt. induction E as [|j q js ps Hjq _ IH]; [destruct Hin|].
      destruct Hin as [->|Hin].
      * exists j. split; [now left|].
        destruct (Z.leb_spec (- Z.of_nat n) j); [|discriminate].
        destruct (Z.ltb_spec j (Z.of_nat n)); [|discriminate].
        cbn [andb] in Hjq. injection Hjq as <-. unfold names_position.
        destruct (Z.ltb_spec j 0); lia.
      * destruct (IH Hin) as (j' & Hj' & Hn). exists j'. split; [now right|assumption].
    + intros [Hlt (j & Hj & Hn)]. right. split; [|assumption].
      induction E as [|j0 q js ps Hjq _ IH]; [destruct Hj|].
      destruct Hj as [->|Hj]; [|right; now apply IH].
      left.
      destruct (Z.leb_spec (- Z.of_nat n) j); [|discriminate].
      destruct (Z.ltb_spec j (Z.of_nat n)); [|discriminate].
      cbn [andb] in Hjq. injection Hjq as <-. unfold names_position in Hn.
      destruct (Z.ltb_spec j 0); lia.
Qed.

(** [masks] gives one mask of length [n] for each index list, true
    exactly at the positions the list names (a negative index counting
    from the end); it raises [IndexError] when a list holds an index
    outside the axis. *)
Theorem masks_mark_the_listed_positions lists n :
  (Forall (Forall (in_axis n)) lists ->
   exists ms,
     masks lists n = Ok ms /\
     Forall2 (fun l m =>
                length m = n /\
                forall p, m !! p = Some true <->
                          (p < n)%nat /\ exists j, In j l /\ names_position n p j)
             lists ms) /\
  (Exists (Exists (fun j => ~ in_axis n j)) lists -> masks lists n = Raise IndexError).
Proof.
  split.
  - intros Hall. unfold masks. induction Hall as [|l lists Hl _ IH].
    + exists []. split; [reflexivity|constructor].
    + destruct IH as (ms & Hms & Hspec).
      destruct (mask_of l n) as [m|e] eqn:Em.
      * exists (m :: ms). split; [simpl; now rewrite Em, Hms|].
        constructor; [now apply mask_of_spec|assumption].
      * unfold mask_of in Em. now rewrite (axis_positions_array_Ok l n Hl) in Em.
  - unfold masks. induction 1 as [l lists Hl|l lists _ IH]; simpl.
    + unfold mask_of. now rewrite (axis_positions_array_Raise l n Hl).
    + destruct (mask_of l n) as [m|e] eqn:Em.
      * cbn [rbind]. now rewrite IH.
      * unfold mask_of in Em.
        destruct (axis_positions (NArray l) n) as [ps|e'] eqn:E; [discriminate|].
        cbn [rbind] in Em. injection Em as <-.
        apply axis_positions_array_exn in E. now subst.
Qed.

Lemma masks_witness :
  masks [[0; 2]; [-1]] 3 = Ok [[true; false; true]; [false; false; true]] /\
  masks [[0; 3]] 3 = Raise IndexError.
Proof.
  destruct (masks_mark_the_listed_positions [[0; 3]] 3) as [_ Hbad].
  split; [reflexivity|]. apply Hbad.
  constructor. apply Exists_cons_tl. constructor. unfold in_axis. lia.
Defined.

(** ** Filling in data keys *)

Lemma filled_entry_has {V} (dexdata : list (string * V)) exkey d :
  dict_has "datakey" (filled_entry dexdata exkey d) = true.
Proof.
  unfold filled_entry. destruct (dict_has "datakey" d) eqn:E; [exact E|].
  unfold dict_has. now rewrite dict_get_set, String.eqb_refl.
Qed.

Lemma fill_step {V} (dexdata : list (string * V)) (entry : string * nat) h d :
  h !! snd entry = Some (ODict d) ->
  (d0 <- load_dict (snd entry) ;;
   if negb (dict_has "datakey" d0)
   then
     if dict_has (fst entry) dexdata
     then store (snd entry) (ODict (dict_set "datakey" (PStr (fst entry)) d0))
     else store (snd entry) (ODict (dict_set "datakey" (PStr "unspecified in dexdata") d0))
   else ret tt) h
  = (<[snd entry := ODict (filled_entry dexdata (fst entry) d)]> h, Ok tt).
Proof.
  intros Hd. rewrite (bind_Ok _ _ h h d (load_dict_Ok _ _ _ Hd)).
  unfold filled_entry. destruct (dict_has "datakey" d); cbn [negb].
  - unfold ret. now rewrite list_insert_id.
  - now destruct (dict_has (fst entry) dexdata).
Qed.

Lemma fill_loop {V} (dexdata : list (string * V)) (dexamples : list (string * nat)) h :
  List.NoDup (map snd dexamples) ->
  Forall (fun entry => exists d, h !! snd entry = Some (ODict d)) dexamples ->
  exists h',
    for_each (fun entry : string * nat =>
                d <- load_dict (snd entry) ;;
                if negb (dict_has "datakey" d)
                then
                  if dict_has (fst entry) dexdata
                  then store (snd entry) (ODict (dict_set "datakey" (PStr (fst entry)) d))
                  else store (snd entry)
                             (ODict (dict_set "datakey" (PStr "unspecified in dexdata") d))
                else ret tt) dexamples h = (h', Ok tt) /\
    length h' = length h /\
    (forall exkey l d, In (exkey, l) dexamples -> h !! l = Some (ODict d) ->
                       h' !! l = Some (ODict (filled_entry dexdata exkey d))) /\
    (forall l, ~ In l (map snd dexamples) -> h' !! l = h !! l).
Proof.
  revert h. induction dexamples as [|[exkey0 l0] es IH]; intros h Hnd Hall.
  - exists h. repeat split; try reflexivity. intros ? ? ? [].
  - inversion Hnd as [|? ? Hl0 Hnd']; subst. inversion Hall as [|? ? [d0 Hd0] Hall']; subst.
    cbn [snd fst] in *.
    set (h1 := <[l0 := ODict (filled_entry dexdata exkey0 d0)]> h).
    assert (Hlt : (l0 < length h)%nat) by (eapply lookup_lt_Some; eauto).
    assert (Hother : forall l, l <> l0 -> h1 !! l = h !! l).
    { intros l Hne. unfold h1. apply list_lookup_insert_ne. congruence. }
    destruct (IH h1 Hnd') as (h' & Hrun & Hlen & Hin & Hout).
    { apply Forall_forall. intros [k l] Hk. rewrite Forall_forall in Hall'.
      destruct (Hall' _ Hk) as [d Hd]. exists d. cbn [snd] in *.
      rewrite Hother; [assumption|]. intros ->. apply Hl0.
      apply list_elem_of_In in Hk. apply in_map_iff. now exists (k, l0). }
    exists h'. split; [|split; [|split]].
    + cbn [for_each].
      rewrite (bind_Ok _ _ h h1 tt); [exact Hrun|].
      exact (fill_step dexdata (exkey0, l0) h d0 Hd0).
    + rewrite Hlen. apply length_insert.
    + intros exkey l d [Heq|Hk] Hd.
      * injection Heq as <- <-. rewrite (Hout l0 Hl0).
        assert (d = d0) as -> by congruence. now apply list_lookup_insert_eq.
      * assert (Hne : l <> l0).
        { intros ->. apply Hl0. apply in_map_iff. now exists (exkey, l0). }
        apply (Hin exkey l d Hk). now rewrite Hother.
    + intros l Hl. simpl in Hl.
      rewrite Hout by tauto. apply Hother. intros ->. tauto.
Qed.

Lemma fill_loop_noop {V} (dexdata : list (string * V)) (dexamples : list (string * nat)) h :
  Forall (fun entry => exists d, h !! snd entry = Some (ODict d) /\
                                 dict_has "datakey" d = true) dexamples ->
  for_each (fun entry : string * nat =>
              d <- load_dict (snd entry) ;;
              if negb (dict_has "datakey" d)
              then
                if dict_has (fst entry) dexdata
                then store (snd entry) (ODict (dict_set "datakey" (PStr (fst entry)) d))
                else store (snd entry)
                           (ODict (dict_set "datakey" (PStr "unspecified in dexdata") d))
              else ret tt) dexamples h = (h, Ok tt).
Proof.
  induction 1 as [|entry es (d & Hd & Hk) _ IH]; [reflexivity|].
  cbn [for_each]. rewrite (bind_Ok _ _ h h tt); [exact IH|].
  rewrite (bind_Ok _ _ h h d (load_dict_Ok _ _ _ Hd)). now rewrite Hk.
Qed.

(** [fill_in_datakeys] gives every example a [datakey]: an example that
    has one keeps its dictionary as it is; one that has none gets its own
    key as [datakey] if the data dictionary has that key, and the text
    [unspecified in dexdata] otherwise.  Nothing else in the store is
    written, the examples dictionary itself is returned, and running the
    function a second time changes nothing. *)
Theorem fill_in_datakeys_fills {V} (dexamples : list (string * nat))
    (dexdata : list (string * V)) h :
  List.NoDup (map snd dexamples) ->
  Forall (fun entry => exists d, h !! snd entry = Some (ODict d)) dexamples ->
  exists h',
    fill_in_datakeys dexamples dexdata h = (h', Ok dexamples) /\
    (forall exkey l d,
        In (exkey, l) dexamples -> h !! l = Some (ODict d) ->
        h' !! l = Some (ODict (filled_entry dexdata exkey d)) /\
        dict_has "datakey" (filled_entry dexdata exkey d) = true /\
        (forall k, k <> "datakey" ->
                   dict_get k (filled_entry dexdata exkey d) = dict_get k d)) /\
    (forall l, ~ In l (map snd dexamples) -> h' !! l = h !! l) /\
    fill_in_datakeys dexamples dexdata h' = (h', Ok dexamples).
Proof.
  intros Hnd Hall.
  destruct (fill_loop dexdata dexamples h Hnd Hall) as (h' & Hrun & Hlen & Hin & Hout).
  exists h'. split; [|split; [|split]].
  - unfold fill_in_datakeys. now rewrite (bind_Ok _ _ h h' tt Hrun).
  - intros exkey l d Hk Hd. split; [now apply Hin|]. split; [apply filled_entry_has|].
    intros k Hne. unfold filled_entry. destruct (dict_has "datakey" d); [reflexivity|].
    rewrite dict_get_set. now destruct (String.eqb_spec k "datakey").
  - exact Hout.
  - unfold fill_in_datakeys. rewrite (bind_Ok _ _ h' h' tt); [reflexivity|].
    apply fill_loop_noop. apply Forall_forall. intros [exkey l] Hk.
    rewrite Forall_forall in Hall. destruct (Hall _ Hk) as [d Hd]. cbn [snd] in *.
    exists (filled_entry dexdata exkey d). split; [|apply filled_entry_has].
    apply Hin; [now apply list_elem_of_In|assumption].
Qed.

Lemma fill_in_datakeys_witness :
  exists h',
    fill_in_datakeys [("paul15", 0%nat); ("toggleswitch", 1%nat)] [("paul15", tt)]
                     [ODict []; ODict [("datakey", PStr "krumsiek11")]] = 
      (h', Ok [("paul15", 0%nat); ("toggleswitch", 1%nat)]) /\
    h' !! 0%nat = Some (ODict [("datakey", PStr "paul15")]) /\
    h' !! 1%nat = Some (ODict [("datakey", PStr "krumsiek11")]).
Proof.
  destruct (fill_in_datakeys_fills [("paul15", 0%nat); ("toggleswitch", 1%nat)]
              [("paul15", tt)] [ODict []; ODict [("datakey", PStr "krumsiek11")]])
    as (h' & Hrun & Hin & _).
  - repeat constructor; simpl; intuition discriminate.
  - repeat constructor; eexists; reflexivity.
  - exists h'. split; [exact Hrun|]. split.
    + now apply (Hin "paul15" 0%nat []); [left|].
    + now apply (Hin "toggleswitch" 1%nat [("datakey", PStr "krumsiek11")]); [right; left|].
Defined.

(** ** Selecting by lists of positions *)

Lemma in_int64_not_fits z : ~ fits_int64 z -> in_int64 z = false.
Proof.
  unfold fits_int64, in_int64. intros Hn.
  destruct (Z.leb_spec (- 2 ^ 63) z); destruct (Z.ltb_spec z (2 ^ 63)); try reflexivity.
  exfalso. apply Hn. now split.
Qed.

Lemma rmap_fromiter_overflow names js :
  Exists (fun j => ~ fits_int64 j) js ->
  rmap (fromiter_int64 names) (map KInt js) = Raise OverflowError.
Proof.
  induction js as [|j js IH]; intros Hex; [inversion Hex|].
  cbn [map rmap]. unfold fromiter_int64 at 1. cbn [name_idx rbind]. unfold to_int64.
  destruct (in_int64 j) eqn:Ej.
  - cbn [rbind]. rewrite IH; [reflexivity|].
    inversion Hex as [? ? Hj|? ? Hr]; subst; [|assumption].
    exfalso. now rewrite (in_int64_not_fits j Hj) in Ej.
  - reflexivity.
Qed.


(** What the matrix raises for the normalized index, Get raises, and
    nothing has been written by then. *)
Lemma getitem_raises {scipy : Scipy} h ad a ts tv d ix si vi e :
  holds h ad a ts tv d -> is_add_key ix = false ->
  _normalize_indices ad ix h = (h, Ok (si, vi)) ->
  array_getitem a si vi = Raise e ->
  AnnData_getitem ad ix h = (h, Raise e).
Proof.
  intros (HX & _) Hk Hn He. rewrite getitem_body by assumption. unfold getitem_data.
  rewrite (bind_Ok _ _ h h _ Hn). cbn [fst snd].
  rewrite (bind_Ok _ _ h h a (load_array_Ok _ _ _ HX)).
  unfold bind, lift. now rewrite He.
Qed.

(** An int64 array of positions inside the axis selects those rows (or
    columns) in the order of the array, a position as often as it is
    listed; a negative position counts from the end; a position outside
    the axis raises [IndexError].  A Python list of integers selects what
    the array of the same integers selects when they all fit int64, and
    raises [OverflowError] when one does not. *)
Theorem position_list_selects_in_order {scipy : Scipy} h ad r c rows a ts tv d js :
  holds h ad a ts tv d -> well_formed r c rows a ts tv d ->
  numpy_class (klass a) = true ->
  (Forall (in_axis r) js ->
   AnnData_getitem ad (IdxTuple [SelIntArray js; full_slice]) h
     = selection_outcome h a ts tv d rows
         (map (fun j => Z.to_nat (if j <? 0 then j + Z.of_nat r else j)) js) (seq 0 c)) /\
  (Forall (in_axis c) js ->
   AnnData_getitem ad (IdxTuple [full_slice; SelIntArray js]) h
     = selection_outcome h a ts tv d rows (seq 0 r)
         (map (fun j => Z.to_nat (if j <? 0 then j + Z.of_nat c else j)) js)) /\
  (Exists (fun j => ~ in_axis r j) js ->
   AnnData_getitem ad (IdxTuple [SelIntArray js; full_slice]) h = (h, Raise IndexError)) /\
  (Forall fits_int64 js ->
   forall other,
     AnnData_getitem ad (IdxTuple [SelSeq (map KInt js); other]) h
       = AnnData_getitem ad (IdxTuple [SelIntArray js; other]) h /\
     AnnData_getitem ad (IdxTuple [other; SelSeq (map KInt js)]) h
       = AnnData_getitem ad (IdxTuple [other; SelIntArray js]) h) /\
  (Exists (fun j => ~ fits_int64 j) js ->
   AnnData_getitem ad (IdxTuple [SelSeq (map KInt js); full_slice]) h
     = (h, Raise OverflowError)).
Proof.
  intros Hh Hwf Hnp.
  pose proof Hwf as (Hdata & _ & _ & _ & Hits & _ & _ & Hitv & _).
  destruct (rec_field_has _ _ Hits) as [sn Hsn].
  destruct (rec_field_has _ _ Hitv) as [vn Hvn].
  split; [|split; [|split; [|split]]].
  - intros Hjs.
    apply (getitem_selected h ad r c rows a ts tv d _ (SelIntArray js) full_slice sn vn
             (NArray js) (NSlice None None None));
      try assumption; try reflexivity; try exact I.
    + now apply axis_positions_array_Ok.
    + apply axis_positions_full.
  - intros Hjs.
    apply (getitem_selected h ad r c rows a ts tv d _ full_slice (SelIntArray js) sn vn
             (NSlice None None None) (NArray js));
      try assumption; try reflexivity; try exact I.
    + apply axis_positions_full.
    + now apply axis_positions_array_Ok.
  - intros Hbad.
    apply (getitem_raises h ad a ts tv d _ (NArray js) (NSlice None None None));
      try assumption; try reflexivity.
    + now apply (normalize_indices_Ok h ad a ts tv d _ (SelIntArray js) full_slice sn vn).
    + rewrite numpy_getitem by assumption. rewrite Hdata. unfold ndarray_getitem.
      now rewrite (axis_positions_array_Raise js r Hbad).
  - intros Hfit other. pose proof Hh as (_ & Hs & Hv & _). split.
    + apply getitem_same_normal. unfold _normalize_indices.
      rewrite !unpack_pair_left by reflexivity. unfold bind, lift. cbn [fst snd _check_boolean].
      unfold smp_names, bind, lift, load_table. rewrite Hs, Hsn.
      now rewrite (normalize_index_list sn js Hfit), normalize_index_positions.
    + apply getitem_same_normal. unfold _normalize_indices.
      rewrite !unpack_pair_right by reflexivity. unfold bind, lift. cbn [fst snd _check_boolean].
      unfold smp_names, var_names, bind, lift, load_table. rewrite Hs, Hsn, Hv, Hvn.
      now rewrite (normalize_index_list vn js Hfit), normalize_index_positions.
  - intros Hbad. rewrite getitem_body by reflexivity. unfold getitem_data.
    apply bind_Raise.
    pose proof Hh as (_ & Hs & _).
    unfold _normalize_indices, smp_names, bind, lift, load_table.
    cbn [_unpack_index _check_ellipsis first_ellipsis is_Ellipsis option_map rbind fst snd
         _check_boolean full_slice].
    rewrite Hs, Hsn. cbn [_normalize_index].
    now rewrite (rmap_fromiter_overflow sn js Hbad).
Qed.

Lemma position_list_witness :
  AnnData_getitem adata_named (IdxTuple [full_slice; SelIntArray [2; 0]]) heap_named =
    (heap_named ++
       [OArray (mkArray cls_ndarray false (Data2 2 2 [[3; 1]; [6; 4]]));
        OTable (mkBoundRecArr [(SMP_NAMES, StrCol ["A"; "B"])] SMP_NAMES);
        OTable (mkBoundRecArr [(VAR_NAMES, StrCol ["c"; "a"])] VAR_NAMES);
        ODict []],
     Ok (ItemData (mkAnnData Array 4%nat 5%nat 6%nat 7%nat))).
Proof.
  destruct (position_list_selects_in_order heap_named adata_named _ _ _ _ _ _ _ [2; 0]
              holds_named well_formed_named eq_refl) as (_ & Hc & _).
  apply Hc. repeat constructor; unfold in_axis; lia.
Defined.

(** ** Arrays on both axes *)

Lemma bind_lift_Ok {A B} (a : A) (k : A -> M B) h : bind (lift (Ok a)) k h = k a h.
Proof. reflexivity. Qed.

Lemma bind_lift_Raise {A B} e (k : A -> M B) h :
  bind (lift (Raise e)) k h = (h, Raise e).
Proof. reflexivity. Qed.

Lemma ndarray_getitem_lists k r c rows js1 js2 :
  plain_ndarray k = true ->
  ndarray_getitem k (Data2 r c rows) (NArray js1) (NArray js2) = Raise IndexError \/
  exists rs cs cells,
    axis_positions (NArray js1) r = Ok rs /\ axis_positions (NArray js2) c = Ok cs /\
    ndarray_getitem k (Data2 r c rows) (NArray js1) (NArray js2) = Ok (Data1 cells).
Proof.
  intros Hk. unfold ndarray_getitem.
  destruct (axis_positions (NArray js1) r) as [rs|e] eqn:Ers;
    [|left; cbn [rbind]; now rewrite (axis_positions_array_exn _ _ _ Ers)].
  destruct (axis_positions (NArray js2) c) as [cs|e] eqn:Ecs;
    [|left; cbn [rbind]; now rewrite (axis_positions_array_exn _ _ _ Ecs)].
  cbn [rbind].
  destruct (paired rs cs) as [ij|e] eqn:Ep.
  - right. cbn [rbind]. eexists rs, cs, _. split; [reflexivity|]. split; [reflexivity|].
    destruct k; try discriminate Hk; reflexivity.
  - left. unfold paired in Ep.
    destruct (Nat.eqb (length rs) (length cs)); [discriminate|].
    destruct (Nat.eqb (length rs) 1); [discriminate|].
    destruct (Nat.eqb (length cs) 1); [discriminate|].
    injection Ep as <-. reflexivity.
Qed.

Lemma plain_is_numpy k : plain_ndarray k = true -> numpy_class k = true.
Proof. now destruct k. Qed.

(** Two arrays of positions give no container when the matrix is an
    [ndarray]: numpy pairs them off and returns a 1-D array, and Get
    raises [IndexError] (or [AssertionError], when one array has been
    stretched to the length of the other). *)
Lemma getitem_arrays_raise {scipy : Scipy} h ad r c rows a ts tv d ix js1 js2 :
  holds h ad a ts tv d -> well_formed r c rows a ts tv d ->
  plain_ndarray (klass a) = true -> is_add_key ix = false ->
  _normalize_indices ad ix h = (h, Ok (NArray js1, NArray js2)) ->
  snd (AnnData_getitem ad ix h) = Raise IndexError \/
  snd (AnnData_getitem ad ix h) = Raise AssertionError.
Proof.
  intros Hh Hwf Hk Hadd Hn.
  pose proof Hwf as (Hdata & _ & Ws & _ & Hits & Wv & _ & Hitv & _).
  rewrite getitem_body by assumption. unfold getitem_data.
  rewrite (bind_Ok _ _ h h _ Hn). cbn [fst snd].
  pose proof Hh as (HX & Hs & Hv & _).
  rewrite (bind_Ok _ _ h h a (load_array_Ok _ _ _ HX)).
  rewrite numpy_getitem by (now apply plain_is_numpy). rewrite Hdata.
  destruct (ndarray_getitem_lists (klass a) r c rows js1 js2 Hk)
    as [HA|(rs & cs & cells & Ers & Ecs & HA)]; rewrite HA; cbn [rbind].
  - left. now rewrite bind_lift_Raise.
  - rewrite bind_lift_Ok, bind_alloc. cbn [data].
    set (h1 := h ++ [OArray (mkArray (klass a) (dtype_names a) (Data1 cells))]).
    rewrite (bind_Ok _ _ h1 h1 ts)
      by (apply load_table_Ok; unfold h1; now apply lookup_app_l_Some).
    assert (Hrs : rec_getitem (dtype ts) (NArray js1) = Ok (rec_rows rs (dtype ts))).
    { unfold rec_getitem. now rewrite (rec_len_wf _ _ Ws), Ers. }
    rewrite Hrs, bind_lift_Ok.
    rewrite (bind_Ok _ _ h1 h1 tv)
      by (apply load_table_Ok; unfold h1; now apply lookup_app_l_Some).
    assert (Hcs : rec_getitem (dtype tv) (NArray js2) = Ok (rec_rows cs (dtype tv))).
    { unfold rec_getitem. now rewrite (rec_len_wf _ _ Wv), Ecs. }
    rewrite Hcs, bind_lift_Ok.
    change (shape_at (Data1 cells) 0) with (@Ok nat (length cells)).
    rewrite bind_lift_Ok.
    change (shape_at (Data1 cells) 1) with (@Raise nat IndexError).
    unfold bind at 1, assert.
    destruct (Nat.eqb (rec_len (rec_rows rs (dtype ts))) (length cells));
      [|right; reflexivity].
    left. unfold ret at 1. now rewrite bind_lift_Raise.
Qed.

Lemma unpack_sequences rsel csel :
  is_sequence rsel = true -> is_sequence csel = true ->
  _unpack_index (IdxTuple [rsel; csel]) = Ok (_check_boolean rsel, _check_boolean csel).
Proof. destruct rsel; try discriminate; destruct csel; try discriminate; reflexivity. Qed.

Lemma normalize_sequence sel names :
  is_sequence sel = true ->
  (exists js, _normalize_index (_check_boolean sel) names = Ok (NArray js)) \/
  (exists e, _normalize_index (_check_boolean sel) names = Raise e /\
             (e = IndexError \/ (e = OverflowError /\ ~ list_fits sel))).
Proof.
  destruct sel as [| |ks|js|bs| |]; try discriminate; intros _.
  - destruct (_normalize_index (_check_boolean (SelSeq ks)) names) as [ni|e] eqn:E.
    + left. simpl in E. destruct (rmap _ ks); [|discriminate]. injection E as <-. eauto.
    + right. exists e. split; [reflexivity|]. exact (normalize_index_raises _ _ _ E).
  - left. now exists js.
  - left. now exists (nonzero bs).
Qed.

(** Index lists or arrays on both axes give no container when the matrix
    is an [ndarray] or a masked array: Get raises [IndexError] or
    [AssertionError], or [OverflowError] for a list with an integer
    outside int64. *)
Theorem index_lists_on_both_axes_raise {scipy : Scipy} h ad r c rows a ts tv d rsel csel :
  holds h ad a ts tv d -> well_formed r c rows a ts tv d ->
  plain_ndarray (klass a) = true ->
  is_sequence rsel = true -> is_sequence csel = true ->
  exists e,
    snd (AnnData_getitem ad (IdxTuple [rsel; csel]) h) = Raise e /\
    (e = IndexError \/ e = AssertionError \/
     (e = OverflowError /\ ~ (list_fits rsel /\ list_fits csel))).
Proof.
  intros Hh Hwf Hk Hr Hc.
  pose proof Hwf as (_ & _ & _ & _ & Hits & _ & _ & Hitv & _).
  destruct (rec_field_has _ _ Hits) as [sn Hsn].
  destruct (rec_field_has _ _ Hitv) as [vn Hvn].
  pose proof Hh as (_ & Hs & Hv & _).
  assert (Hfail : forall e, _normalize_indices ad (IdxTuple [rsel; csel]) h = (h, Raise e) ->
                            snd (AnnData_getitem ad (IdxTuple [rsel; csel]) h) = Raise e).
  { intros e He. rewrite getitem_body by reflexivity. unfold getitem_data.
    now rewrite (bind_Raise _ _ h h e He). }
  destruct (normalize_sequence rsel sn Hr) as [[js1 E1]|(e & E1 & He)].
  2:{ exists e. split.
      - apply Hfail. unfold _normalize_indices, smp_names, bind, lift, load_table.
        rewrite (unpack_sequences _ _ Hr Hc). cbn [fst snd]. now rewrite Hs, Hsn, E1.
      - destruct He as [->|[-> Hn]]; [now left|].
        right. right. split; [reflexivity|]. now intros [Hf _]. }
  destruct (normalize_sequence csel vn Hc) as [[js2 E2]|(e & E2 & He)].
  2:{ exists e. split.
      - apply Hfail. unfold _normalize_indices, smp_names, var_names, bind, lift, load_table.
        rewrite (unpack_sequences _ _ Hr Hc). cbn [fst snd].
        now rewrite Hs, Hsn, E1, Hv, Hvn, E2.
      - destruct He as [->|[-> Hn]]; [now left|].
        right. right. split; [reflexivity|]. now intros [_ Hf]. }
  assert (Hn : _normalize_indices ad (IdxTuple [rsel; csel]) h
               = (h, Ok (NArray js1, NArray js2))).
  { apply (normalize_indices_Ok h ad a ts tv d _ (_check_boolean rsel) (_check_boolean csel)
             sn vn); try assumption. now apply unpack_sequences. }
  destruct (getitem_arrays_raise h ad r c rows a ts tv d (IdxTuple [rsel; csel]) js1 js2
              Hh Hwf Hk eq_refl Hn)
    as [E|E]; [exists IndexError|exists AssertionError]; (split; [exact E|tauto]).
Qed.

Lemma index_lists_on_both_axes_witness :
  exists e,
    snd (AnnData_getitem adata_named
           (IdxTuple [SelSeq [KInt 0; KInt 1]; SelIntArray [0; 1]]) heap_named) = Raise e /\
    (e = IndexError \/ e = AssertionError \/
     (e = OverflowError /\
      ~ (list_fits (SelSeq [KInt 0; KInt 1]) /\ list_fits (SelIntArray [0; 1])))).
Proof.
  exact (index_lists_on_both_axes_raise heap_named adata_named _ _ _ _ _ _ _
           (SelSeq [KInt 0; KInt 1]) (SelIntArray [0; 1])
           holds_named well_formed_named eq_refl eq_refl eq_refl).
Defined.

(** ** What Get selects, whatever the index *)

Lemma axis_positions_exn ni n e :
  axis_positions ni n = Raise e -> e = IndexError \/ e = ValueError.
Proof.
  destruct ni as [start stop step|js].
  - unfold axis_positions, slice_bounds.
    destruct (default 1 step =? 0); cbn [rbind]; [|discriminate].
    intros [= <-]. now right.
  - intros H. left. now apply (axis_positions_array_exn js n).
Qed.

Lemma normalize_key_or_slice sel names ni :
  is_key_or_slice sel = true -> _normalize_index sel names = Ok ni ->
  exists start stop step, ni = NSlice start stop step.
Proof.
  destruct sel; try discriminate; intros _; simpl.
  - destruct (name_idx names k); [|discriminate]. cbn [rbind]. intros [= <-]. eauto.
  - destruct (name_idx_bound names start); [|discriminate]. cbn [rbind].
    destruct (name_idx_bound names stop); [|discriminate]. cbn [rbind].
    intros [= <-]. eauto.
Qed.

(** With a key or a slice on at least one axis of a matrix of numpy's,
    Get either raises and writes nothing, or returns the container of the
    selected rows and columns: the rows of its matrix and the rows of its
    row table are taken at the same positions of the original, and so are
    the columns and the rows of its column table; every position lies
    inside the axis.  What it raises is [IndexError], [ValueError] (for a
    slice with step zero) or [OverflowError] (for a list with an integer
    outside int64). *)
Theorem get_keeps_annotation_aligned {scipy : Scipy} h ad r c rows a ts tv d ix rsel csel :
  holds h ad a ts tv d -> well_formed r c rows a ts tv d ->
  numpy_class (klass a) = true ->
  is_add_key ix = false -> _unpack_index ix = Ok (rsel, csel) ->
  is_key_or_slice rsel || is_key_or_slice csel = true ->
  (exists e, AnnData_getitem ad ix h = (h, Raise e) /\
             (e = IndexError \/ e = ValueError \/
              (e = OverflowError /\ ~ (list_fits rsel /\ list_fits csel)))) \/
  (exists rs cs,
      Forall (fun p => (p < r)%nat) rs /\ Forall (fun p => (p < c)%nat) cs /\
      AnnData_getitem ad ix h = selection_outcome h a ts tv d rows rs cs).
Proof.
  intros Hh Hwf Hnp Hk Hu Hsimple.
  pose proof Hwf as (Hdata & _ & _ & _ & Hits & _ & _ & Hitv & _).
  destruct (rec_field_has _ _ Hits) as [sn Hsn].
  destruct (rec_field_has _ _ Hitv) as [vn Hvn].
  pose proof Hh as (HX & Hs & Hv & _).
  assert (Hnorm : forall si vi, _normalize_index rsel sn = Ok si ->
                                _normalize_index csel vn = Ok vi ->
                                match si, vi with NArray _, NArray _ => False | _, _ => True end).
  { intros si vi Hsi Hvi. apply orb_true_iff in Hsimple as [Hr|Hc].
    - destruct (normalize_key_or_slice _ _ _ Hr Hsi) as (? & ? & ? & ->). exact I.
    - destruct (normalize_key_or_slice _ _ _ Hc Hvi) as (? & ? & ? & ->).
      now destruct si. }
  assert (Hfail : forall e, _normalize_indices ad ix h = (h, Raise e) ->
                            AnnData_getitem ad ix h = (h, Raise e)).
  { intros e He. rewrite getitem_body by assumption. unfold getitem_data.
    now rewrite (bind_Raise _ _ h h e He). }
  destruct (_normalize_index rsel sn) as [si|e] eqn:Esi.
  2: { left. exists e. split.
       - apply Hfail. unfold _normalize_indices, smp_names, bind, lift, load_table.
         rewrite Hu. cbn [fst snd]. now rewrite Hs, Hsn, Esi.
       - destruct (normalize_index_raises _ _ _ Esi) as [->|[-> Hn]]; [now left|].
         right. right. split; [reflexivity|]. now intros [Hf _]. }
  destruct (_normalize_index csel vn) as [vi|e] eqn:Evi.
  2: { left. exists e. split.
       - apply Hfail. unfold _normalize_indices, smp_names, var_names, bind, lift, load_table.
         rewrite Hu. cbn [fst snd]. now rewrite Hs, Hsn, Esi, Hv, Hvn, Evi.
       - destruct (normalize_index_raises _ _ _ Evi) as [->|[-> Hn]]; [now left|].
         right. right. split; [reflexivity|]. now intros [_ Hf]. }
  assert (Hn : _normalize_indices ad ix h = (h, Ok (si, vi)))
    by (now apply (normalize_indices_Ok h ad a ts tv d ix rsel csel sn vn)).
  assert (Hraise : forall e, ndarray_getitem (klass a) (Data2 r c rows) si vi = Raise e ->
                             AnnData_getitem ad ix h = (h, Raise e)).
  { intros e He. apply (getitem_raises h ad a ts tv d ix si vi); try assumption.
    rewrite numpy_getitem by assumption. now rewrite Hdata, He. }
  destruct (axis_positions si r) as [rs|e] eqn:Ers.
  2: { left. exists e. split.
       - apply Hraise. unfold ndarray_getitem. now rewrite Ers.
       - destruct (axis_positions_exn si r e Ers) as [->| ->]; tauto. }
  destruct (axis_positions vi c) as [cs|e] eqn:Ecs.
  2: { left. exists e. split.
       - apply Hraise. unfold ndarray_getitem. now rewrite Ers, Ecs.
       - destruct (axis_positions_exn vi c e Ecs) as [->| ->]; tauto. }
  right. exists rs, cs.
  split; [now apply (axis_positions_in_range si)|].
  split; [now apply (axis_positions_in_range vi)|].
  apply (getitem_selected h ad r c rows a ts tv d ix rsel csel sn vn si vi);
    try assumption. now apply Hnorm.
Qed.

Lemma get_keeps_annotation_aligned_witness :
  (exists e, AnnData_getitem adata_named
               (IdxTuple [SelSlice None None (Some (-1)); SelSeq [KStr "c"; KStr "a"]])
               heap_named = (heap_named, Raise e) /\
             (e = IndexError \/ e = ValueError \/
              (e = OverflowError /\
               ~ (list_fits (SelSlice None None (Some (-1))) /\
                  list_fits (SelSeq [KStr "c"; KStr "a"]))))) \/
  (exists rs cs,
      Forall (fun p => (p < 2)%nat) rs /\ Forall (fun p => (p < 3)%nat) cs /\
      AnnData_getitem adata_named
        (IdxTuple [SelSlice None None (Some (-1)); SelSeq [KStr "c"; KStr "a"]]) heap_named
      = selection_outcome heap_named mat23
          (mkBoundRecArr [(SMP_NAMES, StrCol ["A"; "B"])] SMP_NAMES)
          (mkBoundRecArr [(VAR_NAMES, StrCol ["a"; "b"; "c"])] VAR_NAMES) []
          [[1; 2; 3]; [4; 5; 6]] rs cs).
Proof.
  apply (get_keeps_annotation_aligned heap_named adata_named 2 3 _ _ _ _ _
           (IdxTuple [SelSlice None None (Some (-1)); SelSeq [KStr "c"; KStr "a"]])
           (SelSlice None None (Some (-1))) (SelSeq [KStr "c"; KStr "a"])
           holds_named well_formed_named); reflexivity.
Defined.

(** ** Boolean masks *)




(** ** The selector -1 *)

(** C10, as the claim states it, fails: the container of [sp.eye(2)] from
    [test_creation] is valid, and indexing it with -1 raises [TypeError],
    whatever the other sparse formats do: a [dia_matrix] has no
    [__getitem__]. *)
Lemma C10_counterexample :
  exists h ad,
    AnnData_init (PRef 0%nat) SrcNone SrcNone [] [OArray eye2] = (h, Ok ad) /\
    valid h ad /\
    forall scipy : Scipy,
      AnnData_getitem ad (IdxOne (SelKey (KInt (-1)))) h = (h, Raise TypeError).
Proof.
  eexists _, _. split; [reflexivity|]. split.
  - exists 2%nat, 2%nat, [[1; 0]; [0; 1]], eye2.
    eexists _, _, _. split; [repeat split|].
    unfold well_formed, wf_grid, wf_fields, no_parameter_name.
    repeat split; try reflexivity; try discriminate; repeat constructor.
  - intros scipy. reflexivity.
Qed.

(** C10 (amended).  An integer [i] is normalized to the slice from [i] to
    [i + 1] with step 1.  For -1 that is the slice from -1 to 0, which is
    empty on every axis: for a valid container whose matrix is numpy's,
    [adata[-1, :]] and [adata[-1]] are containers of no rows,
    [adata[:, -1]] is a container of no columns, and none of them
    raises. *)
Theorem C10_minus_one_selects_nothing {scipy : Scipy} h ad r c rows a ts tv d :
  holds h ad a ts tv d -> well_formed r c rows a ts tv d ->
  numpy_class (klass a) = true ->
  let no_rows :=
    (h ++ [OArray (mkArray (klass a) (dtype_names a) (Data2 0 c []));
           OTable (mkBoundRecArr (rec_rows [] (dtype ts)) SMP_NAMES);
           OTable (mkBoundRecArr (dtype tv) VAR_NAMES);
           ODict d],
     Ok (ItemData (mkAnnData (recorded_storage_type (klass a))
                     (length h) (length h + 1)%nat (length h + 2)%nat (length h + 3)%nat))) in
  (forall i names,
      _normalize_index (SelKey (KInt i)) names = Ok (NSlice (Some i) (Some (i + 1)) (Some 1))) /\
  (forall n, axis_positions (NSlice (Some (-1)) (Some (-1 + 1)) (Some 1)) n = Ok []) /\
  AnnData_getitem ad (IdxTuple [SelKey (KInt (-1)); full_slice]) h = no_rows /\
  AnnData_getitem ad (IdxOne (SelKey (KInt (-1)))) h = no_rows /\
  AnnData_getitem ad (IdxTuple [full_slice; SelKey (KInt (-1))]) h =
    (h ++ [OArray (mkArray (klass a) (dtype_names a) (Data2 r 0 (map (fun _ => []) rows)));
           OTable (mkBoundRecArr (dtype ts) SMP_NAMES);
           OTable (mkBoundRecArr (rec_rows [] (dtype tv)) VAR_NAMES);
           ODict d],
     Ok (ItemData (mkAnnData (recorded_storage_type (klass a))
                     (length h) (length h + 1)%nat (length h + 2)%nat (length h + 3)%nat))).
Proof.
  intros Hh Hwf Hnp no_rows.
  pose proof Hwf as (Hd & [Hlen Hrows] & Hts & Hnts & Hits & Htv & Hntv & Hitv & Hres).
  destruct (rec_field_has _ _ Hits) as [sn Hsn].
  destruct (rec_field_has _ _ Hitv) as [vn Hvn].
  assert (Hrowsel : forall ix,
             is_add_key ix = false ->
             _unpack_index ix = Ok (SelKey (KInt (-1)), full_slice) ->
             AnnData_getitem ad ix h = no_rows).
  { intros ix Hk Hu.
    rewrite (getitem_positions h ad r c rows a ts tv d ix
               (NSlice (Some (-1)) (Some 0) (Some 1)) (NSlice None None None)
               [] (seq 0 c) Hh Hwf Hnp Hk).
    - unfold no_rows. rewrite length_seq. cbn [length pick omap map].
      now rewrite (rec_rows_all _ _ Htv).
    - eapply normalize_indices_Ok; eauto; reflexivity.
    - exact I.
    - apply axis_positions_minus_one.
    - constructor.
    - apply axis_positions_full.
    - apply seq_in_range. }
  split; [reflexivity|]. split; [intros n; apply axis_positions_minus_one|].
  split; [now apply Hrowsel|]. split; [now apply Hrowsel|].
  rewrite (getitem_positions h ad r c rows a ts tv d
             (IdxTuple [full_slice; SelKey (KInt (-1))])
             (NSlice None None None) (NSlice (Some (-1)) (Some 0) (Some 1))
             (seq 0 r) [] Hh Hwf Hnp eq_refl).
  - rewrite length_seq. cbn [length].
    rewrite (pick_seq_all rows r Hlen), map_pick_nil.
    now rewrite (rec_rows_all _ _ Hts).
  - eapply normalize_indices_Ok; eauto; reflexivity.
  - exact I.
  - apply axis_positions_full.
  - apply seq_in_range.
  - apply axis_positions_minus_one.
  - constructor.
Qed.

Lemma C10_witness :
  AnnData_getitem adata_named (IdxTuple [SelKey (KInt (-1)); full_slice]) heap_named =
    (heap_named ++
       [OArray (mkArray cls_ndarray false (Data2 0 3 []));
        OTable (mkBoundRecArr [(SMP_NAMES, StrCol [])] SMP_NAMES);
        OTable (mkBoundRecArr [(VAR_NAMES, StrCol ["a"; "b"; "c"])] VAR_NAMES);
        ODict []],
     Ok (ItemData (mkAnnData Array 4%nat 5%nat 6%nat 7%nat))).
Proof.
  exact (proj1 (proj2 (proj2 (C10_minus_one_selects_nothing
                                heap_named adata_named 2 3 [[1; 2; 3]; [4; 5; 6]] mat23 _ _ []
                                holds_named well_formed_named eq_refl)))).
Defined.
